(** * CRDW Sweep & Specify: system resolution, keyword matching, CSV export

    A shallow embedding of the JavaScript sources

      - [system-logic.js]   (modules [SystemLogic] and [SystemFiles])
      - [csv-download.js]   (modules [CsvDownload] and [CsvFiles]; the copy
                            that exports by schema: [SchemaDownload])
      - [github-push.js]    (module [GitHubPush])
      - [app.js]            (modules [DictApp], [Selection] and [Columns])
      - [search.js]         (module [SearchEngine])
      - the proxy worker    (module [Worker])

    together with the properties of the design document that concern them.

    Conventions of the embedding.

    - A JavaScript string is a [string]: a sequence of code units, each in the
      range U+0000..U+00FF.  On that range [String.prototype.toLowerCase] is a
      map over single code units and [trim] removes the code units
      U+0009..U+000D, U+0020 and U+00A0.
    - A [Date] is its time value: [Some ms] (milliseconds since the epoch,
      UTC) or [None] for an Invalid Date, whose time value is NaN.  The
      relational operators on dates compare time values, and every comparison
      with NaN is false.
    - A JavaScript object used as a record of columns is an association list
      in insertion order, which is the order of [Object.keys] and
      [Object.values] for keys that are not array indices.
    - The objects of [state] that are used as dictionaries keyed by row key or
      by file name are finite maps ([gmap]). *)

From stdpp Require Import gmap strings list fin_maps.
From Stdlib Require Import ZArith Ascii String List Lia Bool DecimalString DecimalNat.
Import ListNotations.

Local Open Scope string_scope.
Local Open Scope Z_scope.

(** ** JavaScript string primitives *)

Module JS.

(** [toLowerCase] on one code unit: A..Z and the Latin-1 capitals
    U+00C0..U+00DE (without the multiplication sign U+00D7) move up by 32. *)
Definition lowerChar (c : ascii) : ascii :=
  let n := N_of_ascii c in
  if (((65 <=? n) && (n <=? 90)) ||
      ((192 <=? n) && (n <=? 222) && negb (n =? 215)))%N
  then ascii_of_N (n + 32) else c.

Fixpoint toLowerCase (s : string) : string :=
  match s with
  | EmptyString => EmptyString
  | String c r => String (lowerChar c) (toLowerCase r)
  end.

(** White space and line terminators removed by [trim]. *)
Definition isSpace (c : ascii) : bool :=
  let n := N_of_ascii c in
  (((9 <=? n) && (n <=? 13)) || (n =? 32) || (n =? 160))%N.

Fixpoint trimStart (s : string) : string :=
  match s with
  | String c r => if isSpace c then trimStart r else s
  | EmptyString => EmptyString
  end.

Fixpoint trimEnd (s : string) : string :=
  match s with
  | EmptyString => EmptyString
  | String c r =>
      match trimEnd r with
      | EmptyString => if isSpace c then EmptyString else String c EmptyString
      | r' => String c r'
      end
  end.

Definition trim (s : string) : string := trimEnd (trimStart s).

(** [!s] for a string: only the empty string is falsy. *)
Definition isEmpty (s : string) : bool :=
  match s with EmptyString => true | _ => false end.

(** [s.startsWith(p)] *)
Fixpoint startsWith (s p : string) : bool :=
  match p, s with
  | EmptyString, _ => true
  | String a p', String b s' => Ascii.eqb a b && startsWith s' p'
  | String _ _, EmptyString => false
  end.

(** [s.endsWith(p)] *)
Fixpoint endsWith (s p : string) : bool :=
  String.eqb s p ||
  match s with
  | EmptyString => false
  | String _ s' => endsWith s' p
  end.

(** [s.includes(t)] *)
Fixpoint includes (s t : string) : bool :=
  startsWith s t ||
  match s with
  | EmptyString => false
  | String _ s' => includes s' t
  end.

(** [s.indexOf(t)]: the first position at which [t] occurs, or -1. *)
Fixpoint indexOfFrom (i : Z) (s t : string) : Z :=
  if startsWith s t then i
  else match s with
       | EmptyString => -1
       | String _ s' => indexOfFrom (i + 1) s' t
       end.

Definition indexOf (s t : string) : Z := indexOfFrom 0 s t.

(** [l.join(sep)] *)
Fixpoint join (sep : string) (l : list string) : string :=
  match l with
  | [] => EmptyString
  | [x] => x
  | x :: r => x ++ sep ++ join sep r
  end.

(** The characters that the CSV writer looks for. *)
Definition dquote : ascii := ascii_of_N 34.
Definition comma : ascii := ascii_of_N 44.
Definition newline : ascii := ascii_of_N 10.

Definition str (c : ascii) : string := String c EmptyString.

(** [s.replace(/\x22/g, '\x22\x22')], where \x22 is the double quote: every
    double quote is doubled. *)
Fixpoint doubleQuotes (s : string) : string :=
  match s with
  | EmptyString => EmptyString
  | String c r =>
      if Ascii.eqb c dquote
      then String dquote (String dquote (doubleQuotes r))
      else String c (doubleQuotes r)
  end.

(** The two alternatives of the regular expression [/^\*+|\*+$/g]: the run
    of stars at the start of the string and the run of stars at its end. *)
Definition isStar (c : ascii) : bool := Ascii.eqb c "*"%char.

Fixpoint dropLeadingStars (s : string) : string :=
  match s with
  | String c r => if isStar c then dropLeadingStars r else s
  | EmptyString => EmptyString
  end.

Fixpoint dropTrailingStars (s : string) : string :=
  match s with
  | EmptyString => EmptyString
  | String c r =>
      match dropTrailingStars r with
      | EmptyString => if isStar c then EmptyString else String c EmptyString
      | r' => String c r'
      end
  end.

(** [s.replace(/^\*+|\*+$/g, '')] *)
Definition stripStars (s : string) : string :=
  dropTrailingStars (dropLeadingStars s).

(** Decimal digits of a non-negative array index, as in [file + ':' + idx]. *)
Definition ofIndex (n : nat) : string :=
  NilEmpty.string_of_uint (Nat.to_uint n).

End JS.

(** ** Dates *)

Definition Date : Type := option Z.

(** Days from 1970-01-01 to the civil date [y]-[m]-[d] (proleptic
    Gregorian calendar), the [MakeDay] of the language specification. *)
Definition MakeDay (y m d : Z) : Z :=
  let y' := if m <=? 2 then y - 1 else y in
  let era := y' / 400 in
  let yoe := y' - era * 400 in
  let mp := if m >? 2 then m - 3 else m + 9 in
  let doy := (153 * mp + 2) / 5 + d - 1 in
  let doe := yoe * 365 + yoe / 4 - yoe / 100 + doy in
  era * 146097 + doe - 719468.

Definition msPerDay : Z := 86400000.

(** [new Date('YYYY-MM-DD')]: a date-only form is midnight UTC. *)
Definition newDate (y m d : Z) : Date := Some (MakeDay y m d * msPerDay).

(** An Invalid Date, as [new Date('')] or [new Date('garbage')]. *)
Definition InvalidDate : Date := None.

(** [a < b] and [a >= b] on dates. *)
Definition date_lt (a b : Date) : bool :=
  match a, b with
  | Some x, Some y => x <? y
  | _, _ => false
  end.

Definition date_ge (a b : Date) : bool :=
  match a, b with
  | Some x, Some y => x >=? y
  | _, _ => false
  end.

Definition date_le (a b : Date) : bool :=
  match a, b with
  | Some x, Some y => x <=? y
  | _, _ => false
  end.

(** ** system-logic.js *)

Module SystemLogic.

Definition EPIC_GOLIVE : Date := newDate 2023 6 3.
Definition ICD10_START : Date := newDate 2015 10 1.

(** [systems.push(x)] under a condition. *)
Definition pushIf (c : bool) (x : string) (systems : list string) : list string :=
  if c then systems ++ [x] else systems.

(** [if (systems.length === 0) systems.push(x)] *)
Definition pushIfEmpty (x : string) (systems : list string) : list string :=
  if (Z.of_nat (length systems) =? 0) then systems ++ [x] else systems.

Definition getDxSystems (dateStart dateEnd : Date) : list string :=
  let systems := [] in
  let systems := pushIf (date_ge dateEnd ICD10_START) "icd10" systems in
  let systems := pushIf (date_lt dateStart ICD10_START) "icd9" systems in
  pushIfEmpty "icd10" systems.

Definition getMedicationSystems (beforeEpic afterEpic outpatient inpatient : bool)
  : list string :=
  let systems := [] in
  let systems := pushIf afterEpic "epic" systems in
  let systems := pushIf (beforeEpic && inpatient) "meditech" systems in
  let systems := pushIf (beforeEpic && outpatient) "centricity" systems in
  pushIfEmpty "epic" systems.

Definition getLabSystems (beforeEpic afterEpic : bool) : list string :=
  let systems := [] in
  let systems := pushIf afterEpic "epic" systems in
  let systems := pushIf beforeEpic "meditech" systems in
  pushIfEmpty "epic" systems.

Definition getProcedureSystems (beforeEpic afterEpic : bool) : list string :=
  let systems := [] in
  let systems := pushIf afterEpic "epic" systems in
  let systems := pushIf beforeEpic "gecb" systems in
  pushIfEmpty "epic" systems.

Definition getLocationSystems (beforeEpic afterEpic outpatient inpatient : bool)
  : list string :=
  let systems := [] in
  let systems := pushIf afterEpic "epic" systems in
  let systems := pushIf (beforeEpic && outpatient) "gecb" systems in
  let systems := pushIf (beforeEpic && inpatient) "meditech" systems in
  pushIfEmpty "epic" systems.

Definition getActiveSystems (type : string) (dateStart dateEnd : Date)
    (outpatient inpatient : bool) : list string :=
  let beforeEpic := date_lt dateStart EPIC_GOLIVE in
  let afterEpic := date_ge dateEnd EPIC_GOLIVE in
  if String.eqb type "dx" then getDxSystems dateStart dateEnd
  else if String.eqb type "medication" then
    getMedicationSystems beforeEpic afterEpic outpatient inpatient
  else if String.eqb type "lab" then getLabSystems beforeEpic afterEpic
  else if String.eqb type "location" then
    getLocationSystems beforeEpic afterEpic outpatient inpatient
  else if String.eqb type "procedure" then getProcedureSystems beforeEpic afterEpic
  else [].

End SystemLogic.

(** ** Rows

    A raw row, as parsed from a dictionary CSV file, maps column names to
    strings.  A unified row carries in addition the boolean [desired]. *)

Inductive Value : Type :=
| VStr (s : string)
| VBool (b : bool).

Definition RawRow : Type := list (string * string).
Definition Row : Type := list (string * Value).

Module Obj.

(** [row[col]]; [None] is [undefined]. *)
Fixpoint get {A} (row : list (string * A)) (col : string) : option A :=
  match row with
  | [] => None
  | (k, v) :: r => if String.eqb k col then Some v else get r col
  end.

(** Writing a property: an existing key keeps its position, a new key goes
    to the end. *)
Fixpoint set {A} (row : list (string * A)) (col : string) (v : A)
  : list (string * A) :=
  match row with
  | [] => [(col, v)]
  | (k, w) :: r =>
      if String.eqb k col then (k, v) :: r else (k, w) :: set r col v
  end.

(** [Object.keys(row)] and [Object.values(row)] *)
Definition keys {A} (row : list (string * A)) : list string := map fst row.
Definition values {A} (row : list (string * A)) : list A := map snd row.

(** Truthiness of a property value. *)
Definition truthy (v : option Value) : bool :=
  match v with
  | None => false
  | Some (VStr s) => negb (JS.isEmpty s)
  | Some (VBool b) => b
  end.

(** [String(v)], also [v.toString()] *)
Definition toStr (v : Value) : string :=
  match v with
  | VStr s => s
  | VBool true => "true"
  | VBool false => "false"
  end.

(** [a || b] on strings, with [undefined] for a missing left operand. *)
Definition orStr (a : option string) (b : string) : string :=
  match a with
  | Some s => if JS.isEmpty s then b else s
  | None => b
  end.

(** [arr.includes(x)] on an array of strings. *)
Definition arrIncludes (arr : list string) (x : string) : bool :=
  existsb (String.eqb x) arr.

End Obj.

(** [getSystemCsvFiles] of system-logic.js: the dictionary files that hold
    the rows of the given systems, without repetition, in the order in which
    the systems name them. *)

Module SystemFiles.

Definition fileMap : list (string * list (string * string)) :=
  [ ("dx",         [ ("icd10", "dictionary-dx.csv");
                     ("icd9",  "dictionary-dx.csv") ]);
    ("medication", [ ("epic",       "dictionary-medication.csv");
                     ("meditech",   "dictionary-medication.csv");
                     ("centricity", "dictionary-medication.csv") ]);
    ("lab",        [ ("epic",     "dictionary-lab.csv");
                     ("meditech", "dictionary-lab.csv") ]);
    ("location",   [ ("epic",     "dictionary-location-epic.csv");
                     ("gecb",     "dictionary-location-gecb.csv");
                     ("meditech", "dictionary-location-meditech.csv") ]);
    ("procedure",  [ ("epic", "dictionary-procedure.csv");
                     ("gecb", "dictionary-procedure.csv") ]) ].

(** [files.add(f)] on a [Set] kept in insertion order. *)
Definition setAdd (files : list string) (f : string) : list string :=
  if Obj.arrIncludes files f then files else files ++ [f].

Definition getSystemCsvFiles (type : string) (systems : list string)
  : list string :=
  let map := match Obj.get fileMap type with Some m => m | None => [] end in
  fold_left
    (fun files s =>
       match Obj.get map s with
       | Some f => if JS.isEmpty f then files else setAdd files f
       | None => files
       end)
    systems [].

End SystemFiles.

(** ** csv-download.js *)

Module CsvDownload.

(** [csvQuote(val)] for a string [val], on which
    [String(val == null ? '' : val)] is [val] itself. *)
Definition csvQuote (val : string) : string :=
  if negb (JS.indexOf val "," =? -1)
     || negb (JS.indexOf val (JS.str JS.dquote) =? -1)
     || negb (JS.indexOf val (JS.str JS.newline) =? -1)
  then JS.str JS.dquote ++ JS.doubleQuotes val ++ JS.str JS.dquote
  else val.

(** [getDownloadSchema(type, source)]: the static column lists, one per
    dictionary type and source system; a missing [source] is the empty
    string.  [download] does not consult this table: it builds its schema
    from the rows (see [schemaOf]). *)
Definition schemas : list (string * list string) :=
  [ ("dx",
     ["concept_id"; "vocabulary_id"; "icd_code"; "icd_description";
      "desired"; "category"]);
    ("medication-epic",
     ["medication_key"; "name"; "generic_name"; "pharmaceutical_class";
      "pharmaceutical_subclass"; "therapeutic_class"; "desired"; "category"]);
    ("medication-meditech",
     ["medication_mnemonic"; "meditech_source"; "medication_name";
      "generic"; "ndc"; "desired"; "category"]);
    ("medication-centricity",
     ["description"; "genericmed"; "ndc_11"; "gpi"; "desired"; "category"]);
    ("lab-epic",
     ["lab_component_key"; "name"; "common_name"; "loinc_code";
      "loinc_name"; "default_unit"; "type"; "desired"; "category"]);
    ("lab-meditech",
     ["print_number"; "source_meditech"; "lab_mnemonic"; "lab_desc";
      "loinc"; "abbreviation"; "desired"; "category"]);
    ("location-epic",
     ["department_key"; "department_external_name"; "department_name";
      "department_specialty"; "location_name"; "desired"; "category"]);
    ("location-gecb",
     ["sched_location_id"; "sched_location"; "clinic_name";
      "billing_loc_name"; "desired"; "category"]);
    ("location-meditech",
     ["location_mnemonic"; "location_description"; "facility_name";
      "campus_name"; "location_type"; "desired"; "category"]) ].

Definition getDownloadSchema (type source : string) : list string :=
  let key := if JS.isEmpty source then type else type ++ "-" ++ source in
  match Obj.get schemas key with
  | Some schema => schema
  | None =>
      match Obj.get schemas type with
      | Some schema => schema
      | None => []
      end
  end.

Definition reserved (k : string) : bool :=
  Obj.arrIncludes ["desired"; "category"; "keyword_matched"] k.

(** The schema of [download]: the data columns of the first exported row,
    then the three reserved columns. *)
Definition dataColsOf (sampleRow : Row) : list string :=
  filter (fun k => negb (JS.startsWith k "_") && negb (reserved k))
         (Obj.keys sampleRow).

Definition schemaOf (sampleRow : Row) : list string :=
  dataColsOf sampleRow ++ ["desired"; "category"; "keyword_matched"].

(** The body of [schema.map(col => ...)] in [download]: one field, first
    as text ([fieldText], the value of [val] after [String(val)]) and then
    quoted where the text asks for it. *)
Definition fieldText (row : Row) (col : string) : string :=
  let val :=
    if String.eqb col "desired"
    then Some (VStr (if Obj.truthy (Obj.get row "desired") then "TRUE" else "FALSE"))
    else Obj.get row col in
  match val with None => "" | Some v => Obj.toStr v end.

Definition field (row : Row) (col : string) : string :=
  let val := fieldText row col in
  if JS.includes val "," || JS.includes val (JS.str JS.dquote)
     || JS.includes val (JS.str JS.newline)
  then JS.str JS.dquote ++ JS.doubleQuotes val ++ JS.str JS.dquote
  else val.

Definition fields (schema : list string) (row : Row) : list string :=
  map (field row) schema.

Definition dataLine (schema : list string) (row : Row) : string :=
  JS.join "," (fields schema row).

(** What [download] hands to [triggerDownload], and the row count it
    returns.  The file name, which [getDownloadFilename] computes from
    [type], [source] and [projectName] alone, is not part of the model. *)
Record Download : Type := { csvContent : string; rowCount : nat }.

Definition download (rows : list Row) (type source projectName : string)
    (desiredOnly : bool) : option Download :=
  if (Z.of_nat (length rows) =? 0) then None
  else
    let exportRows :=
      if desiredOnly
      then filter (fun r => Obj.truthy (Obj.get r "desired")) rows
      else rows in
    match exportRows with
    | [] => None
    | sampleRow :: _ =>
        let schema := schemaOf sampleRow in
        let headerLine := JS.join "," schema in
        let dataLines := map (dataLine schema) exportRows in
        Some {| csvContent := JS.join (JS.str JS.newline) (headerLine :: dataLines);
                rowCount := length exportRows |}
    end.

(** [countMatches(kw)] of [downloadSearchManifest], with the
    [matchingData] that it closes over made a parameter.  The test on one
    value [v] of a row is [(v || '').toString().toLowerCase().indexOf(core)
    !== -1]. *)
Definition coreOf (kw : string) : string := JS.stripStars (JS.toLowerCase kw).

Definition valueText (v : Value) : string :=
  JS.toLowerCase (Obj.toStr (if Obj.truthy (Some v) then v else VStr "")).

Definition valueHit (core : string) (v : Value) : bool :=
  negb (JS.indexOf (valueText v) core =? -1).

Definition rowHit (core : string) (row : Row) : bool :=
  existsb (valueHit core) (Obj.values row).

Definition countMatches (matchingData : list Row) (kw : string) : nat :=
  let core := coreOf kw in
  if JS.isEmpty core then 0%nat
  else length (filter (rowHit core) matchingData).

(** The predicate that a keyword term denotes on one candidate string: does
    [countMatches] count a row whose only value is the candidate? *)
Definition matchesTerm (kw candidate : string) : bool :=
  negb (Nat.eqb (countMatches [[("value", VStr candidate)]] kw) 0).

End CsvDownload.

(** ** Reading a quoted field back

    The sources only write CSV.  The reader below is the usual inverse of
    CSV quoting, as the round-trip property words it: a field that begins
    and ends with a double quote is quoted; reading it strips the two outer
    quotes and collapses every doubled quote; any other field is taken as it
    is. *)

Module CsvRead.

Fixpoint removeLast (s : string) : string :=
  match s with
  | EmptyString => EmptyString
  | String c EmptyString => EmptyString
  | String c r => String c (removeLast r)
  end.

Fixpoint collapseQuotes (s : string) : string :=
  match s with
  | String a (String b r as t) =>
      if Ascii.eqb a JS.dquote && Ascii.eqb b JS.dquote
      then String JS.dquote (collapseQuotes r)
      else String a (collapseQuotes t)
  | _ => s
  end.

Definition isQuoted (f : string) : bool :=
  match f with
  | String q r => Ascii.eqb q JS.dquote && JS.endsWith r (JS.str JS.dquote)
  | EmptyString => false
  end.

Definition csvUnquote (f : string) : string :=
  match f with
  | String q r => if isQuoted f then collapseQuotes (removeLast r) else f
  | EmptyString => EmptyString
  end.

(** The characters of a string, to say what it contains. *)
Definition contains (s : string) (c : ascii) : Prop :=
  In c (list_ascii_of_string s).

(** Does the value hold one of the three characters that ask for
    quotes? *)
Definition needsQuotes (val : string) : bool :=
  JS.includes val "," || JS.includes val (JS.str JS.dquote)
  || JS.includes val (JS.str JS.newline).

End CsvRead.

(** ** app.js *)

Module DictApp.

(** [buildMatcher(keyword)]: the matcher of one keyword chip.  Its callers
    hand it cell text that they have lower-cased. *)
Definition buildMatcher (keyword : string) : string -> bool :=
  let kw := JS.trim (JS.toLowerCase keyword) in
  let startsWithStar := JS.startsWith kw "*" in
  let endsWithStar := JS.endsWith kw "*" in
  let core := JS.stripStars kw in
  if JS.isEmpty core then fun _ => false
  else if startsWithStar && endsWithStar then fun val => JS.includes val core
  else if endsWithStar then fun val => JS.includes val core
  else if startsWithStar then fun val => JS.includes val core
  else fun val => JS.includes val core.

(** The fields of [state] that data loading reads and writes.  The outer
    objects are keyed by dictionary type; [desired], [categories] and
    [keywordMatched] hold, per type, the selection recorded for a row key. *)
Record State : Type := {
  rawData : gmap string (list RawRow);
  data : gmap string (list Row);
  desired : gmap string (gmap string bool);
  categories : gmap string (gmap string string);
  keywordMatched : gmap string (gmap string string);
  activeSystems : gmap string (list string);
  keywords : gmap string (list string)
}.

Definition types : list string :=
  ["dx"; "medication"; "lab"; "location"; "procedure"].

Definition initialState : State :=
  {| rawData := ∅;
     data := list_to_map (map (fun t => (t, [])) types);
     desired := list_to_map (map (fun t => (t, ∅)) types);
     categories := list_to_map (map (fun t => (t, ∅)) types);
     keywordMatched := list_to_map (map (fun t => (t, ∅)) types);
     activeSystems := list_to_map (map (fun t => (t, [])) types);
     keywords := list_to_map (map (fun t => (t, [])) types) |}.

Definition dataOf (st : State) (type : string) : list Row :=
  default [] (data st !! type).
Definition activeSystemsOf (st : State) (type : string) : list string :=
  default [] (activeSystems st !! type).
Definition keywordsOf (st : State) (type : string) : list string :=
  default [] (keywords st !! type).

(** [state.desired[type][rowKey]] and its two companions. *)
Definition desiredAt (st : State) (type rowKey : string) : option bool :=
  default ∅ (desired st !! type) !! rowKey.
Definition categoryAt (st : State) (type rowKey : string) : option string :=
  default ∅ (categories st !! type) !! rowKey.
Definition keywordMatchedAt (st : State) (type rowKey : string) : option string :=
  default ∅ (keywordMatched st !! type) !! rowKey.

(** The assignments of [updateSystemsAndReload], before it calls
    [loadAllData]. *)
Definition updateSystems (st : State) (dateStart dateEnd : Date)
    (outpatient inpatient : bool) : State :=
  {| rawData := rawData st;
     data := data st;
     desired := desired st;
     categories := categories st;
     keywordMatched := keywordMatched st;
     activeSystems :=
       fold_left
         (fun m type =>
            <[type := SystemLogic.getActiveSystems type dateStart dateEnd
                        outpatient inpatient]> m)
         types (activeSystems st);
     keywords := keywords st |}.

Definition inferSource (filename : string) : string :=
  if JS.includes filename "-epic" then "epic"
  else if JS.includes filename "-meditech" then "meditech"
  else if JS.includes filename "-centricity" then "centricity"
  else if JS.includes filename "-gecb" then "gecb"
  else "cdw".

(** The body of [data.forEach((row, idx) => ...)] in [loadTypeData]: the
    unified row that a raw row contributes, or [None] when the row is
    skipped. *)
Definition unifyRow (st : State) (type : string) (systems : list string)
    (file : string) (idx : nat) (row : RawRow) : option Row :=
  let source := inferSource file in
  let vocab := Obj.get row "vocabulary_id" in
  if String.eqb type "dx"
     && ((bool_decide (vocab = Some "ICD10CM")
            && negb (Obj.arrIncludes systems "icd10"))
         || (bool_decide (vocab = Some "ICD9CM")
               && negb (Obj.arrIncludes systems "icd9")))
  then None
  else
    let source_db := Obj.orStr (Obj.get row "source_db") "" in
    let tagged :=
      negb (JS.isEmpty source_db)
      && (String.eqb type "medication" || String.eqb type "lab"
          || String.eqb type "procedure") in
    let rowSource := if tagged then JS.toLowerCase source_db else source in
    if tagged && negb (Obj.arrIncludes systems rowSource) then None
    else
      let rowKey := file ++ ":" ++ JS.ofIndex idx in
      let isDesired :=
        match desiredAt st type rowKey with
        | Some userOverride => userOverride
        | None => false
        end in
      let spread : Row := map (fun kv => (fst kv, VStr (snd kv))) row in
      let o := Obj.set spread "_source" (VStr rowSource) in
      let o := Obj.set o "_rowKey" (VStr rowKey) in
      let o := Obj.set o "desired" (VBool isDesired) in
      let o := Obj.set o "category"
                 (VStr (Obj.orStr (categoryAt st type rowKey)
                          (Obj.orStr (Obj.get row "category") ""))) in
      let o := Obj.set o "keyword_matched"
                 (VStr (Obj.orStr (keywordMatchedAt st type rowKey) "")) in
      Some o.

(** [data.forEach] over one file, rows numbered from [idx]. *)
Fixpoint unifyFile (st : State) (type : string) (systems : list string)
    (file : string) (idx : nat) (rows : list RawRow) : list Row :=
  match rows with
  | [] => []
  | row :: rest =>
      match unifyRow st type systems file idx row with
      | Some o => o :: unifyFile st type systems file (S idx) rest
      | None => unifyFile st type systems file (S idx) rest
      end
  end.

(** [results.forEach(({ file, data }) => ...)]: the merged collection. *)
Definition mergeResults (st : State) (type : string) (systems : list string)
    (results : list (string * list RawRow)) : list Row :=
  flat_map (fun fd => unifyFile st type systems (fst fd) 0 (snd fd)) results.

(** A call of [loadTypeData] suspended at [await Promise.all(loadPromises)].
    It holds what the call read before suspending: its type, the active
    systems of that moment, and for every file either the rows found in
    the cache or the fact that a fetch is under way. *)
Record LoadTask : Type := {
  task_type : string;
  task_systems : list string;
  task_files : list (string * option (list RawRow))
}.

Definition loadTypeData_begin (st : State) (type : string) : LoadTask :=
  let systems := activeSystemsOf st type in
  let csvFiles := SystemFiles.getSystemCsvFiles type systems in
  {| task_type := type;
     task_systems := systems;
     task_files := map (fun file => (file, rawData st !! file)) csvFiles |}.

(** The [results] array once the fetches of the task have resolved with
    the rows [loaded file]. *)
Definition taskResults (task : LoadTask) (loaded : string -> list RawRow)
  : list (string * list RawRow) :=
  map (fun fc => (fst fc,
                  match snd fc with
                  | Some cached => cached
                  | None => loaded (fst fc)
                  end))
      (task_files task).

(** [state.rawData[file] = await loadCsv(...)] for the fetched files. *)
Definition cacheLoaded (task : LoadTask) (loaded : string -> list RawRow)
    (cache : gmap string (list RawRow)) : gmap string (list RawRow) :=
  fold_left
    (fun m fc =>
       match snd fc with
       | Some _ => m
       | None => <[fst fc := loaded (fst fc)]> m
       end)
    (task_files task) cache.

Section Resume.

(** [applyKeywordFilter(type)] redraws the table through the DataTables
    library and marks the rows that the library reports as visible; it
    is taken as given. *)
Variable applyKeywordFilter : string -> State -> State.

(** The rest of [loadTypeData], from the point where the awaited files
    have arrived.  The calls that only render ([renderTable],
    [updateBadge], [updateStatusBar]) leave [state] as it is. *)
Definition loadTypeData_resume (st : State) (task : LoadTask)
    (loaded : string -> list RawRow) : State :=
  let type := task_type task in
  let results := taskResults task loaded in
  let merged := mergeResults st type (task_systems task) results in
  let st' :=
    {| rawData := cacheLoaded task loaded (rawData st);
       data := <[type := merged]> (data st);
       desired := desired st;
       categories := categories st;
       keywordMatched := keywordMatched st;
       activeSystems := activeSystems st;
       keywords := keywords st |} in
  if (Z.of_nat (length (keywordsOf st' type)) >? 0)
  then applyKeywordFilter type st'
  else st'.

(** Arrivals handled one after the other, in the order given. *)
Definition deliver (st : State)
    (arrivals : list (LoadTask * (string -> list RawRow))) : State :=
  fold_left (fun s a => loadTypeData_resume s (fst a) (snd a)) arrivals st.

End Resume.

(** Two states with the same selection store: the part of [state] that
    the merge reads. *)
Definition same_store (s1 s2 : State) : Prop :=
  desired s1 = desired s2 /\ categories s1 = categories s2 /\
  keywordMatched s1 = keywordMatched s2.

(** No keyword chip is active on the type of any of the arriving loads. *)
Definition no_keywords (st : State)
    (arrivals : list (LoadTask * (string -> list RawRow))) : Prop :=
  Forall (fun a => keywordsOf st (task_type (fst a)) = []) arrivals.

End DictApp.

(** ** Two unified rows of the diagnosis dictionary

    The first is selected and annotated, the second is not. *)

Module Demo.

Definition selectedRow : Row :=
  [ ("concept_id", VStr "35206462"); ("vocabulary_id", VStr "ICD10CM");
    ("icd_code", VStr "C50.911");
    ("icd_description", VStr "Malignant neoplasm of breast");
    ("_source", VStr "cdw"); ("_rowKey", VStr "dictionary-dx.csv:0");
    ("desired", VBool true); ("category", VStr "breast, female");
    ("keyword_matched", VStr "") ].

Definition plainRow : Row :=
  [ ("concept_id", VStr "44826110"); ("vocabulary_id", VStr "ICD9CM");
    ("icd_code", VStr "174.9");
    ("icd_description", VStr "Malignant neoplasm of breast");
    ("_source", VStr "cdw"); ("_rowKey", VStr "dictionary-dx.csv:1");
    ("desired", VBool false); ("category", VStr "");
    ("keyword_matched", VStr "") ].

Definition rows : list Row := [selectedRow; plainRow].

End Demo.

(** ** Two overlapping reloads

    The user sets the date range to 2010-01-01..2012-01-01 (reload A) and,
    while the diagnosis file of reload A is still being fetched, to
    2020-01-01..2021-01-01 (reload B).  Nothing is cached yet, so each
    reload starts a fetch of its own.  The fetch of B resolves first, the
    fetch of A after it.  No keyword chip is active. *)

Module Overlap.

Import DictApp.

Definition dxFile : list RawRow :=
  [ [ ("concept_id", "35206462"); ("vocabulary_id", "ICD10CM");
      ("icd_code", "C50.911"); ("icd_description", "Malignant neoplasm of breast") ];
    [ ("concept_id", "44826110"); ("vocabulary_id", "ICD9CM");
      ("icd_code", "174.9"); ("icd_description", "Malignant neoplasm of breast") ] ].

Definition loader : string -> list RawRow := fun _ => dxFile.

Definition noFilter : string -> State -> State := fun _ st => st.

Definition afterReloadA : State :=
  updateSystems initialState (newDate 2010 1 1) (newDate 2012 1 1) true true.
Definition taskA : LoadTask := loadTypeData_begin afterReloadA "dx".

Definition afterReloadB : State :=
  updateSystems afterReloadA (newDate 2020 1 1) (newDate 2021 1 1) true true.
Definition taskB : LoadTask := loadTypeData_begin afterReloadB "dx".

Definition afterArrivalB : State :=
  loadTypeData_resume noFilter afterReloadB taskB loader.
Definition afterArrivalA : State :=
  loadTypeData_resume noFilter afterArrivalB taskA loader.

Definition icd10Row : Row :=
  [ ("concept_id", VStr "35206462"); ("vocabulary_id", VStr "ICD10CM");
    ("icd_code", VStr "C50.911");
    ("icd_description", VStr "Malignant neoplasm of breast");
    ("_source", VStr "cdw"); ("_rowKey", VStr "dictionary-dx.csv:0");
    ("desired", VBool false); ("category", VStr "");
    ("keyword_matched", VStr "") ].

Definition icd9Row : Row :=
  [ ("concept_id", VStr "44826110"); ("vocabulary_id", VStr "ICD9CM");
    ("icd_code", VStr "174.9");
    ("icd_description", VStr "Malignant neoplasm of breast");
    ("_source", VStr "cdw"); ("_rowKey", VStr "dictionary-dx.csv:1");
    ("desired", VBool false); ("category", VStr "");
    ("keyword_matched", VStr "") ].

End Overlap.

(** ** Strings of stars *)

Definition onlyStars (s : string) : Prop :=
  forall c, CsvRead.contains s c -> c = "*"%char.

(** ** Inherited properties

    A lookup [obj[k]] in an object literal also finds the properties that
    every object inherits from [Object.prototype]; their values are
    functions (for [__proto__] the prototype object), hence truthy.  The
    association lists of this development hold the own keys only.  Where a
    key comes from data, the model either tests [inherited] or the theorem
    names the keys it is stated for. *)

Module JSObject.

Definition prototypeKeys : list string :=
  [ "constructor"; "hasOwnProperty"; "isPrototypeOf"; "propertyIsEnumerable";
    "toLocaleString"; "toString"; "valueOf"; "__proto__";
    "__defineGetter__"; "__defineSetter__"; "__lookupGetter__";
    "__lookupSetter__" ].

Definition inherited (k : string) : bool := Obj.arrIncludes prototypeKeys k.

End JSObject.

(** ** csv-download.js, continued *)

Module CsvFiles.

(** The object literal [fileNames] of [getDownloadFilename], for a given
    [prefix]. *)
Definition fileNames (prefix : string) : list (string * string) :=
  [ ("dx",                    prefix ++ "ss-dx.csv");
    ("medication-epic",       prefix ++ "ss-medication-epic.csv");
    ("medication-meditech",   prefix ++ "ss-medication-meditech.csv");
    ("medication-centricity", prefix ++ "ss-medication-centricity.csv");
    ("lab-epic",              prefix ++ "ss-lab-epic.csv");
    ("lab-meditech",          prefix ++ "ss-lab-meditech.csv");
    ("location-epic",         prefix ++ "ss-location-epic.csv");
    ("location-gecb",         prefix ++ "ss-location-gecb.csv");
    ("location-meditech",     prefix ++ "ss-location-meditech.csv");
    ("procedure-epic",        prefix ++ "ss-procedure-epic.csv");
    ("procedure-gecb",        prefix ++ "ss-procedure-gecb.csv");
    ("procedure",             prefix ++ "ss-procedure.csv") ].

(** [getDownloadFilename(type, source, projectName)]; a missing [source] or
    [projectName] is the empty string.  Stated for a [type] that is no
    inherited property name. *)
Definition getDownloadFilename (type source projectName : string) : string :=
  let prefix := if JS.isEmpty projectName then "" else projectName ++ "-" in
  let key := if JS.isEmpty source then type else type ++ "-" ++ source in
  match Obj.get (fileNames prefix) key with
  | Some name => if JS.isEmpty name then prefix ++ "ss-" ++ type ++ ".csv" else name
  | None => prefix ++ "ss-" ++ type ++ ".csv"
  end.

(** [desiredOnly ? rows.filter(r => r.desired) : rows], the rows that
    [download] exports. *)
Definition exportRows (desiredOnly : bool) (rows : list Row) : list Row :=
  if desiredOnly
  then filter (fun r => Obj.truthy (Obj.get r "desired")) rows
  else rows.

(** Does a source have rows to export? *)
Definition hasExport (desiredOnly : bool) (entry : string * list Row) : bool :=
  negb (Nat.eqb (length (exportRows desiredOnly (snd entry))) 0).

(** [downloadAll(dataBySource, type, projectName, desiredOnly)]: one download
    per source that has rows to export, in the order of
    [Object.entries(dataBySource)]; each result is paired with its file
    name. *)
Definition downloadAll (dataBySource : list (string * list Row))
    (type projectName : string) (desiredOnly : bool)
  : list (string * CsvDownload.Download) :=
  flat_map
    (fun entry =>
       match CsvDownload.download (snd entry) type (fst entry) projectName
               desiredOnly with
       | Some result =>
           [(getDownloadFilename type (fst entry) projectName, result)]
       | None => []
       end)
    dataBySource.

(** [downloadSearchManifest(opts)].  The time stamp [exportedAt], which the
    code takes from the clock, is an argument; missing options are empty
    strings and empty arrays. *)
Definition manifestHeader : string :=
  "keyword,dictionary_type,is_wildcard,match_count,project_name,date_start,date_end,active_systems,exported_at".

Definition manifestFields (matchingData : list Row)
    (type projectName dateStart dateEnd systemsStr exportedAt kw : string)
  : list string :=
  let isWild := if negb (JS.indexOf kw "*" =? -1) then "TRUE" else "FALSE" in
  let matches := CsvDownload.countMatches matchingData kw in
  [ CsvDownload.csvQuote kw; CsvDownload.csvQuote type; isWild;
    JS.ofIndex matches; CsvDownload.csvQuote projectName;
    CsvDownload.csvQuote dateStart; CsvDownload.csvQuote dateEnd;
    CsvDownload.csvQuote systemsStr; CsvDownload.csvQuote exportedAt ].

Record Manifest : Type := {
  manifestContent : string;
  manifestFilename : string;
  termCount : nat
}.

Definition downloadSearchManifest (keywords : list string) (type : string)
    (matchingData : list Row) (projectName dateStart dateEnd : string)
    (activeSystems : list string) (exportedAt : string) : option Manifest :=
  let systemsStr := JS.join "; " activeSystems in
  if (Z.of_nat (length keywords) =? 0) then None
  else
    let lines :=
      map (fun kw =>
             JS.join "," (manifestFields matchingData type projectName
                            dateStart dateEnd systemsStr exportedAt kw))
          keywords in
    let prefix := if JS.isEmpty projectName then "" else projectName ++ "-" in
    Some {| manifestContent := JS.join (JS.str JS.newline) (manifestHeader :: lines);
            manifestFilename := prefix ++ "ss-" ++ type ++ "-search-terms.csv";
            termCount := length keywords |}.

End CsvFiles.

(** ** github-push.js *)

Module GitHubPush.

(** [reserved[k]] on the object literal
    [{ desired: true, category: true, keyword_matched: true }]. *)
Definition reservedLookup (k : string) : bool :=
  CsvDownload.reserved k || JSObject.inherited k.

(** [buildCsvContent(rows)]: the CSV text that is pushed. *)
Definition buildCsvContent (rows : list Row) : string :=
  match rows with
  | [] => ""
  | sampleRow :: _ =>
      let dataCols :=
        filter (fun k => negb (JS.startsWith k "_") && negb (reservedLookup k))
               (Obj.keys sampleRow) in
      let schema := (dataCols ++ ["desired"; "category"; "keyword_matched"])%list in
      let headerLine := JS.join "," schema in
      let dataLines :=
        map (fun row =>
               JS.join ","
                 (map (fun col => CsvDownload.csvQuote (CsvDownload.fieldText row col))
                      schema))
            rows in
      JS.join (JS.str JS.newline) (headerLine :: dataLines)
  end.

End GitHubPush.

(** ** csv-download.js, the copy that exports by schema

    The sources hold a second copy of csv-download.js.  Its [download]
    takes the columns of the file from [getDownloadSchema(type, source)]
    and not from the rows: there is no file, and no result, for a type
    without a schema, and the header is the schema also when no row is
    left to export.  A field is written as in the other copy.  Stated for a
    [type] that is no inherited property name. *)

Module SchemaDownload.

Definition download (rows : list Row) (type source projectName : string)
    (desiredOnly : bool) : option CsvDownload.Download :=
  let schema := CsvDownload.getDownloadSchema type source in
  if (Z.of_nat (length schema) =? 0) then None
  else
    let exportRows :=
      if desiredOnly
      then filter (fun r => Obj.truthy (Obj.get r "desired")) rows
      else rows in
    let headerLine := JS.join "," schema in
    let dataLines := map (CsvDownload.dataLine schema) exportRows in
    Some {| CsvDownload.csvContent :=
              JS.join (JS.str JS.newline) (headerLine :: dataLines);
            CsvDownload.rowCount := length exportRows |}.

End SchemaDownload.

(** ** app.js, continued: selection state and keyword chips

    The functions below are applied to the five dictionary types, for which
    every outer object of [state] has an entry.  Rows are addressed by their
    index in [state.data[type]]; writing a property of a row replaces the row
    at that index. *)

Module Selection.

Import DictApp.

(** [row._rowKey] used as a property name. *)
Definition rowKeyOf (row : Row) : string :=
  match Obj.get row "_rowKey" with
  | Some v => Obj.toStr v
  | None => "undefined"
  end.

(** [row.desired = checked; state.desired[type][row._rowKey] = checked;] for
    the row at [idx], nothing when there is no such row. *)
Definition toggleDesired (type : string) (idx : nat) (checked : bool)
    (st : State) : State :=
  match dataOf st type !! idx with
  | None => st
  | Some row =>
      {| rawData := rawData st;
         data := <[type := <[idx := Obj.set row "desired" (VBool checked)]>
                              (dataOf st type)]> (data st);
         desired := <[type := <[rowKeyOf row := checked]>
                                 (default ∅ (desired st !! type))]> (desired st);
         categories := categories st;
         keywordMatched := keywordMatched st;
         activeSystems := activeSystems st;
         keywords := keywords st |}
  end.

Definition setCategory (type : string) (idx : nat) (value : string)
    (st : State) : State :=
  match dataOf st type !! idx with
  | None => st
  | Some row =>
      {| rawData := rawData st;
         data := <[type := <[idx := Obj.set row "category" (VStr value)]>
                              (dataOf st type)]> (data st);
         desired := desired st;
         categories := <[type := <[rowKeyOf row := value]>
                                    (default ∅ (categories st !! type))]>
                         (categories st);
         keywordMatched := keywordMatched st;
         activeSystems := activeSystems st;
         keywords := keywords st |}
  end.

(** The state part of [deselectAll(type)]: every row of the collection,
    visible or not. *)
Definition deselectAll (type : string) (st : State) : State :=
  {| rawData := rawData st;
     data := <[type := map (fun row => Obj.set row "desired" (VBool false))
                           (dataOf st type)]> (data st);
     desired := <[type := fold_left (fun m row => <[rowKeyOf row := false]> m)
                                    (dataOf st type)
                                    (default ∅ (desired st !! type))]>
                  (desired st);
     categories := categories st;
     keywordMatched := keywordMatched st;
     activeSystems := activeSystems st;
     keywords := keywords st |}.

(** The loop of [autoDesireVisible] for one visible row: which keyword is
    recorded, and the row as it is left.  All values of the row are
    searched, in lower case.  A row has a [keyword_matched] property
    ([loadTypeData] gives it one); for a row without it the old value reads
    as the empty string. *)
Definition rowMatches (keyword : string) (row : Row) : bool :=
  existsb (buildMatcher keyword) (map CsvDownload.valueText (Obj.values row)).

Definition matchedKeyword (keywords : list string) (row : Row) : string :=
  match find (fun keyword => rowMatches keyword row) keywords with
  | Some keyword => keyword
  | None => ""
  end.

Definition keywordValue (keywords : list string) (row : Row) : Value :=
  let matchedKw := matchedKeyword keywords row in
  let old := match Obj.get row "keyword_matched" with
             | Some v => v
             | None => VStr ""
             end in
  if JS.isEmpty matchedKw then old else VStr matchedKw.

Definition markedRow (keywords : list string) (row : Row) : Row :=
  Obj.set (Obj.set row "desired" (VBool true))
          "keyword_matched" (keywordValue keywords row).

Definition autoDesireRow (type : string) (keywords : list string) (idx : nat)
    (st : State) : State :=
  match dataOf st type !! idx with
  | None => st
  | Some row =>
      {| rawData := rawData st;
         data := <[type := <[idx := markedRow keywords row]> (dataOf st type)]>
                   (data st);
         desired := <[type := <[rowKeyOf row := true]>
                                 (default ∅ (desired st !! type))]> (desired st);
         categories := categories st;
         keywordMatched :=
           <[type := <[rowKeyOf row := Obj.toStr (keywordValue keywords row)]>
                       (default ∅ (keywordMatched st !! type))]>
             (keywordMatched st);
         activeSystems := activeSystems st;
         keywords := DictApp.keywords st |}
  end.

Section Env.

(** What the page and the DataTables library report: the trimmed text of the
    search box of a type, and the indices of the rows that pass the filters
    in force ([table.rows({ search: 'applied' })]), [None] when the type has
    no table yet. *)
Variable typedText : string -> string.
Variable searchApplied : string -> State -> option (list nat).

Definition toggleSelectAllVisible (type : string) (checked : bool)
    (st : State) : State :=
  match searchApplied type st with
  | None => st
  | Some visible =>
      fold_left (fun s rowIdx => toggleDesired type rowIdx checked s) visible st
  end.

Definition selectAllVisible (type : string) (st : State) : State :=
  toggleSelectAllVisible type true st.

Definition autoDesireVisible (type : string) (keywords : list string)
    (st : State) : State :=
  match searchApplied type st with
  | None => st
  | Some visible =>
      fold_left (fun s rowIdx => autoDesireRow type keywords rowIdx s) visible st
  end.

Definition applyKeywordFilter (type : string) (st : State) : State :=
  match searchApplied type st with
  | None => st
  | Some _ =>
      let typed := typedText type in
      let allTerms :=
        (keywordsOf st type ++ (if JS.isEmpty typed then [] else [typed]))%list in
      if (Z.of_nat (length allTerms) =? 0) then st
      else if (Z.of_nat (length (keywordsOf st type)) >? 0)
           then autoDesireVisible type allTerms st
           else st
  end.

(** [state.keywords[type].some(k => k.toLowerCase() === kw.toLowerCase())] *)
Definition hasKeyword (st : State) (type kw : string) : bool :=
  existsb (fun k => String.eqb (JS.toLowerCase k) (JS.toLowerCase kw))
          (keywordsOf st type).

Definition pushKeyword (st : State) (type kw : string) : State :=
  {| rawData := rawData st;
     data := data st;
     desired := desired st;
     categories := categories st;
     keywordMatched := keywordMatched st;
     activeSystems := activeSystems st;
     keywords := <[type := (keywordsOf st type ++ [kw])%list]> (keywords st) |}.

Definition addKeyword (type keyword : string) (st : State) : State :=
  let kw := JS.trim keyword in
  if JS.isEmpty kw then st
  else if hasKeyword st type kw then st
  else applyKeywordFilter type (pushKeyword st type kw).

(** [state.keywords[type].splice(index, 1)] for an index that is not
    negative. *)
Definition removeKeyword (type : string) (index : nat) (st : State) : State :=
  applyKeywordFilter type
    {| rawData := rawData st;
       data := data st;
       desired := desired st;
       categories := categories st;
       keywordMatched := keywordMatched st;
       activeSystems := activeSystems st;
       keywords := <[type := (take index (keywordsOf st type)
                               ++ drop (S index) (keywordsOf st type))%list]>
                     (keywords st) |}.

Definition clearKeywords (type : string) (st : State) : State :=
  {| rawData := rawData st;
     data := data st;
     desired := desired st;
     categories := categories st;
     keywordMatched := keywordMatched st;
     activeSystems := activeSystems st;
     keywords := <[type := []]> (keywords st) |}.

(** The paste handler: [terms.forEach(t => addKeyword(type, t))]. *)
Definition addKeywords (type : string) (terms : list string) (st : State) : State :=
  fold_left (fun s t => addKeyword type t s) terms st.

(** The rows that [downloadCsv] and [sendToCrdw] collect: with a table and
    at least one chip the rows at the visible indices, in the order of the
    table, and all rows of the type otherwise. *)
Definition downloadCsv_matchingData (type : string) (st : State) : list Row :=
  match searchApplied type st with
  | Some visible =>
      if (Z.of_nat (length (keywordsOf st type)) >? 0)
      then flat_map (fun idx => match dataOf st type !! idx with
                                | Some row => [row]
                                | None => []
                                end) visible
      else dataOf st type
  | None => dataOf st type
  end.

End Env.

(** The chips of a type are in order when none is empty and no two are
    equal up to case. *)
Definition chipsOk (chips : list string) : Prop :=
  NoDup (map JS.toLowerCase chips) /\ Forall (fun k => k <> "") chips.

(** The rows of a type agree with the selection store when their row keys
    are pairwise different and every row carries the [desired] flag that
    the store records for its key, [false] when it records none. *)
Definition agreesWithStore (st : State) (type : string) : Prop :=
  NoDup (map rowKeyOf (dataOf st type)) /\
  Forall (fun row =>
            Obj.get row "desired"
            = Some (VBool (default false (desiredAt st type (rowKeyOf row)))))
         (dataOf st type).

(** The two filters of [loadTypeData], as conditions on a row of a file:
    a diagnosis row of a vocabulary needs that vocabulary among the systems,
    and a medication, lab or procedure row that names a [source_db] needs
    that name, in lower case, among the systems. *)
Definition keptBy (type : string) (systems : list string) (row : RawRow) : Prop :=
  (type = "dx" -> Obj.get row "vocabulary_id" = Some "ICD10CM" ->
     In "icd10" systems) /\
  (type = "dx" -> Obj.get row "vocabulary_id" = Some "ICD9CM" ->
     In "icd9" systems) /\
  (forall db,
     In type ["medication"; "lab"; "procedure"] ->
     Obj.get row "source_db" = Some db -> db <> "" ->
     In (JS.toLowerCase db) systems).

(** The grouping of [downloadCsv] and [sendToCrdw]:
    [src = row._source || 'cdw'], rows appended to [bySource[src]].  Stated
    for sources that are no inherited property names. *)
Definition sourceOf (row : Row) : string :=
  match Obj.get row "_source" with
  | Some v => if Obj.truthy (Some v) then Obj.toStr v else "cdw"
  | None => "cdw"
  end.

Definition groupStep (bySource : list (string * list Row)) (row : Row)
  : list (string * list Row) :=
  let src := sourceOf row in
  match Obj.get bySource src with
  | None => (bySource ++ [(src, [row])])%list
  | Some rows => Obj.set bySource src (rows ++ [row])%list
  end.

Definition groupBySource (matchingData : list Row) : list (string * list Row) :=
  fold_left groupStep matchingData [].

(** The data files of [downloadCsv(type)] for the rows [matchingData] that it
    has collected (the visible rows under a keyword filter, all rows
    otherwise), each with its file name: one file for dx, one per source for
    the other types, none when there is no row. *)
Definition downloadCsv_files (type projectName : string)
    (matchingData : list Row) : list (string * CsvDownload.Download) :=
  if (Z.of_nat (length matchingData) =? 0) then []
  else if String.eqb type "dx" then
    match CsvDownload.download matchingData "dx" "" projectName false with
    | Some result => [(CsvFiles.getDownloadFilename "dx" "" projectName, result)]
    | None => []
    end
  else CsvFiles.downloadAll (groupBySource matchingData) type projectName false.

(** The data files that [sendToCrdw(type)] pushes for the rows
    [matchingData] that it has collected: the path and the content of
    each. *)
Definition sendToCrdw_files (type : string) (matchingData : list Row)
  : list (string * string) :=
  let basePath := "data-public/metadata" in
  if (Z.of_nat (length matchingData) =? 0) then []
  else if String.eqb type "dx" then
    [ (basePath ++ "/" ++ CsvFiles.getDownloadFilename "dx" "" "",
       GitHubPush.buildCsvContent matchingData) ]
  else
    map (fun entry =>
           (basePath ++ "/" ++ CsvFiles.getDownloadFilename type (fst entry) "",
            GitHubPush.buildCsvContent (snd entry)))
        (groupBySource matchingData).

End Selection.

(** ** search.js

    [likeMatch] and [multiKeywordMatch].  The cell text of a row is
    [(row[col] || '').toString().toLowerCase()]; the search columns are
    column names, none of them a property that every object inherits.  The
    [Map] that [multiKeywordMatch] builds is an association list in
    insertion order; its entries are the keyword objects, with
    [category || ''] for a category that is a string. *)

Module SearchEngine.

Definition cellText (row : Row) (col : string) : string :=
  match Obj.get row col with
  | Some v => CsvDownload.valueText v
  | None => ""
  end.

Definition hits (searchColumns : list string) (kw : string) (row : Row) : bool :=
  existsb (fun col => JS.includes (cellText row col) kw) searchColumns.

Definition likeMatch (data : list Row) (searchColumns : list string)
    (keyword : string) : list Row :=
  let kw := JS.trim (JS.toLowerCase keyword) in
  if JS.isEmpty kw then [] else filter (hits searchColumns kw) data.

Definition Matches : Type := list (nat * (string * string)).

(** [matches.get(idx)] and [matches.has(idx)] *)
Fixpoint mapGet (matches : Matches) (idx : nat) : option (string * string) :=
  match matches with
  | [] => None
  | (k, info) :: rest => if Nat.eqb k idx then Some info else mapGet rest idx
  end.

Definition mapHas (matches : Matches) (idx : nat) : bool :=
  match mapGet matches idx with Some _ => true | None => false end.

(** [data.forEach((row, idx) => ...)] for one keyword, rows numbered from
    [idx]. *)
Fixpoint scanRows (searchColumns : list string) (kw : string)
    (info : string * string) (idx : nat) (data : list Row) (matches : Matches)
  : Matches :=
  match data with
  | [] => matches
  | row :: rest =>
      scanRows searchColumns kw info (S idx) rest
        (if mapHas matches idx then matches
         else if hits searchColumns kw row then (matches ++ [(idx, info)])%list
              else matches)
  end.

Definition multiKeywordMatch (data : list Row) (searchColumns : list string)
    (keywords : list (string * string)) : Matches :=
  fold_left
    (fun matches kc =>
       let kw := JS.trim (JS.toLowerCase (fst kc)) in
       if JS.isEmpty kw then matches
       else scanRows searchColumns kw (fst kc, snd kc) 0 data matches)
    keywords [].

(** The test of [multiKeywordMatch] that a keyword object passes on a row:
    its keyword, trimmed and in lower case, is not empty and occurs in one
    of the search columns. *)
Definition passes (searchColumns : list string) (row : Row)
    (kc : string * string) : bool :=
  negb (JS.isEmpty (JS.trim (JS.toLowerCase (fst kc))))
  && hits searchColumns (JS.trim (JS.toLowerCase (fst kc))) row.

End SearchEngine.

(** ** app.js: the columns of the table

    [detectDataColumns(type)] when its cache holds nothing for the type,
    as after every load: the keys of the first hundred rows, in the order
    in which they are met, without the internal and the reserved ones.  The
    test [!colSet[k]] on the object literal [colSet] also fails for a key
    that every object inherits. *)

Module Columns.

Definition isDataColumn (k : string) : bool :=
  negb (JS.startsWith k "_") && negb (String.eqb k "desired")
  && negb (String.eqb k "category") && negb (String.eqb k "keyword_matched").

Definition scanKey (colOrder : list string) (k : string) : list string :=
  if isDataColumn k
  then if JSObject.inherited k || Obj.arrIncludes colOrder k
       then colOrder
       else (colOrder ++ [k])%list
  else colOrder.

Definition scanRow (colOrder : list string) (row : Row) : list string :=
  fold_left scanKey (Obj.keys row) colOrder.

Definition detectDataColumns (data : list Row) : list string :=
  fold_left scanRow (take 100 data) [].

End Columns.

(** ** The worker: the e-mail allow list

    [isEmailAllowed(email, allowedList)] of the proxy worker; a missing
    list is the empty one.  [pattern.slice(1)] drops the first code unit. *)

Module Worker.

Definition slice1 (s : string) : string :=
  match s with
  | EmptyString => EmptyString
  | String _ r => r
  end.

Definition isEmailAllowed (email : string) (allowedList : list string) : bool :=
  existsb
    (fun pattern =>
       String.eqb pattern email
       || (JS.startsWith pattern "*@" && JS.endsWith email (slice1 pattern)))
    allowedList.

End Worker.

(** ** A reloaded diagnosis dictionary with one row checked

    The state of the overlap example after the arrival of reload B, with the
    check box of its only row set; a page without typed text; a table that
    shows the row. *)

Module Marked.

Import DictApp Selection.

Definition noText : string -> string := fun _ => "".
Definition noTable : string -> State -> option (list nat) := fun _ _ => None.
Definition firstRowVisible : string -> State -> option (list nat) :=
  fun _ _ => Some [0%nat].

Definition checkedRow : Row := Obj.set Overlap.icd10Row "desired" (VBool true).

Definition checked : State := toggleDesired "dx" 0 true Overlap.afterArrivalB.

Definition withChip : State := addKeyword noText noTable "dx" "breast" initialState.

Definition chipOnData : State :=
  addKeyword noText noTable "dx" "c50" Overlap.afterArrivalB.

Definition taggedRow : Row := Obj.set checkedRow "keyword_matched" (VStr "c50").

End Marked.

(** ** Reading a result array as a set

    [is_set_of r xs]: the array [r] has no repeated entry and its entries are
    exactly the members of [xs]. *)

Definition is_set_of (r xs : list string) : Prop :=
  NoDup r /\ forall x, In x r <-> In x xs.

(** * Properties *)

Example EPIC_GOLIVE_ms : SystemLogic.EPIC_GOLIVE = Some 1685750400000.
Proof. reflexivity. Qed.

Example ICD10_START_ms : SystemLogic.ICD10_START = Some 1443657600000.
Proof. reflexivity. Qed.

Example lower_example : JS.toLowerCase "Ovar*IAN" = "ovar*ian".
Proof. reflexivity. Qed.

Example strip_example : JS.stripStars "**a*b***" = "a*b".
Proof. reflexivity. Qed.

Example includes_example : JS.includes "arthritis" "itis" = true.
Proof. reflexivity. Qed.

Example indexOf_example : JS.indexOf "arthritis" "itis" = 5.
Proof. reflexivity. Qed.

Example ofIndex_example : JS.ofIndex 12 = "12".
Proof. reflexivity. Qed.

Example resolve_dx :
  SystemLogic.getActiveSystems "dx" (newDate 2010 1 1) (newDate 2020 1 1) false false
  = ["icd10"; "icd9"].
Proof. reflexivity. Qed.

(** ** The system resolver *)

Section Resolver.

Import SystemLogic.

Variables (dateStart dateEnd : Date) (outpatient inpatient : bool).

Ltac unfold_resolver :=
  unfold getActiveSystems, getDxSystems, getMedicationSystems, getLabSystems,
    getLocationSystems, getProcedureSystems, pushIf, pushIfEmpty.

Ltac members :=
  cbv; unfold is_set_of;
  repeat match goal with
         | |- _ /\ _ => split
         | |- _ <-> _ => split
         | |- NoDup _ => constructor
         | |- forall _, _ => intro
         end;
  cbn in *; try tauto; try congruence;
  try solve [intuition (subst; auto; try discriminate; try congruence)].

Lemma before_range_is_before (G : Date) :
  date_le dateStart dateEnd = true -> date_lt dateEnd G = true ->
  date_lt dateStart G = true /\ date_ge dateEnd G = false.
Proof.
  destruct dateStart as [a|], dateEnd as [b|], G as [g|]; cbn; try discriminate.
  intros Hle Hlt. apply Z.leb_le in Hle. apply Z.ltb_lt in Hlt. split.
  - apply Z.ltb_lt. lia.
  - rewrite Z.geb_leb. apply Z.leb_gt. lia.
Qed.

(** C1.  For type dx the result holds icd10 exactly when [dateEnd] is on or
    after 2015-10-01 and icd9 exactly when [dateStart] is before it, as
    long as one of the two conditions holds; with neither it is the single
    system icd10.  A range that straddles the cutover, such as 2010-01-01
    to 2020-01-01, resolves to the two systems icd9 and icd10, and the
    visit-context flags play no part. *)
Theorem dx_resolves_by_icd10_cutover :
  let r := getActiveSystems "dx" dateStart dateEnd outpatient inpatient in
  (date_ge dateEnd ICD10_START = true \/ date_lt dateStart ICD10_START = true ->
     (In "icd10" r <-> date_ge dateEnd ICD10_START = true) /\
     (In "icd9" r <-> date_lt dateStart ICD10_START = true)) /\
  (date_ge dateEnd ICD10_START = false ->
   date_lt dateStart ICD10_START = false -> r = ["icd10"]) /\
  (date_lt dateStart ICD10_START = true ->
   date_ge dateEnd ICD10_START = true ->
     r = ["icd10"; "icd9"] /\ is_set_of r ["icd9"; "icd10"] /\ length r = 2%nat) /\
  (forall x, In x r -> x = "icd9" \/ x = "icd10") /\
  (forall o i, getActiveSystems "dx" dateStart dateEnd o i = r) /\
  (forall o i,
     getActiveSystems "dx" (newDate 2010 1 1) (newDate 2020 1 1) o i
     = ["icd10"; "icd9"]).
Proof.
  unfold_resolver. cbn [String.eqb Ascii.eqb Bool.eqb].
  destruct (date_ge dateEnd ICD10_START), (date_lt dateStart ICD10_START);
    members.
Qed.

(** C2.  For type medication the result holds epic when [dateEnd] is on or
    after 2023-06-03, meditech when [dateStart] is before it and inpatient
    is set, centricity when [dateStart] is before it and outpatient is
    set, and nothing else; when the three rules give nothing the result is
    epic alone. *)
Theorem medication_resolves_by_epic_golive :
  let r := getActiveSystems "medication" dateStart dateEnd outpatient inpatient in
  let beforeEpic := date_lt dateStart EPIC_GOLIVE in
  let afterEpic := date_ge dateEnd EPIC_GOLIVE in
  (afterEpic = true -> In "epic" r) /\
  (In "epic" r <->
     afterEpic = true \/
     (beforeEpic && inpatient = false /\ beforeEpic && outpatient = false)) /\
  (In "meditech" r <-> beforeEpic = true /\ inpatient = true) /\
  (In "centricity" r <-> beforeEpic = true /\ outpatient = true) /\
  (forall x, In x r -> x = "epic" \/ x = "meditech" \/ x = "centricity") /\
  (afterEpic = false -> beforeEpic && inpatient = false ->
   beforeEpic && outpatient = false -> r = ["epic"]) /\
  getActiveSystems "medication" (newDate 2024 1 1) (newDate 2024 6 1) false false
    = ["epic"] /\
  (afterEpic = false ->
   getActiveSystems "medication" dateStart dateEnd false false = ["epic"]).
Proof.
  unfold_resolver. cbn [String.eqb Ascii.eqb Bool.eqb].
  destruct (date_ge dateEnd EPIC_GOLIVE), (date_lt dateStart EPIC_GOLIVE),
    outpatient, inpatient; members.
Qed.

(** C3.  For type location the result holds epic when [dateEnd] is on or
    after 2023-06-03, gecb when [dateStart] is before it and outpatient is
    set, meditech when [dateStart] is before it and inpatient is set, and
    epic alone when the three rules give nothing.  A date range that ends
    before 2023-06-03, with both contexts selected, resolves to gecb and
    meditech, without epic. *)
Theorem location_resolves_by_epic_golive :
  let resolve := getActiveSystems "location" in
  let r := resolve dateStart dateEnd outpatient inpatient in
  let beforeEpic := date_lt dateStart EPIC_GOLIVE in
  let afterEpic := date_ge dateEnd EPIC_GOLIVE in
  (afterEpic = true -> In "epic" r) /\
  (In "epic" r <->
     afterEpic = true \/
     (beforeEpic && outpatient = false /\ beforeEpic && inpatient = false)) /\
  (In "gecb" r <-> beforeEpic = true /\ outpatient = true) /\
  (In "meditech" r <-> beforeEpic = true /\ inpatient = true) /\
  (forall x, In x r -> x = "epic" \/ x = "gecb" \/ x = "meditech") /\
  (afterEpic = false -> beforeEpic && outpatient = false ->
   beforeEpic && inpatient = false -> r = ["epic"]) /\
  (date_le dateStart dateEnd = true -> date_lt dateEnd EPIC_GOLIVE = true ->
     resolve dateStart dateEnd true true = ["gecb"; "meditech"] /\
     is_set_of (resolve dateStart dateEnd true true) ["gecb"; "meditech"] /\
     ~ In "epic" (resolve dateStart dateEnd true true)) /\
  resolve (newDate 2020 1 1) (newDate 2022 1 1) true true = ["gecb"; "meditech"].
Proof.
  cbv zeta.
  repeat match goal with |- _ /\ _ => split end;
    try (intros Hle Hlt;
         destruct (before_range_is_before EPIC_GOLIVE Hle Hlt) as [Hb Ha]);
    unfold_resolver; cbn [String.eqb Ascii.eqb Bool.eqb];
    try rewrite Hb, Ha;
    try (destruct (date_ge dateEnd EPIC_GOLIVE), (date_lt dateStart EPIC_GOLIVE),
           outpatient, inpatient);
    members.
Qed.

Variable type : string.

(** C4.  For each of the five dictionary types, whatever the two dates
    (valid or not) and the two flags, the resolver returns an array with
    at least one system.  The function has no failing path: it is total. *)
Theorem resolver_result_nonempty :
  In type ["dx"; "medication"; "lab"; "location"; "procedure"] ->
  getActiveSystems type dateStart dateEnd outpatient inpatient <> [] /\
  exists x, In x (getActiveSystems type dateStart dateEnd outpatient inpatient).
Proof.
  intros Hin. cbn in Hin.
  repeat (destruct Hin as [<- | Hin]); try contradiction;
    unfold_resolver; cbn [String.eqb Ascii.eqb Bool.eqb];
    destruct (date_ge dateEnd EPIC_GOLIVE), (date_lt dateStart EPIC_GOLIVE),
      (date_ge dateEnd ICD10_START), (date_lt dateStart ICD10_START),
      outpatient, inpatient; cbv; (split; [discriminate | eexists; left; reflexivity]).
Qed.

(** C9.  A type string outside the five dictionary types resolves to the
    empty array, whatever the dates and the flags: no default is applied. *)
Theorem unknown_type_resolves_to_nothing :
  ~ In type ["dx"; "medication"; "lab"; "location"; "procedure"] ->
  getActiveSystems type dateStart dateEnd outpatient inpatient = [].
Proof.
  intros Hnot. unfold getActiveSystems.
  repeat match goal with
         | |- context [String.eqb type ?t] =>
             destruct (String.eqb_spec type t) as [-> | _];
             [exfalso; apply Hnot; cbn; tauto |]
         end.
  reflexivity.
Qed.

End Resolver.

Lemma dx_resolves_by_icd10_cutover_witness :
  date_lt (newDate 2010 1 1) SystemLogic.ICD10_START = true /\
  date_ge (newDate 2020 1 1) SystemLogic.ICD10_START = true /\
  is_set_of
    (SystemLogic.getActiveSystems "dx" (newDate 2010 1 1) (newDate 2020 1 1) true false)
    ["icd9"; "icd10"].
Proof.
  split; [reflexivity | split; [reflexivity |]].
  apply (dx_resolves_by_icd10_cutover (newDate 2010 1 1) (newDate 2020 1 1) true false);
    reflexivity.
Defined.

Lemma medication_resolves_by_epic_golive_witness :
  date_ge (newDate 2022 1 1) SystemLogic.EPIC_GOLIVE = false /\
  SystemLogic.getActiveSystems "medication" (newDate 2020 1 1) (newDate 2022 1 1)
    false false = ["epic"].
Proof.
  split; [reflexivity |].
  apply (medication_resolves_by_epic_golive (newDate 2020 1 1) (newDate 2022 1 1)
           false false); reflexivity.
Defined.

Lemma location_resolves_by_epic_golive_witness :
  date_le (newDate 2020 1 1) (newDate 2022 1 1) = true /\
  date_lt (newDate 2022 1 1) SystemLogic.EPIC_GOLIVE = true /\
  ~ In "epic"
      (SystemLogic.getActiveSystems "location" (newDate 2020 1 1) (newDate 2022 1 1)
         true true).
Proof.
  split; [reflexivity | split; [reflexivity |]].
  apply (location_resolves_by_epic_golive (newDate 2020 1 1) (newDate 2022 1 1)
           true true); reflexivity.
Defined.

Lemma resolver_result_nonempty_witness :
  In "procedure" ["dx"; "medication"; "lab"; "location"; "procedure"] /\
  SystemLogic.getActiveSystems "procedure" InvalidDate InvalidDate false false <> [].
Proof.
  split; [cbn; tauto |].
  apply (resolver_result_nonempty InvalidDate InvalidDate false false "procedure").
  cbn; tauto.
Defined.

Lemma unknown_type_resolves_to_nothing_witness :
  ~ In "visit" ["dx"; "medication"; "lab"; "location"; "procedure"] /\
  SystemLogic.getActiveSystems "visit" (newDate 2020 1 1) (newDate 2025 12 31)
    true true = [].
Proof.
  assert (H : ~ In "visit" ["dx"; "medication"; "lab"; "location"; "procedure"])
    by (cbn; intuition discriminate).
  split; [exact H |].
  apply (unknown_type_resolves_to_nothing (newDate 2020 1 1) (newDate 2025 12 31)
           true true "visit" H).
Defined.

(** ** Strings *)

Section StringFacts.

Lemma append_nil (b : string) : "" ++ b = b.
Proof. reflexivity. Qed.

Lemma append_cons (c : ascii) (a b : string) :
  String c a ++ b = String c (a ++ b).
Proof. reflexivity. Qed.

Lemma toLowerCase_app (a b : string) :
  JS.toLowerCase (a ++ b) = JS.toLowerCase a ++ JS.toLowerCase b.
Proof.
  induction a as [|c a IH]; [reflexivity |].
  rewrite append_cons. cbn [JS.toLowerCase]. now rewrite IH, append_cons.
Qed.

(** [indexOf] finds an occurrence exactly when [includes] holds. *)
Lemma indexOfFrom_includes (s t : string) :
  forall i, 0 <= i ->
    (JS.includes s t = true /\ i <= JS.indexOfFrom i s t) \/
    (JS.includes s t = false /\ JS.indexOfFrom i s t = -1).
Proof.
  induction s as [|c s IH]; intros i Hi; cbn [JS.includes JS.indexOfFrom].
  - destruct (JS.startsWith "" t); cbn; [left | right]; split; auto; lia.
  - destruct (JS.startsWith (String c s) t); cbn [orb].
    + left. split; [reflexivity | lia].
    + destruct (IH (i + 1)) as [[-> H] | [-> H]]; [lia | left | right];
        split; auto; lia.
Qed.

Lemma indexOf_includes (s t : string) :
  negb (JS.indexOf s t =? -1) = JS.includes s t.
Proof.
  unfold JS.indexOf.
  destruct (indexOfFrom_includes s t 0) as [[-> H] | [-> H]]; [lia | |].
  - destruct (Z.eqb_spec (JS.indexOfFrom 0 s t) (-1)); [lia | reflexivity].
  - rewrite H. reflexivity.
Qed.

(** The empty string occurs in every string. *)
Lemma includes_empty (s : string) : JS.includes s "" = true.
Proof. destruct s; reflexivity. Qed.

Lemma isEmpty_true (s : string) : JS.isEmpty s = true <-> s = "".
Proof. destruct s; cbn; split; congruence. Qed.

Lemma isEmpty_false (s : string) : JS.isEmpty s = false <-> s <> "".
Proof. destruct s; cbn; split; congruence. Qed.

(** Stars around a term do not change what [stripStars] leaves. *)
Lemma dropTrailingStars_snoc (s : string) :
  JS.dropTrailingStars (s ++ "*") = JS.dropTrailingStars s.
Proof.
  induction s as [|c s IH]; [reflexivity |].
  rewrite append_cons. cbn [JS.dropTrailingStars]. now rewrite IH.
Qed.

Lemma stripStars_cons (s : string) : JS.stripStars ("*" ++ s) = JS.stripStars s.
Proof. reflexivity. Qed.

Lemma stripStars_snoc (s : string) : JS.stripStars (s ++ "*") = JS.stripStars s.
Proof.
  unfold JS.stripStars. induction s as [|c s IH]; [reflexivity |].
  rewrite append_cons. cbn [JS.dropLeadingStars].
  destruct (JS.isStar c); [exact IH |].
  rewrite <- append_cons. apply dropTrailingStars_snoc.
Qed.

(** A string that [stripStars] empties consists of stars only, and [trim]
    leaves such a string alone. *)
Lemma dropTrailingStars_nonstar (c : ascii) (s : string) :
  JS.isStar c = false -> JS.dropTrailingStars (String c s) <> "".
Proof.
  intros Hc. cbn [JS.dropTrailingStars]. rewrite Hc.
  destruct (JS.dropTrailingStars s); discriminate.
Qed.

Lemma stripStars_empty (s : string) :
  JS.stripStars s = "" -> JS.dropLeadingStars s = "".
Proof.
  unfold JS.stripStars. induction s as [|c s IH]; [reflexivity |].
  cbn [JS.dropLeadingStars]. destruct (JS.isStar c) eqn:Hc; [exact IH |].
  intros H. now apply dropTrailingStars_nonstar in H.
Qed.

Lemma isStar_not_space (c : ascii) : JS.isStar c = true -> JS.isSpace c = false.
Proof.
  unfold JS.isStar. intros H. apply Ascii.eqb_eq in H. now subst c.
Qed.

Lemma trim_stars (s : string) : JS.dropLeadingStars s = "" -> JS.trim s = s.
Proof.
  unfold JS.trim. intros H.
  assert (Hs : JS.trimStart s = s).
  { destruct s as [|c s]; [reflexivity |]. cbn in *.
    destruct (JS.isStar c) eqn:Hc; [| discriminate].
    now rewrite (isStar_not_space c Hc). }
  rewrite Hs. clear Hs.
  induction s as [|c s IH]; [reflexivity |].
  cbn in H. destruct (JS.isStar c) eqn:Hc; [| discriminate].
  cbn [JS.trimEnd]. rewrite (IH H), (isStar_not_space c Hc).
  destruct s; reflexivity.
Qed.

End StringFacts.

(** ** The keyword matcher *)

Section Keywords.

Import CsvDownload.

Lemma valueText_string (cand : string) :
  valueText (VStr cand) = JS.toLowerCase cand.
Proof. destruct cand; reflexivity. Qed.

Lemma valueHit_includes (core : string) (v : Value) :
  valueHit core v = JS.includes (valueText v) core.
Proof. apply indexOf_includes. Qed.

(** What [countMatches] says about a single candidate. *)
Lemma matchesTerm_unfold (kw cand : string) :
  matchesTerm kw cand =
  if JS.isEmpty (coreOf kw) then false
  else JS.includes (JS.toLowerCase cand) (coreOf kw).
Proof.
  unfold matchesTerm, countMatches.
  destruct (JS.isEmpty (coreOf kw)); [reflexivity |].
  cbn [filter rowHit Obj.values map snd existsb].
  rewrite valueHit_includes, valueText_string, orb_false_r.
  destruct (JS.includes (JS.toLowerCase cand) (coreOf kw)); reflexivity.
Qed.

Lemma rowHit_includes (core : string) (row : Row) :
  rowHit core row =
  existsb (fun v => JS.includes (valueText v) core) (Obj.values row).
Proof.
  unfold rowHit. induction (Obj.values row) as [|v vs IH]; [reflexivity |].
  cbn [existsb]. now rewrite valueHit_includes, IH.
Qed.

Lemma countMatches_includes (data : list Row) (kw : string) :
  coreOf kw <> "" ->
  countMatches data kw =
  length (filter (fun row =>
                    existsb (fun v => JS.includes (valueText v) (coreOf kw))
                            (Obj.values row))
                 data).
Proof.
  intros Hcore. apply isEmpty_false in Hcore.
  unfold countMatches. rewrite Hcore. f_equal.
  induction data as [|row data IH]; [reflexivity |].
  cbn [filter]. now rewrite rowHit_includes, IH.
Qed.

Lemma coreOf_star_l (c : string) : coreOf ("*" ++ c) = coreOf c.
Proof. reflexivity. Qed.

Lemma coreOf_star_r (c : string) : coreOf (c ++ "*") = coreOf c.
Proof. unfold coreOf. rewrite toLowerCase_app. apply stripStars_snoc. Qed.

Lemma coreOf_star_lr (c : string) : coreOf ("*" ++ c ++ "*") = coreOf c.
Proof. rewrite coreOf_star_l. apply coreOf_star_r. Qed.

Lemma countMatches_by_core (data : list Row) (kw1 kw2 : string) :
  coreOf kw1 = coreOf kw2 -> countMatches data kw1 = countMatches data kw2.
Proof. unfold countMatches. now intros ->. Qed.

(** The four branches of [buildMatcher] are one and the same test. *)
Lemma buildMatcher_includes (keyword val : string) :
  DictApp.buildMatcher keyword val =
  let core := JS.stripStars (JS.trim (JS.toLowerCase keyword)) in
  if JS.isEmpty core then false else JS.includes val core.
Proof.
  unfold DictApp.buildMatcher. cbv zeta.
  destruct (JS.isEmpty _); [reflexivity |].
  destruct (JS.startsWith _ _), (JS.endsWith _ _); reflexivity.
Qed.

Lemma buildMatcher_matchesTerm (kw cand : string) :
  JS.trim (JS.toLowerCase kw) = JS.toLowerCase kw ->
  DictApp.buildMatcher kw (JS.toLowerCase cand) = matchesTerm kw cand.
Proof.
  intros Htrim. rewrite buildMatcher_includes, matchesTerm_unfold.
  cbv zeta. rewrite Htrim. reflexivity.
Qed.

(** C5, as it holds.  For a keyword term whose core (the lower-cased term
    without its leading and trailing stars) is not empty, the predicate
    that the term denotes is substring containment of the core in the
    lower-cased candidate.  For every term the result is a function of
    the core alone, so the terms c, *c, c* and *c* denote the same
    predicate and give the same match count; the term *itis accepts
    arthritis and ovar* accepts ovarian.  The matcher of the keyword chips,
    given the lower-cased candidate, is the same predicate for every term
    that has no white space around it. *)
Theorem keyword_term_is_substring_match :
  (forall kw cand, coreOf kw <> "" ->
     matchesTerm kw cand = JS.includes (JS.toLowerCase cand) (coreOf kw)) /\
  (forall kw data, coreOf kw <> "" ->
     countMatches data kw =
     length (filter (fun row =>
                       existsb (fun v => JS.includes (valueText v) (coreOf kw))
                               (Obj.values row))
                    data)) /\
  (forall kw1 kw2, coreOf kw1 = coreOf kw2 ->
     forall cand, matchesTerm kw1 cand = matchesTerm kw2 cand) /\
  (forall c cand,
     matchesTerm ("*" ++ c) cand = matchesTerm c cand /\
     matchesTerm (c ++ "*") cand = matchesTerm c cand /\
     matchesTerm ("*" ++ c ++ "*") cand = matchesTerm c cand) /\
  (forall c data,
     countMatches data ("*" ++ c) = countMatches data c /\
     countMatches data (c ++ "*") = countMatches data c /\
     countMatches data ("*" ++ c ++ "*") = countMatches data c) /\
  matchesTerm "*itis" "arthritis" = true /\
  matchesTerm "ovar*" "ovarian" = true /\
  (forall kw cand, JS.trim (JS.toLowerCase kw) = JS.toLowerCase kw ->
     DictApp.buildMatcher kw (JS.toLowerCase cand) = matchesTerm kw cand).
Proof.
  repeat split; try reflexivity.
  - intros kw cand Hcore. rewrite matchesTerm_unfold.
    apply isEmpty_false in Hcore. now rewrite Hcore.
  - intros kw data. apply countMatches_includes.
  - intros kw1 kw2 Hcore cand. unfold matchesTerm.
    now rewrite (countMatches_by_core _ kw1 kw2 Hcore).
  - rewrite !matchesTerm_unfold. now rewrite coreOf_star_r.
  - rewrite !matchesTerm_unfold. now rewrite coreOf_star_lr.
  - apply countMatches_by_core, coreOf_star_r.
  - apply countMatches_by_core, coreOf_star_lr.
  - intros kw cand. apply buildMatcher_matchesTerm.
Qed.

(** C6.  A keyword term whose core is empty, such as the empty term, a
    single star or three stars, matches no candidate: the predicate is
    false throughout, the match count is zero for every collection, and
    the matcher of the keyword chips rejects every value. *)
Theorem degenerate_term_matches_nothing (kw : string) :
  coreOf kw = "" ->
  (forall cand, matchesTerm kw cand = false) /\
  (forall data, countMatches data kw = 0%nat) /\
  (forall val, DictApp.buildMatcher kw val = false).
Proof.
  intros Hcore. repeat split.
  - intros cand. rewrite matchesTerm_unfold. now rewrite Hcore.
  - intros data. unfold countMatches. now rewrite Hcore.
  - intros val. rewrite buildMatcher_includes. cbv zeta.
    unfold coreOf in Hcore.
    rewrite (trim_stars _ (stripStars_empty _ Hcore)). now rewrite Hcore.
Qed.

End Keywords.

(** The predicate of a term with an empty core is not containment of that
    core: the empty string occurs in every candidate, the term accepts
    none. *)
Lemma empty_core_is_not_containment :
  CsvDownload.coreOf "*" = "" /\
  CsvDownload.matchesTerm "*" "anything" = false /\
  DictApp.buildMatcher "*" (JS.toLowerCase "anything") = false /\
  JS.includes (JS.toLowerCase "anything") (CsvDownload.coreOf "*") = true /\
  CsvDownload.matchesTerm "*" "anything"
    <> JS.includes (JS.toLowerCase "anything") (CsvDownload.coreOf "*").
Proof. repeat split; try reflexivity. discriminate. Qed.

Lemma keyword_term_is_substring_match_witness :
  CsvDownload.coreOf "*ITIS" <> "" /\
  CsvDownload.matchesTerm "*ITIS" "Arthritis"
    = JS.includes (JS.toLowerCase "Arthritis") (CsvDownload.coreOf "*ITIS").
Proof.
  assert (H : CsvDownload.coreOf "*ITIS" <> "") by discriminate.
  split; [exact H |].
  apply (proj1 keyword_term_is_substring_match "*ITIS" "Arthritis" H).
Defined.

Lemma degenerate_term_matches_nothing_witness :
  CsvDownload.coreOf "***" = "" /\
  CsvDownload.matchesTerm "***" "anything" = false.
Proof.
  split; [reflexivity |].
  apply (degenerate_term_matches_nothing "***"). reflexivity.
Defined.

(** The chip matcher trims the lower-cased term, the match count of the
    manifest does not: the two differ on a term with white space around
    it. *)
Example matcher_trims_term :
  DictApp.buildMatcher " a" "ba" = true /\
  CsvDownload.matchesTerm " a" "ba" = false.
Proof. split; reflexivity. Qed.

(** Every value of a row is searched, the flag and the bookkeeping columns
    included. *)
Example countMatches_example :
  CsvDownload.countMatches Demo.rows "*neoplasm" = 2%nat /\
  CsvDownload.countMatches Demo.rows "ICD9" = 1%nat /\
  CsvDownload.countMatches Demo.rows "tru*" = 1%nat /\
  CsvDownload.countMatches Demo.rows "***" = 0%nat.
Proof. repeat split. Qed.

Example degenerate_terms :
  CsvDownload.coreOf "" = "" /\ CsvDownload.coreOf "*" = "" /\
  CsvDownload.coreOf "***" = "".
Proof. repeat split. Qed.

(** ** CSV export *)

Section CsvQuoting.

Import CsvDownload CsvRead.

Lemma startsWith_empty (s : string) : JS.startsWith s "" = true.
Proof. destruct s; reflexivity. Qed.

Lemma includes_char (s : string) (c : ascii) :
  JS.includes s (JS.str c) = true <-> contains s c.
Proof.
  unfold contains, JS.str. induction s as [|a s IH].
  - cbn. split; [discriminate | tauto].
  - cbn [JS.includes JS.startsWith list_ascii_of_string In].
    rewrite startsWith_empty, andb_true_r, orb_true_iff, IH.
    destruct (Ascii.eqb_spec c a); intuition congruence.
Qed.

Lemma includes_char_false (s : string) (c : ascii) :
  JS.includes s (JS.str c) = false <-> ~ contains s c.
Proof.
  rewrite <- includes_char. destruct (JS.includes s (JS.str c)); intuition congruence.
Qed.

Lemma needsQuotes_contains (val : string) :
  needsQuotes val = true <->
  contains val JS.comma \/ contains val JS.dquote \/ contains val JS.newline.
Proof.
  unfold needsQuotes. rewrite !orb_true_iff, <- !includes_char. tauto.
Qed.

Lemma csvQuote_cases (val : string) :
  csvQuote val =
  if needsQuotes val
  then JS.str JS.dquote ++ JS.doubleQuotes val ++ JS.str JS.dquote
  else val.
Proof. unfold csvQuote, needsQuotes. now rewrite !indexOf_includes. Qed.

Lemma field_csvQuote (row : Row) (col : string) :
  field row col = csvQuote (fieldText row col).
Proof. rewrite csvQuote_cases. reflexivity. Qed.

Lemma collapseQuotes_other (c : ascii) (s : string) :
  c <> JS.dquote -> collapseQuotes (String c s) = String c (collapseQuotes s).
Proof.
  intros Hc. apply Ascii.eqb_neq in Hc. destruct s as [|b t]; [reflexivity |].
  change (collapseQuotes (String c (String b t)))
    with (if Ascii.eqb c JS.dquote && Ascii.eqb b JS.dquote
          then String JS.dquote (collapseQuotes t)
          else String c (collapseQuotes (String b t))).
  now rewrite Hc.
Qed.

Lemma collapse_doubleQuotes (s : string) :
  collapseQuotes (JS.doubleQuotes s) = s.
Proof.
  induction s as [|c s IH]; [reflexivity |].
  cbn [JS.doubleQuotes]. destruct (Ascii.eqb_spec c JS.dquote) as [-> | Hc].
  - cbn [collapseQuotes]. rewrite Ascii.eqb_refl. cbn [andb]. now rewrite IH.
  - rewrite (collapseQuotes_other _ _ Hc). now rewrite IH.
Qed.

Lemma removeLast_snoc (s : string) (c : ascii) :
  removeLast (s ++ JS.str c) = s.
Proof.
  induction s as [|a s IH]; [reflexivity |].
  rewrite append_cons. cbn [removeLast]. rewrite IH.
  destruct s; reflexivity.
Qed.

Lemma endsWith_refl (p : string) : JS.endsWith p p = true.
Proof. destruct p; cbn; [reflexivity |]. now rewrite Ascii.eqb_refl, String.eqb_refl. Qed.

Lemma endsWith_snoc (s p : string) : JS.endsWith (s ++ p) p = true.
Proof.
  induction s as [|a s IH]; [apply endsWith_refl |].
  rewrite append_cons. cbn [JS.endsWith]. rewrite IH. apply orb_true_r.
Qed.

Lemma unquoted_is_not_quoted (val : string) :
  needsQuotes val = false -> csvUnquote val = val.
Proof.
  intros H. destruct val as [|q r]; [reflexivity |].
  unfold csvUnquote, isQuoted.
  destruct (Ascii.eqb_spec q JS.dquote) as [-> | _]; [| reflexivity].
  unfold needsQuotes in H. apply orb_false_iff in H as [H _].
  apply orb_false_iff in H as [_ H]. cbn in H.
  rewrite startsWith_empty in H. discriminate.
Qed.

(** C10.  [csvQuote], and the same quoting written out in [download], wrap
    a value in double quotes, with every double quote inside doubled,
    exactly when the value contains a comma, a double quote or a newline,
    and leave it as it is otherwise.  Reading the field back (strip the
    two outer quotes and collapse the doubled ones, when quoted) gives the
    value again, for every value. *)
Theorem csv_quoting_round_trips (val : string) :
  (contains val JS.comma \/ contains val JS.dquote \/ contains val JS.newline ->
     csvQuote val = JS.str JS.dquote ++ JS.doubleQuotes val ++ JS.str JS.dquote) /\
  (~ (contains val JS.comma \/ contains val JS.dquote \/ contains val JS.newline) ->
     csvQuote val = val) /\
  csvUnquote (csvQuote val) = val /\
  (forall row col, fieldText row col = val ->
     field row col = csvQuote val /\ csvUnquote (field row col) = val).
Proof.
  assert (Hround : csvUnquote (csvQuote val) = val).
  { rewrite csvQuote_cases. destruct (needsQuotes val) eqn:Hq.
    - unfold JS.str at 1. rewrite append_cons, append_nil.
      unfold csvUnquote, isQuoted.
      rewrite Ascii.eqb_refl, endsWith_snoc. cbn [andb].
      rewrite removeLast_snoc. apply collapse_doubleQuotes.
    - now apply unquoted_is_not_quoted. }
  repeat split.
  - intros H. apply needsQuotes_contains in H. rewrite csvQuote_cases. now rewrite H.
  - intros H. rewrite csvQuote_cases.
    destruct (needsQuotes val) eqn:Hq; [| reflexivity].
    apply needsQuotes_contains in Hq. contradiction.
  - exact Hround.
  - subst val. apply field_csvQuote.
  - rewrite field_csvQuote. subst val. exact Hround.
Qed.

End CsvQuoting.

Lemma csv_quoting_round_trips_witness :
  CsvRead.contains ("a," ++ JS.str JS.dquote ++ "b") JS.comma /\
  CsvRead.csvUnquote (CsvDownload.csvQuote ("a," ++ JS.str JS.dquote ++ "b"))
    = "a," ++ JS.str JS.dquote ++ "b".
Proof.
  split; [cbv; tauto |].
  apply (csv_quoting_round_trips ("a," ++ JS.str JS.dquote ++ "b")).
Defined.

Section CsvExport.

Import CsvDownload.

Lemma join_cons (sep x : string) (l : list string) :
  l <> [] -> JS.join sep (x :: l) = x ++ sep ++ JS.join sep l.
Proof. destruct l; [congruence | reflexivity]. Qed.

Lemma append_assoc (a b c : string) : (a ++ b) ++ c = a ++ b ++ c.
Proof.
  induction a as [|x a IH]; [reflexivity |].
  rewrite !append_cons. now rewrite IH.
Qed.

(** The header ends with the three reserved names, whatever precedes. *)
Lemma join_trailing (sep : string) (l r : list string) :
  r <> [] -> exists pre, JS.join sep (l ++ r) = pre ++ JS.join sep r.
Proof.
  intros Hr. induction l as [|x l [pre IH]].
  - exists "". reflexivity.
  - exists (x ++ sep ++ pre). cbn [app].
    rewrite join_cons by (destruct l, r; cbn; congruence).
    now rewrite IH, !append_assoc.
Qed.

Lemma field_desired (row : Row) :
  field row "desired" =
  if Obj.truthy (Obj.get row "desired") then "TRUE" else "FALSE".
Proof.
  unfold field, fieldText. cbn [String.eqb Ascii.eqb Bool.eqb andb].
  destruct (Obj.truthy (Obj.get row "desired")); reflexivity.
Qed.

Lemma dataCols_not_reserved (sampleRow : Row) :
  Forall (fun col => reserved col = false /\ JS.startsWith col "_" = false)
         (dataColsOf sampleRow).
Proof.
  apply Forall_forall. intros col Hin. unfold dataColsOf in Hin.
  apply filter_In in Hin as [_ H]. apply andb_true_iff in H as [H1 H2].
  apply negb_true_iff in H1, H2. now split.
Qed.

Variables (rows : list Row) (type source projectName : string)
          (desiredOnly : bool).

(** The exporter that reads the columns off the rows.  When there are rows
    to export, the header of the CSV lists the data columns and then
    desired, category, keyword_matched, in this order and as its last three
    names, and every data line carries in the desired column the text TRUE
    when the desired flag of its row is set and FALSE when it is not. *)
Theorem download_trailing_columns :
  let exportRows :=
    if desiredOnly
    then filter (fun r => Obj.truthy (Obj.get r "desired")) rows
    else rows in
  exportRows <> [] ->
  exists (d : Download) (dataCols : list string),
    download rows type source projectName desiredOnly = Some d /\
    rowCount d = length exportRows /\
    dataCols = dataColsOf (hd [] exportRows) /\
    Forall (fun col => reserved col = false /\ JS.startsWith col "_" = false)
           dataCols /\
    let schema := (dataCols ++ ["desired"; "category"; "keyword_matched"])%list in
    csvContent d =
      JS.join (JS.str JS.newline)
        (JS.join "," schema
           :: map (fun row => JS.join "," (fields schema row)) exportRows) /\
    (exists pre, JS.join "," schema = pre ++ "desired,category,keyword_matched") /\
    forall row, In row exportRows ->
      fields schema row =
        (map (field row) dataCols
         ++ [ (if Obj.truthy (Obj.get row "desired") then "TRUE" else "FALSE");
              field row "category"; field row "keyword_matched" ])%list /\
      forall b : bool, Obj.get row "desired" = Some (VBool b) ->
        nth (length dataCols) (fields schema row) "" =
        if b then "TRUE" else "FALSE".
Proof.
  intros exportRows Hne.
  assert (Hrows : (Z.of_nat (length rows) =? 0) = false).
  { apply Z.eqb_neq. destruct rows; [| cbn; lia].
    exfalso. apply Hne. subst exportRows. now destruct desiredOnly. }
  destruct exportRows as [|sampleRow rest] eqn:Hexp; [congruence |].
  exists {| csvContent :=
              JS.join (JS.str JS.newline)
                (JS.join "," (schemaOf sampleRow)
                   :: map (dataLine (schemaOf sampleRow)) (sampleRow :: rest));
            rowCount := length (sampleRow :: rest) |},
         (dataColsOf sampleRow).
  split; [| split; [reflexivity | split; [reflexivity |
    split; [apply dataCols_not_reserved | split; [reflexivity | split]]]]].
  - unfold download. rewrite Hrows. subst exportRows. now rewrite Hexp.
  - apply (join_trailing "," (dataColsOf sampleRow)
             ["desired"; "category"; "keyword_matched"]). discriminate.
  - intros row _.
    assert (Hf : fields (dataColsOf sampleRow
                         ++ ["desired"; "category"; "keyword_matched"])%list row
                 = (map (field row) (dataColsOf sampleRow)
                    ++ [ (if Obj.truthy (Obj.get row "desired") then "TRUE" else "FALSE");
                         field row "category"; field row "keyword_matched" ])%list).
    { unfold fields. rewrite map_app. cbn [map]. now rewrite field_desired. }
    split; [exact Hf |].
    intros b Hb. rewrite Hf, app_nth2 by (rewrite length_map; lia).
    rewrite length_map, Nat.sub_diag, Hb. reflexivity.
Qed.

End CsvExport.

(** ** Reloads *)

Example overlap_tasks :
  DictApp.task_systems Overlap.taskA = ["icd9"] /\
  DictApp.task_systems Overlap.taskB = ["icd10"] /\
  DictApp.task_files Overlap.taskA = [("dictionary-dx.csv", None)] /\
  DictApp.task_files Overlap.taskB = [("dictionary-dx.csv", None)].
Proof. repeat split; vm_compute; reflexivity. Qed.

Example overlap_after_B :
  DictApp.dataOf Overlap.afterArrivalB "dx" = [Overlap.icd10Row].
Proof. vm_compute. reflexivity. Qed.

Example overlap_after_A :
  DictApp.dataOf Overlap.afterArrivalA "dx" = [Overlap.icd9Row].
Proof. vm_compute. reflexivity. Qed.

Section Reload.

Import DictApp.

Variable applyKeywordFilter : string -> State -> State.

Abbreviation resume := (loadTypeData_resume applyKeywordFilter).
Abbreviation deliverAll := (deliver applyKeywordFilter).

Lemma unifyRow_store (s1 s2 : State) type systems file idx row :
  same_store s1 s2 ->
  unifyRow s1 type systems file idx row = unifyRow s2 type systems file idx row.
Proof.
  intros (Hd & Hc & Hk).
  unfold unifyRow, desiredAt, categoryAt, keywordMatchedAt.
  now rewrite Hd, Hc, Hk.
Qed.

Lemma unifyFile_store (s1 s2 : State) type systems file rows :
  same_store s1 s2 ->
  forall idx,
    unifyFile s1 type systems file idx rows = unifyFile s2 type systems file idx rows.
Proof.
  intros Hs. induction rows as [|row rows IH]; intros idx; [reflexivity |].
  cbn [unifyFile]. rewrite (unifyRow_store s1 s2) by exact Hs.
  now rewrite IH.
Qed.

Lemma mergeResults_store (s1 s2 : State) type systems results :
  same_store s1 s2 ->
  mergeResults s1 type systems results = mergeResults s2 type systems results.
Proof.
  intros Hs. unfold mergeResults.
  induction results as [|fd results IH]; [reflexivity |].
  cbn [flat_map]. now rewrite IH, (unifyFile_store s1 s2) by exact Hs.
Qed.

(** With no keyword chip on the type of the task, resuming the task is the
    assignment of the merged rows and of the fetched files, nothing more. *)
Lemma resume_without_keywords (st : State) (task : LoadTask) loaded :
  keywordsOf st (task_type task) = [] ->
  resume st task loaded =
  {| rawData := cacheLoaded task loaded (rawData st);
     data := <[task_type task :=
               mergeResults st (task_type task) (task_systems task)
                 (taskResults task loaded)]> (data st);
     desired := desired st;
     categories := categories st;
     keywordMatched := keywordMatched st;
     activeSystems := activeSystems st;
     keywords := keywords st |}.
Proof.
  intros Hk. unfold loadTypeData_resume. cbv zeta.
  unfold keywordsOf in *. cbn [keywords]. now rewrite Hk.
Qed.

Lemma resume_data (st : State) (task : LoadTask) loaded :
  keywordsOf st (task_type task) = [] ->
  dataOf (resume st task loaded) (task_type task) =
  mergeResults st (task_type task) (task_systems task) (taskResults task loaded).
Proof.
  intros Hk. rewrite resume_without_keywords by exact Hk.
  unfold dataOf. cbn [data]. now rewrite lookup_insert_eq.
Qed.

Lemma deliver_keeps (arrivals : list (LoadTask * (string -> list RawRow))) :
  forall st, no_keywords st arrivals ->
    same_store (deliverAll st arrivals) st /\
    keywords (deliverAll st arrivals) = keywords st /\
    activeSystems (deliverAll st arrivals) = activeSystems st.
Proof.
  induction arrivals as [|[task loaded] arrivals IH]; intros st Hno.
  - repeat split.
  - apply Forall_cons_iff in Hno as [Hk Hno]. cbn [fst] in Hk.
    cbn [deliver fold_left fst snd].
    pose proof (resume_without_keywords st task loaded Hk) as Hr.
    destruct (IH (resume st task loaded)) as ((Hd & Hc & Hm) & Hkw & Ha).
    { unfold no_keywords, keywordsOf in *. now rewrite Hr. }
    unfold deliver in *. rewrite Hr in *. cbn in *. repeat split; assumption.
Qed.

(** What the last arrival leaves behind, for any suspended load. *)
Lemma deliver_last
    (st : State) (arrivals : list (LoadTask * (string -> list RawRow)))
    (task : LoadTask) (loaded : string -> list RawRow) :
  no_keywords st (arrivals ++ [(task, loaded)]) ->
  let st' := deliverAll st (arrivals ++ [(task, loaded)]) in
  dataOf st' (task_type task) =
    mergeResults st (task_type task) (task_systems task) (taskResults task loaded) /\
  activeSystems st' = activeSystems st.
Proof.
  intros Hno st'. subst st'. unfold no_keywords in Hno.
  apply Forall_app in Hno as [Hno Hlast].
  apply Forall_cons_iff in Hlast as [Hk _]. cbn [fst] in Hk.
  destruct (deliver_keeps arrivals st Hno) as (Hs & Hkw & Ha).
  unfold deliver in *. rewrite fold_left_app. cbn [fold_left fst snd].
  set (mid := fold_left _ arrivals st) in *.
  assert (Hk' : keywordsOf mid (task_type task) = [])
    by (unfold keywordsOf in *; now rewrite Hkw).
  split.
  - rewrite resume_data by exact Hk'. now apply mergeResults_store.
  - rewrite resume_without_keywords by exact Hk'. exact Ha.
Qed.

(** C8, as it holds.  There is no load epoch.  A load of [type] that was
    started in state [st0] carries the systems that were active in [st0].
    When its files arrive, in whatever state [st] and after whatever other
    arrivals, the rows merged for those systems become the active
    collection of [type], and the active systems of the moment stay as they
    are.  So after any sequence of arrivals the active collection is the
    result of the arrival that came last, whether or not a newer reload was
    started, or has delivered, in the meantime.  (Stated for types without
    active keyword chips; with chips the keyword filter is applied to the
    new collection again.) *)
Theorem last_arrival_becomes_active
    (st0 st : State) (type : string)
    (arrivals : list (LoadTask * (string -> list RawRow)))
    (loaded : string -> list RawRow) :
  let task := loadTypeData_begin st0 type in
  no_keywords st (arrivals ++ [(task, loaded)]) ->
  let st' := deliverAll st (arrivals ++ [(task, loaded)]) in
  dataOf st' type =
    mergeResults st type (activeSystemsOf st0 type) (taskResults task loaded) /\
  activeSystemsOf st' type = activeSystemsOf st type.
Proof.
  intros task Hno st'.
  destruct (deliver_last st arrivals task loaded Hno) as [Hd Ha].
  split; [exact Hd |]. unfold activeSystemsOf. subst st'. now rewrite Ha.
Qed.

End Reload.

(** The late result of the superseded reload A replaces the collection that
    reload B had made active: the table then shows ICD-9 rows although the
    active systems say icd10. *)
Lemma stale_result_overwrites_newer :
  DictApp.activeSystemsOf Overlap.afterArrivalB "dx" = ["icd10"] /\
  DictApp.dataOf Overlap.afterArrivalB "dx" = [Overlap.icd10Row] /\
  DictApp.activeSystemsOf Overlap.afterArrivalA "dx" = ["icd10"] /\
  DictApp.dataOf Overlap.afterArrivalA "dx" = [Overlap.icd9Row] /\
  DictApp.dataOf Overlap.afterArrivalA "dx"
    <> DictApp.dataOf Overlap.afterArrivalB "dx".
Proof.
  repeat split; try (vm_compute; reflexivity).
  rewrite overlap_after_A, overlap_after_B. discriminate.
Qed.

Lemma last_arrival_becomes_active_witness :
  DictApp.no_keywords Overlap.afterReloadB
    ([(Overlap.taskB, Overlap.loader)]
     ++ [(DictApp.loadTypeData_begin Overlap.afterReloadA "dx", Overlap.loader)]) /\
  DictApp.dataOf
    (DictApp.deliver Overlap.noFilter Overlap.afterReloadB
       ([(Overlap.taskB, Overlap.loader)]
        ++ [(DictApp.loadTypeData_begin Overlap.afterReloadA "dx", Overlap.loader)]))
    "dx"
  = DictApp.mergeResults Overlap.afterReloadB "dx"
      (DictApp.activeSystemsOf Overlap.afterReloadA "dx")
      (DictApp.taskResults (DictApp.loadTypeData_begin Overlap.afterReloadA "dx")
         Overlap.loader).
Proof.
  assert (H : DictApp.no_keywords Overlap.afterReloadB
                ([(Overlap.taskB, Overlap.loader)]
                 ++ [(DictApp.loadTypeData_begin Overlap.afterReloadA "dx",
                      Overlap.loader)]))
    by (repeat constructor).
  split; [exact H |].
  apply (last_arrival_becomes_active Overlap.noFilter Overlap.afterReloadA
           Overlap.afterReloadB "dx" [(Overlap.taskB, Overlap.loader)]
           Overlap.loader H).
Defined.

Lemma download_trailing_columns_witness :
  Demo.rows <> [] /\
  exists d,
    CsvDownload.download Demo.rows "dx" "" "study" false = Some d /\
    CsvDownload.rowCount d = 2%nat.
Proof.
  assert (H : Demo.rows <> []) by discriminate.
  split; [exact H |].
  destruct (download_trailing_columns Demo.rows "dx" "" "study" false H)
    as (d & _ & Hd & Hn & _).
  exists d. split; [exact Hd | exact Hn].
Defined.

Example download_example :
  CsvDownload.download Demo.rows "dx" "" "" false =
  Some {| CsvDownload.csvContent :=
            JS.join (JS.str JS.newline)
              [ "concept_id,vocabulary_id,icd_code,icd_description,desired,category,keyword_matched";
                "35206462,ICD10CM,C50.911,Malignant neoplasm of breast,TRUE,"
                  ++ JS.str JS.dquote ++ "breast, female" ++ JS.str JS.dquote ++ ",";
                "44826110,ICD9CM,174.9,Malignant neoplasm of breast,FALSE,," ];
          CsvDownload.rowCount := 2 |} /\
  CsvDownload.download [Demo.plainRow] "dx" "" "" true = None.
Proof. split; reflexivity. Qed.

(** The static table stops at category; the header that [download] writes
    does not come from it. *)
Example static_schema_example :
  CsvDownload.getDownloadSchema "dx" "" =
    ["concept_id"; "vocabulary_id"; "icd_code"; "icd_description";
     "desired"; "category"] /\
  CsvDownload.getDownloadSchema "procedure" "epic" = [].
Proof. split; reflexivity. Qed.

(** * Further properties of the sources *)

(** ** system-logic.js: the remaining types, and the files of a result *)

Section ResolverRanges.

Import SystemLogic.

Variables (dateStart dateEnd : Date) (outpatient inpatient : bool).

Ltac resolver_cases :=
  unfold getActiveSystems, getDxSystems, getMedicationSystems, getLabSystems,
    getLocationSystems, getProcedureSystems, pushIf, pushIfEmpty;
  cbn [String.eqb Ascii.eqb Bool.eqb].

Ltac list_facts :=
  cbv; unfold is_set_of;
  repeat match goal with
         | |- _ /\ _ => split
         | |- _ <-> _ => split
         | |- NoDup _ => constructor
         | |- forall _, _ => intro
         end;
  cbn in *; try tauto; try congruence; try lia;
  try solve [intuition (subst; auto; try discriminate; try congruence)].

Lemma after_range_is_after (G : Date) :
  date_le dateStart dateEnd = true -> date_ge dateStart G = true ->
  date_lt dateStart G = false /\ date_ge dateEnd G = true.
Proof.
  destruct dateStart as [a|], dateEnd as [b|], G as [g|]; cbn; try discriminate.
  intros Hle Hge. apply Z.leb_le in Hle. rewrite Z.geb_leb in Hge.
  apply Z.leb_le in Hge. split.
  - apply Z.ltb_ge. lia.
  - rewrite Z.geb_leb. apply Z.leb_le. lia.
Qed.

Lemma before_range (G : Date) :
  date_le dateStart dateEnd = true -> date_lt dateEnd G = true ->
  date_lt dateStart G = true /\ date_ge dateEnd G = false.
Proof.
  destruct dateStart as [a|], dateEnd as [b|], G as [g|]; cbn; try discriminate.
  intros Hle Hlt. apply Z.leb_le in Hle. apply Z.ltb_lt in Hlt. split.
  - apply Z.ltb_lt. lia.
  - rewrite Z.geb_leb. apply Z.leb_gt. lia.
Qed.

(** For type lab the visit context plays no part.  A date range that lies
    before the Epic go-live resolves to meditech alone, one that starts on
    or after it to epic alone, one that straddles it to epic and meditech;
    a pair of dates of which one is invalid and the other leaves its rule
    unmet resolves to epic. *)
Theorem lab_resolves_by_range :
  let resolve := getActiveSystems "lab" in
  let r := resolve dateStart dateEnd outpatient inpatient in
  (In "epic" r <->
     date_ge dateEnd EPIC_GOLIVE = true \/ date_lt dateStart EPIC_GOLIVE = false) /\
  (In "meditech" r <-> date_lt dateStart EPIC_GOLIVE = true) /\
  (forall x, In x r -> x = "epic" \/ x = "meditech") /\
  (date_le dateStart dateEnd = true -> date_lt dateEnd EPIC_GOLIVE = true ->
     r = ["meditech"]) /\
  (date_le dateStart dateEnd = true -> date_ge dateStart EPIC_GOLIVE = true ->
     r = ["epic"]) /\
  (date_lt dateStart EPIC_GOLIVE = true -> date_ge dateEnd EPIC_GOLIVE = true ->
     r = ["epic"; "meditech"]) /\
  (dateStart = InvalidDate -> dateEnd = InvalidDate -> r = ["epic"]) /\
  (forall o i, resolve dateStart dateEnd o i = r).
Proof.
  cbv zeta.
  repeat match goal with |- _ /\ _ => split end;
    try (intros Hle Hlt;
         first [ destruct (before_range EPIC_GOLIVE Hle Hlt) as [Hb Ha]
               | destruct (after_range_is_after EPIC_GOLIVE Hle Hlt) as [Hb Ha]
               | subst dateStart dateEnd ]);
    resolver_cases;
    try rewrite Hb, Ha;
    try (destruct (date_ge dateEnd EPIC_GOLIVE), (date_lt dateStart EPIC_GOLIVE));
    list_facts.
Qed.

(** For type procedure likewise, with gecb as the system before the
    go-live. *)
Theorem procedure_resolves_by_range :
  let resolve := getActiveSystems "procedure" in
  let r := resolve dateStart dateEnd outpatient inpatient in
  (In "epic" r <->
     date_ge dateEnd EPIC_GOLIVE = true \/ date_lt dateStart EPIC_GOLIVE = false) /\
  (In "gecb" r <-> date_lt dateStart EPIC_GOLIVE = true) /\
  (forall x, In x r -> x = "epic" \/ x = "gecb") /\
  (date_le dateStart dateEnd = true -> date_lt dateEnd EPIC_GOLIVE = true ->
     r = ["gecb"]) /\
  (date_le dateStart dateEnd = true -> date_ge dateStart EPIC_GOLIVE = true ->
     r = ["epic"]) /\
  (date_lt dateStart EPIC_GOLIVE = true -> date_ge dateEnd EPIC_GOLIVE = true ->
     r = ["epic"; "gecb"]) /\
  (dateStart = InvalidDate -> dateEnd = InvalidDate -> r = ["epic"]) /\
  (forall o i, resolve dateStart dateEnd o i = r).
Proof.
  cbv zeta.
  repeat match goal with |- _ /\ _ => split end;
    try (intros Hle Hlt;
         first [ destruct (before_range EPIC_GOLIVE Hle Hlt) as [Hb Ha]
               | destruct (after_range_is_after EPIC_GOLIVE Hle Hlt) as [Hb Ha]
               | subst dateStart dateEnd ]);
    resolver_cases;
    try rewrite Hb, Ha;
    try (destruct (date_ge dateEnd EPIC_GOLIVE), (date_lt dateStart EPIC_GOLIVE));
    list_facts.
Qed.

Variable type : string.

(** Whatever the type string, the dates and the flags, the result lists each
    system at most once, holds at most three systems, all of them among the
    six known ones, and lists epic first when it lists it at all. *)
Theorem resolver_result_shape :
  let r := getActiveSystems type dateStart dateEnd outpatient inpatient in
  NoDup r /\
  (length r <= 3)%nat /\
  (forall x, In x r ->
     In x ["epic"; "meditech"; "centricity"; "gecb"; "icd9"; "icd10"]) /\
  (In "epic" r -> hd "" r = "epic").
Proof.
  unfold getActiveSystems.
  repeat match goal with
         | |- context [String.eqb type ?t] => destruct (String.eqb type t)
         end;
    unfold getDxSystems, getMedicationSystems, getLabSystems,
      getLocationSystems, getProcedureSystems, pushIf, pushIfEmpty;
    destruct (date_ge dateEnd EPIC_GOLIVE), (date_lt dateStart EPIC_GOLIVE),
      (date_ge dateEnd ICD10_START), (date_lt dateStart ICD10_START),
      outpatient, inpatient; list_facts.
Qed.

End ResolverRanges.

Section ResolverFiles.

Import SystemLogic SystemFiles.

Variables (type : string) (dateStart dateEnd : Date) (outpatient inpatient : bool).

(** The files to load for the systems that the resolver returns: never a
    file twice; the one unified file of the type for dx, medication, lab and
    procedure; one file per system, in the order of the systems, for
    location; at least one file for each of the five types and none for any
    other type string. *)
Theorem files_of_resolved_systems :
  let systems := getActiveSystems type dateStart dateEnd outpatient inpatient in
  let files := getSystemCsvFiles type systems in
  NoDup files /\
  (In type ["dx"; "medication"; "lab"; "procedure"] ->
     files = ["dictionary-" ++ type ++ ".csv"]) /\
  (type = "location" ->
     files = map (fun s => "dictionary-location-" ++ s ++ ".csv") systems) /\
  (In type ["dx"; "medication"; "lab"; "location"; "procedure"] -> files <> []) /\
  (~ In type ["dx"; "medication"; "lab"; "location"; "procedure"] -> files = []).
Proof.
  cbv zeta. unfold getActiveSystems.
  repeat match goal with
         | |- context [String.eqb type ?t] =>
             destruct (String.eqb_spec type t) as [-> | ?]
         end;
    unfold getDxSystems, getMedicationSystems, getLabSystems,
      getLocationSystems, getProcedureSystems, pushIf, pushIfEmpty;
    try (destruct (date_ge dateEnd EPIC_GOLIVE), (date_lt dateStart EPIC_GOLIVE),
           (date_ge dateEnd ICD10_START), (date_lt dateStart ICD10_START),
           outpatient, inpatient);
    cbv;
    repeat match goal with
           | |- _ /\ _ => split
           | |- NoDup _ => constructor
           | |- forall _, _ => intro
           | |- _ -> _ => intro
           end;
    try reflexivity; try discriminate; try tauto;
    try solve [intuition (subst; try discriminate; try congruence)];
    try solve [cbn; intuition discriminate].
Qed.

End ResolverFiles.

Lemma lab_resolves_by_range_witness :
  date_le (newDate 2020 1 1) (newDate 2022 1 1) = true /\
  date_lt (newDate 2022 1 1) SystemLogic.EPIC_GOLIVE = true /\
  SystemLogic.getActiveSystems "lab" (newDate 2020 1 1) (newDate 2022 1 1) true false
    = ["meditech"].
Proof.
  split; [reflexivity | split; [reflexivity |]].
  apply (lab_resolves_by_range (newDate 2020 1 1) (newDate 2022 1 1) true false);
    reflexivity.
Defined.

Lemma procedure_resolves_by_range_witness :
  date_le (newDate 2023 6 3) (newDate 2023 6 3) = true /\
  date_ge (newDate 2023 6 3) SystemLogic.EPIC_GOLIVE = true /\
  SystemLogic.getActiveSystems "procedure" (newDate 2023 6 3) (newDate 2023 6 3)
    false true = ["epic"].
Proof.
  split; [reflexivity | split; [reflexivity |]].
  apply (procedure_resolves_by_range (newDate 2023 6 3) (newDate 2023 6 3) false true);
    reflexivity.
Defined.

Lemma files_of_resolved_systems_witness :
  In "lab" ["dx"; "medication"; "lab"; "procedure"] /\
  SystemFiles.getSystemCsvFiles "lab"
    (SystemLogic.getActiveSystems "lab" (newDate 2020 1 1) (newDate 2025 1 1) true true)
  = ["dictionary-lab.csv"].
Proof.
  assert (H : In "lab" ["dx"; "medication"; "lab"; "procedure"]) by (cbn; tauto).
  split; [exact H |].
  apply (files_of_resolved_systems "lab" (newDate 2020 1 1) (newDate 2025 1 1)
           true true); exact H.
Defined.

(** ** Objects as association lists *)

Section ObjFacts.

Context {A : Type}.

Lemma get_set_eq (row : list (string * A)) (k : string) (v : A) :
  Obj.get (Obj.set row k v) k = Some v.
Proof.
  induction row as [|[k' w] row IH]; cbn.
  - now rewrite String.eqb_refl.
  - destruct (String.eqb_spec k' k) as [-> | Hne]; cbn.
    + now rewrite String.eqb_refl.
    + apply String.eqb_neq in Hne. now rewrite Hne.
Qed.

Lemma get_set_ne (row : list (string * A)) (k k' : string) (v : A) :
  k <> k' -> Obj.get (Obj.set row k v) k' = Obj.get row k'.
Proof.
  intros Hne. induction row as [|[k0 w] row IH]; cbn.
  - apply String.eqb_neq in Hne. now rewrite Hne.
  - destruct (String.eqb_spec k0 k) as [-> | Hk]; cbn.
    + apply String.eqb_neq in Hne. now rewrite Hne.
    + now rewrite IH.
Qed.

Lemma get_app_fresh (row : list (string * A)) (k k' : string) (v : A) :
  Obj.get row k = None ->
  Obj.get (row ++ [(k, v)]) k' =
  if String.eqb k k' then Some v else Obj.get row k'.
Proof.
  intros Hfresh. induction row as [|[k0 w] row IH]; cbn in *; [reflexivity |].
  destruct (String.eqb_spec k0 k) as [-> | Hk]; [discriminate |].
  destruct (String.eqb_spec k0 k') as [-> | Hk'].
  - apply String.eqb_neq in Hk. rewrite String.eqb_sym in Hk. now rewrite Hk.
  - now apply IH.
Qed.

Lemma get_Some_In (row : list (string * A)) (k : string) (v : A) :
  Obj.get row k = Some v -> In k (Obj.keys row).
Proof.
  induction row as [|[k0 w] row IH]; cbn; [discriminate |].
  destruct (String.eqb_spec k0 k) as [-> | _]; [now left | right; now apply IH].
Qed.

Lemma get_None_notIn (row : list (string * A)) (k : string) :
  Obj.get row k = None <-> ~ In k (Obj.keys row).
Proof.
  induction row as [|[k0 w] row IH]; cbn; [tauto |].
  destruct (String.eqb_spec k0 k) as [-> | Hne].
  - split; [discriminate | intros H; exfalso; apply H; now left].
  - rewrite IH. tauto.
Qed.

Lemma keys_set (row : list (string * A)) (k : string) (v : A) :
  Obj.keys (Obj.set row k v) =
  if existsb (String.eqb k) (Obj.keys row) then Obj.keys row
  else (Obj.keys row ++ [k])%list.
Proof.
  unfold Obj.keys. induction row as [|[k0 w] row IH]; cbn; [reflexivity |].
  rewrite (String.eqb_sym k k0).
  destruct (String.eqb_spec k0 k) as [-> | Hne]; cbn; [reflexivity |].
  rewrite IH. now destruct (existsb _ _).
Qed.

End ObjFacts.

Lemma arrIncludes_In (arr : list string) (x : string) :
  Obj.arrIncludes arr x = true <-> In x arr.
Proof.
  unfold Obj.arrIncludes. rewrite existsb_exists. split.
  - intros (y & Hy & Heq). apply String.eqb_eq in Heq. now subst.
  - intros H. exists x. split; [exact H | apply String.eqb_refl].
Qed.

(** ** csv-download.js: what a download depends on *)

Section DownloadFacts.

Import CsvDownload.

Lemma schemaOf_col (sampleRow : Row) (col : string) :
  In col (schemaOf sampleRow) ->
  (In col (Obj.keys sampleRow) /\ reserved col = false) \/ reserved col = true.
Proof.
  unfold schemaOf, dataColsOf. rewrite in_app_iff, filter_In.
  intros [[Hin H] | H].
  - left. split; [exact Hin |]. apply andb_true_iff in H as [_ H].
    now apply negb_true_iff in H.
  - right. cbn in H. now repeat (destruct H as [<- | H]; [reflexivity |]).
Qed.

(** Two rows that agree on the columns of a schema give the same line. *)
Lemma dataLine_agree (schema : list string) (a b : Row) :
  In "desired" schema ->
  (forall col, In col schema -> Obj.get a col = Obj.get b col) ->
  dataLine schema a = dataLine schema b.
Proof.
  intros Hd Hagree. unfold dataLine, fields. f_equal.
  apply map_ext_in. intros col Hcol. unfold field, fieldText.
  now rewrite (Hagree col Hcol), (Hagree "desired" Hd).
Qed.

Lemma desired_in_schema (sampleRow : Row) : In "desired" (schemaOf sampleRow).
Proof. unfold schemaOf. apply in_or_app. right. now left. Qed.

Variables (type source projectName : string).

(** The header of a download is fixed by the first exported row: a column
    that this row does not have is never written, whatever the later rows
    hold in it.  So two exports whose later rows agree on the columns of the
    first row are the same file. *)
Theorem download_depends_on_first_row_columns
    (first : Row) (rest rest' : list Row) :
  Forall2 (fun a b => forall col, In col (schemaOf first) ->
                                  Obj.get a col = Obj.get b col)
          rest rest' ->
  download (first :: rest) type source projectName false
  = download (first :: rest') type source projectName false /\
  forall col, ~ In col (Obj.keys first) -> reserved col = false ->
    ~ In col (schemaOf first).
Proof.
  intros Hagree. split.
  - unfold download. cbn [length]. 
    assert (Hlines : map (dataLine (schemaOf first)) rest
                     = map (dataLine (schemaOf first)) rest').
    { induction Hagree as [|a b rest rest' Hab _ IH]; [reflexivity |].
      cbn [map]. rewrite IH. f_equal.
      apply dataLine_agree; [apply desired_in_schema | exact Hab]. }
    assert (Hlen : length rest = length rest')
      by (eapply Forall2_length; exact Hagree).
    assert (Hnz : forall n, (Z.of_nat (S n) =? 0) = false)
      by (intros n; apply Z.eqb_neq; lia).
    rewrite !Hnz. cbn [map]. with_strategy opaque [dataLine schemaOf] cbn [length].
    rewrite Hlines. do 2 f_equal. f_equal. exact Hlen.
  - intros col Hkey Hres Hin.
    destruct (schemaOf_col first col Hin) as [[H _] | H]; [contradiction | congruence].
Qed.

End DownloadFacts.

Lemma download_depends_on_first_row_columns_witness :
  Forall2 (fun a b => forall col, In col (CsvDownload.schemaOf Demo.selectedRow) ->
                                  Obj.get a col = Obj.get b col)
          [Demo.plainRow] [Obj.set Demo.plainRow "loinc_code" (VStr "1234-5")] /\
  CsvDownload.download [Demo.selectedRow; Demo.plainRow] "dx" "" "" false
  = CsvDownload.download
      [Demo.selectedRow; Obj.set Demo.plainRow "loinc_code" (VStr "1234-5")]
      "dx" "" "" false.
Proof.
  assert (H : Forall2 (fun a b => forall col,
                         In col (CsvDownload.schemaOf Demo.selectedRow) ->
                         Obj.get a col = Obj.get b col)
                [Demo.plainRow]
                [Obj.set Demo.plainRow "loinc_code" (VStr "1234-5")]).
  { repeat constructor. intros col Hcol. cbv in Hcol.
    repeat (destruct Hcol as [<- | Hcol]; [reflexivity |]). contradiction. }
  split; [exact H |].
  apply (download_depends_on_first_row_columns "dx" "" "" Demo.selectedRow
           [Demo.plainRow] [Obj.set Demo.plainRow "loinc_code" (VStr "1234-5")] H).
Defined.

(** ** csv-download.js: file names and per-source downloads *)

Section FileNames.

Import CsvFiles.

Lemma isEmpty_app_r (a b : string) :
  JS.isEmpty b = false -> JS.isEmpty (a ++ b) = false.
Proof. destruct a; [now rewrite append_nil | reflexivity]. Qed.

Lemma fileNames_lookup (prefix key : string) :
  Obj.get (fileNames prefix) key =
  if Obj.arrIncludes (Obj.keys (fileNames "")) key
  then Some (prefix ++ "ss-" ++ key ++ ".csv")
  else None.
Proof.
  unfold fileNames, Obj.arrIncludes, Obj.keys.
  cbn [Obj.get map fst existsb].
  repeat match goal with
         | |- context [String.eqb ?k key] =>
             rewrite (String.eqb_sym key k);
             destruct (String.eqb_spec k key) as [<- | _];
             [reflexivity | cbn [orb]]
         end.
  reflexivity.
Qed.

(** The name of a download is the project prefix, [ss-], a stem and
    [.csv]; the stem is type-source when that pair is one of the twelve
    listed and the bare type otherwise, so the sources that are not listed
    for a type all share one file name. *)
Theorem download_filename_shape (type source projectName : string) :
  JSObject.inherited type = false ->
  let prefix := if JS.isEmpty projectName then "" else projectName ++ "-" in
  let key := if JS.isEmpty source then type else type ++ "-" ++ source in
  getDownloadFilename type source projectName =
  prefix ++ "ss-"
    ++ (if Obj.arrIncludes (Obj.keys (fileNames "")) key then key else type)
    ++ ".csv".
Proof.
  intros _ prefix key. unfold getDownloadFilename. fold prefix. fold key.
  rewrite fileNames_lookup.
  destruct (Obj.arrIncludes (Obj.keys (fileNames "")) key); [| reflexivity].
  now rewrite isEmpty_app_r by reflexivity.
Qed.

End FileNames.

Lemma download_filename_shape_witness :
  JSObject.inherited "medication" = false /\
  CsvFiles.getDownloadFilename "medication" "cdw" "study" = "study-ss-medication.csv" /\
  CsvFiles.getDownloadFilename "medication" "epic" "study"
    = "study-ss-medication-epic.csv".
Proof.
  split; [reflexivity |].
  split.
  - rewrite (download_filename_shape "medication" "cdw" "study"); reflexivity.
  - rewrite (download_filename_shape "medication" "epic" "study"); reflexivity.
Defined.

Section DownloadAll.

Import CsvDownload CsvFiles.

Variables (type projectName : string) (desiredOnly : bool).

Lemma download_exportRows (rows : list Row) (source : string) :
  match download rows type source projectName desiredOnly with
  | Some d => rowCount d = length (exportRows desiredOnly rows)
              /\ exportRows desiredOnly rows <> []
  | None => exportRows desiredOnly rows = []
  end.
Proof.
  unfold download, exportRows.
  destruct rows as [|r rows].
  - cbn. now destruct desiredOnly.
  - replace (Z.of_nat (length (r :: rows)) =? 0) with false
      by (symmetry; apply Z.eqb_neq; cbn [length]; lia).
    destruct (if desiredOnly then _ else _) as [|e es]; [reflexivity |].
    split; [reflexivity | discriminate].
Qed.

Lemma exportRows_app (a b : list Row) :
  exportRows desiredOnly (a ++ b) =
  (exportRows desiredOnly a ++ exportRows desiredOnly b)%list.
Proof. unfold exportRows. destruct desiredOnly; [apply filter_app | reflexivity]. Qed.

Lemma downloadAll_facts (dataBySource : list (string * list Row)) :
  let results := downloadAll dataBySource type projectName desiredOnly in
  list_sum (map (fun r => rowCount (snd r)) results)
    = length (exportRows desiredOnly (concat (map snd dataBySource))) /\
  map fst results
    = map (fun entry => getDownloadFilename type (fst entry) projectName)
          (filter (hasExport desiredOnly) dataBySource) /\
  (length results <= length dataBySource)%nat.
Proof.
  cbv zeta. unfold downloadAll, hasExport.
  induction dataBySource as [|[source rows] groups (IH1 & IH2 & IH3)].
  - destruct desiredOnly; repeat split; reflexivity || (cbn; lia).
  - cbn [flat_map map concat filter fst snd].
    rewrite exportRows_app, length_app.
    pose proof (download_exportRows rows source) as Hd.
    destruct (download rows type source projectName desiredOnly) as [d|].
    + destruct Hd as [Hn Hne].
      assert (Hpos : Nat.eqb (length (exportRows desiredOnly rows)) 0 = false).
      { apply Nat.eqb_neq. destruct (exportRows desiredOnly rows); [congruence | cbn; lia]. }
      rewrite Hpos. cbn [negb app map fst snd length].
      change (list_sum (rowCount d :: ?l)) with (rowCount d + list_sum l)%nat.
      rewrite IH1, IH2, Hn. repeat split; lia.
    + rewrite Hd. cbn [length Nat.eqb negb app]. rewrite IH1, IH2.
      repeat split; lia.
Qed.

(** [downloadAll] writes one file per source that has rows to export, named
    by [getDownloadFilename], skipping the other sources; the row counts it
    reports add up to the number of exported rows of all sources together,
    so no row is lost and none is written twice. *)
Theorem downloadAll_accounts_for_every_row (dataBySource : list (string * list Row)) :
  let results := downloadAll dataBySource type projectName desiredOnly in
  list_sum (map (fun r => rowCount (snd r)) results)
    = length (exportRows desiredOnly (concat (map snd dataBySource))) /\
  map fst results
    = map (fun entry => getDownloadFilename type (fst entry) projectName)
          (filter (hasExport desiredOnly) dataBySource) /\
  (length results <= length dataBySource)%nat.
Proof. apply downloadAll_facts. Qed.

End DownloadAll.

(** ** app.js: grouping the rows of a download by source *)

Section Grouping.

Import DictApp Selection.

Local Abbreviation step := groupStep.

Lemma step_get (acc : list (string * list Row)) (row : Row) (src : string) :
  Obj.get (step acc row) src =
  if String.eqb (sourceOf row) src
  then Some (default [] (Obj.get acc src) ++ [row])%list
  else Obj.get acc src.
Proof.
  unfold groupStep. cbv zeta.
  destruct (Obj.get acc (sourceOf row)) as [rows|] eqn:Hg.
  - destruct (String.eqb_spec (sourceOf row) src) as [<- | Hne].
    + now rewrite get_set_eq, Hg.
    + now apply get_set_ne.
  - rewrite (get_app_fresh _ _ _ _ Hg).
    destruct (String.eqb_spec (sourceOf row) src) as [<- | _]; [| reflexivity].
    now rewrite Hg.
Qed.

Lemma step_keys (acc : list (string * list Row)) (row : Row) :
  NoDup (Obj.keys acc) -> NoDup (Obj.keys (step acc row)).
Proof.
  intros Hnd. unfold groupStep. cbv zeta.
  destruct (Obj.get acc (sourceOf row)) as [rows|] eqn:Hg.
  - rewrite keys_set.
    assert (Hin : existsb (String.eqb (sourceOf row)) (Obj.keys acc) = true)
      by (apply arrIncludes_In; eapply get_Some_In; exact Hg).
    now rewrite Hin.
  - unfold Obj.keys. rewrite map_app. cbn [map fst].
    apply List.NoDup_app; [exact Hnd | repeat constructor; cbn; tauto |].
    intros k Hk [<- | []]. now apply get_None_notIn in Hg.
Qed.

Lemma step_total (acc : list (string * list Row)) (row : Row) :
  length (concat (map snd (step acc row))) = S (length (concat (map snd acc))).
Proof.
  unfold groupStep. cbv zeta.
  destruct (Obj.get acc (sourceOf row)) as [rows|] eqn:Hg.
  - revert Hg. generalize (sourceOf row) as src. intros src.
    induction acc as [|[k rs] acc IH]; cbn; [discriminate |].
    destruct (String.eqb_spec k src) as [-> | _]; cbn; intros Hg.
    + injection Hg as ->. rewrite !length_app. cbn. lia.
    + rewrite !length_app, (IH Hg). lia.
  - rewrite map_app, concat_app, length_app. cbn. lia.
Qed.

Lemma groupBySource_fold (data : list Row) :
  forall acc, NoDup (Obj.keys acc) ->
    let groups := fold_left step data acc in
    NoDup (Obj.keys groups) /\
    (forall src,
       Obj.get groups src =
       match Obj.get acc src,
             filter (fun r => String.eqb (sourceOf r) src) data with
       | None, [] => None
       | o, rows => Some (default [] o ++ rows)%list
       end) /\
    length (concat (map snd groups))
    = (length (concat (map snd acc)) + length data)%nat.
Proof.
  induction data as [|row data IH]; intros acc Hnd; cbn [fold_left].
  - repeat split; [exact Hnd | | cbn; lia].
    intros src. cbn. destruct (Obj.get acc src); cbn; [now rewrite app_nil_r | reflexivity].
  - destruct (IH (step acc row) (step_keys acc row Hnd)) as (Hk & Hget & Hlen).
    repeat split; [exact Hk | | rewrite Hlen, step_total; cbn; lia].
    intros src. rewrite Hget, step_get. cbn [filter].
    destruct (String.eqb (sourceOf row) src).
    + destruct (Obj.get acc src); cbn; [now rewrite <- app_assoc | reflexivity].
    + reflexivity.
Qed.

Variables (type projectName : string).

(** [downloadCsv] groups the matching rows by [_source] (cdw when a row has
    none): every source that occurs gets one group, which holds the rows of
    that source in their order; and the files it then writes, one for dx and
    one per source otherwise, report row counts that add up to the number
    of matching rows. *)
Theorem downloadCsv_exports_every_row_once (matchingData : list Row) :
  Forall (fun r => JSObject.inherited (sourceOf r) = false) matchingData ->
  let groups := groupBySource matchingData in
  NoDup (Obj.keys groups) /\
  (forall src,
     Obj.get groups src =
     match filter (fun r => String.eqb (sourceOf r) src) matchingData with
     | [] => None
     | rows => Some rows
     end) /\
  list_sum (map (fun r => CsvDownload.rowCount (snd r))
                (downloadCsv_files type projectName matchingData))
  = length matchingData.
Proof.
  intros _. cbv zeta.
  destruct (groupBySource_fold matchingData [] (NoDup_nil _)) as (Hk & Hget & Hlen).
  fold (groupBySource matchingData) in Hk, Hget, Hlen.
  repeat split; [exact Hk | |].
  - intros src. rewrite Hget. cbn [Obj.get default app].
    now destruct (filter _ matchingData).
  - unfold downloadCsv_files.
    destruct matchingData as [|r rest] eqn:Hdata; [reflexivity |].
    rewrite <- Hdata in *.
    replace (Z.of_nat (length matchingData) =? 0) with false
      by (symmetry; apply Z.eqb_neq; rewrite Hdata; cbn [length]; lia).
    destruct (String.eqb type "dx").
    + pose proof (download_exportRows "dx" projectName false matchingData "") as Hd.
      destruct (CsvDownload.download matchingData "dx" "" projectName false) as [d|].
      * cbn. destruct Hd as [-> _]. cbn. lia.
      * cbn in Hd. rewrite Hd in Hdata. discriminate.
    + destruct (downloadAll_facts type projectName false
                  (groupBySource matchingData)) as (Hsum & _).
      rewrite Hsum. cbn [CsvFiles.exportRows]. rewrite Hlen. reflexivity.
Qed.

End Grouping.

Lemma downloadCsv_exports_every_row_once_witness :
  Forall (fun r => JSObject.inherited (Selection.sourceOf r) = false) Demo.rows /\
  list_sum (map (fun r => CsvDownload.rowCount (snd r))
                (Selection.downloadCsv_files "medication" "study" Demo.rows))
  = 2%nat.
Proof.
  assert (H : Forall (fun r => JSObject.inherited (Selection.sourceOf r) = false)
                Demo.rows) by (repeat constructor).
  split; [exact H |].
  apply (downloadCsv_exports_every_row_once "medication" "study" Demo.rows H).
Defined.

(** ** github-push.js: the pushed CSV *)

Section Push.

Import CsvDownload GitHubPush.

Lemma reservedLookup_own (k : string) :
  JSObject.inherited k = false -> reservedLookup k = reserved k.
Proof. intros H. unfold reservedLookup. rewrite H. apply orb_false_r. Qed.

Lemma download_is_buildCsvContent
    (rows : list Row) (type source projectName : string) :
  rows <> [] ->
  Forall (fun k => JSObject.inherited k = false) (Obj.keys (hd [] rows)) ->
  download rows type source projectName false
  = Some {| csvContent := buildCsvContent rows; rowCount := length rows |}.
Proof.
  intros Hne Hown. destruct rows as [|first rest]; [congruence |].
  cbn [hd] in Hown. unfold download.
  replace (Z.of_nat (length (first :: rest)) =? 0) with false
    by (symmetry; apply Z.eqb_neq; cbn [length]; lia).
  cbv zeta. do 2 f_equal. unfold buildCsvContent.
  assert (Hschema :
            (filter (fun k => negb (JS.startsWith k "_") && negb (reservedLookup k))
                    (Obj.keys first)
             ++ ["desired"; "category"; "keyword_matched"])%list
            = schemaOf first).
  { unfold schemaOf, dataColsOf. f_equal. apply filter_ext_in.
    intros k Hk. rewrite Forall_forall in Hown.
    now rewrite (reservedLookup_own k (Hown k Hk)). }
  rewrite Hschema. do 2 f_equal. apply map_ext. intros row.
  unfold dataLine, fields. f_equal. apply map_ext. intros col.
  apply field_csvQuote.
Qed.

(** For rows whose first one has no column named like an inherited
    property, [buildCsvContent] gives the text that [download] writes for
    all of the rows: the file pushed to the repository is the file
    downloaded.  (With no rows [buildCsvContent] gives the empty text and
    [download] nothing.) *)
Theorem pushed_csv_is_downloaded_csv
    (rows : list Row) (type source projectName : string) :
  rows <> [] ->
  Forall (fun k => JSObject.inherited k = false) (Obj.keys (hd [] rows)) ->
  exists d,
    download rows type source projectName false = Some d /\
    csvContent d = buildCsvContent rows.
Proof.
  intros Hne Hown. eexists. split.
  - now apply download_is_buildCsvContent.
  - reflexivity.
Qed.

End Push.

Lemma pushed_csv_is_downloaded_csv_witness :
  Demo.rows <> [] /\
  Forall (fun k => JSObject.inherited k = false) (Obj.keys (hd [] Demo.rows)) /\
  exists d,
    CsvDownload.download Demo.rows "dx" "" "" false = Some d /\
    CsvDownload.csvContent d = GitHubPush.buildCsvContent Demo.rows.
Proof.
  assert (H1 : Demo.rows <> []) by discriminate.
  assert (H2 : Forall (fun k => JSObject.inherited k = false)
                 (Obj.keys (hd [] Demo.rows))) by (repeat constructor).
  split; [exact H1 | split; [exact H2 |]].
  apply (pushed_csv_is_downloaded_csv Demo.rows "dx" "" "" H1 H2).
Defined.

(** ** The core of a term *)

Section Core.

Lemma onlyStars_nil : onlyStars "".
Proof. intros c []. Qed.

Lemma onlyStars_cons (c : ascii) (s : string) :
  JS.isStar c = true -> onlyStars s -> onlyStars (String c s).
Proof.
  intros Hc Hs x [<- | Hx]; [| now apply Hs].
  unfold JS.isStar in Hc. now apply Ascii.eqb_eq in Hc.
Qed.

Lemma dropLeadingStars_split (s : string) :
  exists a, s = a ++ JS.dropLeadingStars s /\ onlyStars a.
Proof.
  induction s as [|c s (a & Hs & Ha)].
  - exists "". split; [reflexivity | apply onlyStars_nil].
  - cbn [JS.dropLeadingStars]. destruct (JS.isStar c) eqn:Hc.
    + exists (String c a). rewrite append_cons, <- Hs.
      split; [reflexivity | now apply onlyStars_cons].
    + exists "". split; [reflexivity | apply onlyStars_nil].
Qed.

Lemma dropTrailingStars_split (s : string) :
  exists b, s = JS.dropTrailingStars s ++ b /\ onlyStars b.
Proof.
  induction s as [|c s (b & Hs & Hb)].
  - exists "". split; [reflexivity | apply onlyStars_nil].
  - cbn [JS.dropTrailingStars]. destruct (JS.dropTrailingStars s) as [|d t] eqn:Hd.
    + rewrite append_nil in Hs. subst b. destruct (JS.isStar c) eqn:Hc.
      * exists (String c s). split; [reflexivity | now apply onlyStars_cons].
      * exists s. split; [reflexivity | exact Hb].
    + exists b. rewrite append_cons, <- Hs. split; [reflexivity | exact Hb].
Qed.

Lemma dropLeadingStars_head (s : string) :
  JS.startsWith (JS.dropLeadingStars s) "*" = false.
Proof.
  induction s as [|c s IH]; [reflexivity |].
  cbn [JS.dropLeadingStars]. destruct (JS.isStar c) eqn:Hc; [exact IH |].
  cbn [JS.startsWith]. unfold JS.isStar in Hc.
  rewrite Ascii.eqb_sym. now rewrite Hc.
Qed.

Lemma dropTrailingStars_head (s : string) :
  JS.startsWith s "*" = false ->
  JS.startsWith (JS.dropTrailingStars s) "*" = false.
Proof.
  destruct s as [|c s]; [reflexivity |]. intros H.
  assert (Hc : Ascii.eqb "*" c = false).
  { cbn [JS.startsWith] in H. now rewrite startsWith_empty, andb_true_r in H. }
  cbn [JS.dropTrailingStars].
  destruct (JS.dropTrailingStars s); [destruct (JS.isStar c); [reflexivity |] |];
    cbn [JS.startsWith]; now rewrite Hc.
Qed.

Lemma dropTrailingStars_last (s : string) :
  JS.endsWith (JS.dropTrailingStars s) "*" = false.
Proof.
  induction s as [|c s IH]; [reflexivity |].
  cbn [JS.dropTrailingStars]. destruct (JS.dropTrailingStars s) as [|d t] eqn:Hd.
  - destruct (JS.isStar c) eqn:Hc; [reflexivity |].
    cbn [JS.endsWith String.eqb]. unfold JS.isStar in Hc. now rewrite Hc.
  - change (JS.endsWith (String c (String d t)) "*")
      with (String.eqb (String c (String d t)) "*"
            || JS.endsWith (String d t) "*").
    rewrite IH, orb_false_r.
    cbn [String.eqb]. now destruct (Ascii.eqb c "*").
Qed.

Lemma dropLeadingStars_id (s : string) :
  JS.startsWith s "*" = false -> JS.dropLeadingStars s = s.
Proof.
  destruct s as [|c s]; [reflexivity |].
  cbn [JS.startsWith JS.dropLeadingStars]. unfold JS.isStar.
  rewrite startsWith_empty, andb_true_r, Ascii.eqb_sym.
  now intros ->.
Qed.

Lemma dropTrailingStars_id (s : string) :
  JS.endsWith s "*" = false -> JS.dropTrailingStars s = s.
Proof.
  induction s as [|c s IH]; [reflexivity |].
  cbn [JS.endsWith]. intros H. apply orb_false_iff in H as [Hc Hs].
  cbn [JS.dropTrailingStars]. rewrite (IH Hs).
  destruct s as [|d t]; [| reflexivity].
  cbn [String.eqb] in Hc. unfold JS.isStar.
  destruct (Ascii.eqb c "*"); [discriminate | reflexivity].
Qed.

Lemma includes_app_l (a s t : string) :
  JS.includes s t = true -> JS.includes (a ++ s) t = true.
Proof.
  intros H. induction a as [|c a IH]; [exact H |].
  rewrite append_cons. cbn [JS.includes]. rewrite IH. apply orb_true_r.
Qed.

Lemma startsWith_app (t b : string) : JS.startsWith (t ++ b) t = true.
Proof.
  induction t as [|c t IH]; [apply startsWith_empty |].
  rewrite append_cons. cbn [JS.startsWith]. now rewrite Ascii.eqb_refl, IH.
Qed.

Lemma includes_middle (a t b : string) : JS.includes (a ++ t ++ b) t = true.
Proof.
  apply includes_app_l. destruct (t ++ b) eqn:E; cbn [JS.includes];
    rewrite <- E, startsWith_app; reflexivity.
Qed.

Import CsvDownload.

(** The core of a term is the lower-cased term without the stars at its two
    ends, and nothing else is removed: the lower-cased term is the core
    with stars only before and after it, the core neither starts nor ends
    with a star, and it occurs in the lower-cased term.  A star inside a
    term stays in the core; a term without a star at either end is its own
    core once lower-cased. *)
Theorem core_is_term_without_outer_stars (kw : string) :
  (exists a b, JS.toLowerCase kw = a ++ coreOf kw ++ b
               /\ onlyStars a /\ onlyStars b) /\
  JS.startsWith (coreOf kw) "*" = false /\
  JS.endsWith (coreOf kw) "*" = false /\
  JS.includes (JS.toLowerCase kw) (coreOf kw) = true /\
  JS.stripStars (coreOf kw) = coreOf kw /\
  (JS.startsWith (JS.toLowerCase kw) "*" = false ->
   JS.endsWith (JS.toLowerCase kw) "*" = false ->
   coreOf kw = JS.toLowerCase kw).
Proof.
  unfold coreOf, JS.stripStars. set (s := JS.toLowerCase kw).
  destruct (dropLeadingStars_split s) as (a & Ha & Hsa).
  destruct (dropTrailingStars_split (JS.dropLeadingStars s)) as (b & Hb & Hsb).
  assert (Hdecomp : s = a ++ JS.dropTrailingStars (JS.dropLeadingStars s) ++ b)
    by (now rewrite <- Hb).
  assert (Hhead : JS.startsWith (JS.dropTrailingStars (JS.dropLeadingStars s)) "*"
                  = false)
    by (apply dropTrailingStars_head, dropLeadingStars_head).
  assert (Hlast : JS.endsWith (JS.dropTrailingStars (JS.dropLeadingStars s)) "*"
                  = false)
    by apply dropTrailingStars_last.
  repeat split; try assumption.
  - exists a, b. now repeat split.
  - rewrite Hdecomp at 1. apply includes_middle.
  - rewrite (dropLeadingStars_id _ Hhead). now apply dropTrailingStars_id.
  - intros H1 H2. rewrite (dropLeadingStars_id _ H1). now apply dropTrailingStars_id.
Qed.

End Core.

Lemma core_is_term_without_outer_stars_witness :
  JS.startsWith (JS.toLowerCase "Vitamin B*12") "*" = false /\
  JS.endsWith (JS.toLowerCase "Vitamin B*12") "*" = false /\
  CsvDownload.coreOf "Vitamin B*12" = JS.toLowerCase "Vitamin B*12".
Proof.
  split; [reflexivity | split; [reflexivity |]].
  apply (core_is_term_without_outer_stars "Vitamin B*12"); reflexivity.
Defined.

(** ** csv-download.js: the search-terms manifest *)

Section ManifestFacts.

Import CsvDownload CsvRead CsvFiles.

Lemma csvQuote_reads_back (val : string) : csvUnquote (csvQuote val) = val.
Proof.
  rewrite csvQuote_cases. destruct (needsQuotes val) eqn:Hq.
  - unfold JS.str at 1. rewrite append_cons, append_nil.
    unfold csvUnquote, isQuoted.
    rewrite Ascii.eqb_refl, endsWith_snoc. cbn [andb].
    rewrite removeLast_snoc. apply collapse_doubleQuotes.
  - now apply unquoted_is_not_quoted.
Qed.

Variables (type projectName dateStart dateEnd exportedAt : string)
          (matchingData : list Row) (activeSystems : list string).

(** The manifest has one line per keyword, in the order of the chips, and
    none at all without keywords.  In each line the first of the nine
    fields reads back to the keyword as it was entered, the third is TRUE
    exactly when the keyword contains a star, wherever it stands, and the
    fourth is the match count in decimal, which is 0 for a keyword whose
    core is empty. *)
Theorem manifest_lines_describe_keywords (keywords : list string) :
  let fieldsOf :=
    manifestFields matchingData type projectName dateStart dateEnd
      (JS.join "; " activeSystems) exportedAt in
  (keywords = [] ->
     downloadSearchManifest keywords type matchingData projectName dateStart
       dateEnd activeSystems exportedAt = None) /\
  (keywords <> [] ->
     exists m,
       downloadSearchManifest keywords type matchingData projectName dateStart
         dateEnd activeSystems exportedAt = Some m /\
       termCount m = length keywords /\
       manifestContent m =
         JS.join (JS.str JS.newline)
           (manifestHeader :: map (fun kw => JS.join "," (fieldsOf kw)) keywords)) /\
  (forall kw,
     length (fieldsOf kw) = 9%nat /\
     csvUnquote (nth 0 (fieldsOf kw) "") = kw /\
     (nth 2 (fieldsOf kw) "" = "TRUE" <-> contains kw "*"%char) /\
     (nth 2 (fieldsOf kw) "" = "FALSE" <-> ~ contains kw "*"%char) /\
     nth 3 (fieldsOf kw) "" = JS.ofIndex (countMatches matchingData kw) /\
     (coreOf kw = "" -> nth 3 (fieldsOf kw) "" = "0")).
Proof.
  cbv zeta. repeat split.
  - now intros ->.
  - intros Hne. unfold downloadSearchManifest.
    replace (Z.of_nat (length keywords) =? 0) with false
      by (symmetry; apply Z.eqb_neq; destruct keywords; [congruence | cbn; lia]).
    eexists. repeat split.
  - cbn [manifestFields nth]. apply csvQuote_reads_back.
  - cbn [manifestFields nth]. rewrite indexOf_includes.
    destruct (JS.includes kw "*") eqn:Hs; [intros _ | discriminate].
    now apply (includes_char kw "*"%char).
  - cbn [manifestFields nth]. rewrite indexOf_includes.
    intros Hc. apply (includes_char kw "*"%char) in Hc.
    change (JS.str "*"%char) with "*" in Hc. now rewrite Hc.
  - cbn [manifestFields nth]. rewrite indexOf_includes.
    destruct (JS.includes kw "*") eqn:Hs; [discriminate | intros _].
    now apply (includes_char_false kw "*"%char).
  - cbn [manifestFields nth]. rewrite indexOf_includes.
    intros Hc. apply (includes_char_false kw "*"%char) in Hc.
    change (JS.str "*"%char) with "*" in Hc. now rewrite Hc.
  - intros Hcore. cbn [manifestFields nth]. unfold countMatches.
    now rewrite Hcore.
Qed.

End ManifestFacts.

Lemma manifest_lines_describe_keywords_witness :
  ["ovar*"; "breast"] <> [] /\
  exists m,
    CsvFiles.downloadSearchManifest ["ovar*"; "breast"] "dx" Demo.rows "study"
      "2020-01-01" "2025-12-31" ["icd10"] "2026-01-01T00:00:00.000Z" = Some m /\
    CsvFiles.termCount m = 2%nat.
Proof.
  assert (H : ["ovar*"; "breast"] <> []) by discriminate.
  split; [exact H |].
  destruct (manifest_lines_describe_keywords "dx" "study" "2020-01-01" "2025-12-31"
              "2026-01-01T00:00:00.000Z" Demo.rows ["icd10"] ["ovar*"; "breast"])
    as (_ & Hsome & _).
  destruct (Hsome H) as (m & Hm & Hn & _).
  exists m. split; [exact Hm | exact Hn].
Defined.

(** ** app.js: what a reload restores *)

Section Unify.

Import DictApp Selection.

Lemma ofIndex_inj (a b : nat) : JS.ofIndex a = JS.ofIndex b -> a = b.
Proof.
  unfold JS.ofIndex. intros H.
  assert (Hu : Nat.to_uint a = Nat.to_uint b).
  { apply (f_equal NilEmpty.uint_of_string) in H.
    rewrite !NilEmpty.usu in H. now injection H. }
  apply (f_equal Nat.of_uint) in Hu. now rewrite !DecimalNat.Unsigned.of_to in Hu.
Qed.

Lemma digits_no_colon (d : Decimal.uint) :
  ~ CsvRead.contains (NilEmpty.string_of_uint d) ":"%char.
Proof.
  unfold CsvRead.contains.
  induction d; cbn; [tauto | ..]; intros [H | H];
    (discriminate || now apply IHd).
Qed.

Lemma ofIndex_no_colon (n : nat) : ~ CsvRead.contains (JS.ofIndex n) ":"%char.
Proof. apply digits_no_colon. Qed.

Lemma contains_middle (x y : string) (c : ascii) :
  CsvRead.contains (x ++ String c y) c.
Proof.
  unfold CsvRead.contains. induction x as [|a x IH].
  - now left.
  - rewrite append_cons. now right.
Qed.

(** A row key splits in one way only into file and index. *)
Lemma key_split (a b d1 d2 : string) :
  ~ CsvRead.contains d1 ":"%char -> ~ CsvRead.contains d2 ":"%char ->
  a ++ ":" ++ d1 = b ++ ":" ++ d2 -> a = b /\ d1 = d2.
Proof.
  intros H1 H2. revert b. induction a as [|c a IH]; intros [|c' b] Heq.
  - change (String ":" d1 = String ":" d2) in Heq. now injection Heq.
  - change (String ":" d1 = String c' (b ++ String ":" d2)) in Heq.
    injection Heq as _ ->. exfalso. apply H1. apply contains_middle.
  - change (String c (a ++ String ":" d1) = String ":" d2) in Heq.
    injection Heq as _ <-. exfalso. apply H2. apply contains_middle.
  - change (String c (a ++ ":" ++ d1) = String c' (b ++ ":" ++ d2)) in Heq.
    injection Heq as -> Heq.
    destruct (IH b Heq) as [-> ->]. now split.
Qed.

Lemma rowKey_inj (f1 f2 : string) (i j : nat) :
  f1 ++ ":" ++ JS.ofIndex i = f2 ++ ":" ++ JS.ofIndex j -> f1 = f2 /\ i = j.
Proof.
  intros H. destruct (key_split _ _ _ _ (ofIndex_no_colon i) (ofIndex_no_colon j) H)
    as [-> Hd].
  split; [reflexivity | now apply ofIndex_inj].
Qed.

Lemma get_spread (row : RawRow) (col : string) :
  Obj.get (map (fun kv => (fst kv, VStr (snd kv))) row) col
  = option_map VStr (Obj.get row col).
Proof.
  induction row as [|[k v] row IH]; [reflexivity |].
  cbn. now destruct (String.eqb k col).
Qed.

Variables (st : State) (type : string) (systems : list string).

(** What [unifyRow] puts into a row that it keeps. *)
Lemma unifyRow_Some (file : string) (idx : nat) (row : RawRow) (o : Row) :
  unifyRow st type systems file idx row = Some o ->
  let key := file ++ ":" ++ JS.ofIndex idx in
  Obj.get o "_rowKey" = Some (VStr key) /\
  Obj.get o "desired" = Some (VBool (default false (desiredAt st type key))) /\
  Obj.get o "category"
    = Some (VStr (Obj.orStr (categoryAt st type key)
                    (Obj.orStr (Obj.get row "category") ""))) /\
  Obj.get o "keyword_matched"
    = Some (VStr (Obj.orStr (keywordMatchedAt st type key) "")) /\
  (forall col,
     ~ In col ["_source"; "_rowKey"; "desired"; "category"; "keyword_matched"] ->
     Obj.get o col = option_map VStr (Obj.get row col)).
Proof.
  unfold unifyRow. cbv zeta.
  destruct (String.eqb type "dx" && _); [discriminate |].
  destruct (_ && negb (Obj.arrIncludes systems _)); [discriminate |].
  intros H. injection H as <-.
  repeat split.
  - rewrite !get_set_ne by discriminate. apply get_set_eq.
  - rewrite !get_set_ne by discriminate. rewrite get_set_eq.
    now destruct (desiredAt st type _).
  - rewrite !get_set_ne by discriminate. apply get_set_eq.
  - apply get_set_eq.
  - intros col Hcol. cbn in Hcol.
    rewrite !get_set_ne by (intros <-; tauto). apply get_spread.
Qed.

Lemma unifyRow_rowKey (file : string) (idx : nat) (row : RawRow) (o : Row) :
  unifyRow st type systems file idx row = Some o ->
  rowKeyOf o = file ++ ":" ++ JS.ofIndex idx.
Proof.
  intros H. destruct (unifyRow_Some file idx row o H) as (Hk & _).
  unfold rowKeyOf. now rewrite Hk.
Qed.

(** A reload builds every row afresh from the file and puts the recorded
    selection back: the row key is file:index; [desired] is what the store
    holds for that key, and false without an entry; the category is the
    stored one if it is not empty, else the one of the file, else empty;
    [keyword_matched] is the stored one or empty.  All other columns are
    those of the file, so a column of the file that is called [desired],
    [_rowKey], [_source] or [keyword_matched] is overwritten. *)
Theorem reload_restores_selection
    (file : string) (idx : nat) (row : RawRow) (o : Row) :
  unifyRow st type systems file idx row = Some o ->
  let key := file ++ ":" ++ JS.ofIndex idx in
  rowKeyOf o = key /\
  Obj.get o "desired" = Some (VBool (default false (desiredAt st type key))) /\
  Obj.get o "category"
    = Some (VStr (Obj.orStr (categoryAt st type key)
                    (Obj.orStr (Obj.get row "category") ""))) /\
  Obj.get o "keyword_matched"
    = Some (VStr (Obj.orStr (keywordMatchedAt st type key) "")) /\
  (forall col,
     ~ In col ["_source"; "_rowKey"; "desired"; "category"; "keyword_matched"] ->
     Obj.get o col = option_map VStr (Obj.get row col)).
Proof.
  intros H. split; [now apply (unifyRow_rowKey file idx row) |].
  now destruct (unifyRow_Some file idx row o H) as (_ & H2).
Qed.

End Unify.

Lemma reload_restores_selection_witness :
  DictApp.unifyRow Overlap.afterReloadB "dx" ["icd10"] "dictionary-dx.csv" 0
    [ ("concept_id", "35206462"); ("vocabulary_id", "ICD10CM");
      ("icd_code", "C50.911");
      ("icd_description", "Malignant neoplasm of breast") ]
  = Some Overlap.icd10Row /\
  Selection.rowKeyOf Overlap.icd10Row = "dictionary-dx.csv:0" /\
  Obj.get Overlap.icd10Row "desired" = Some (VBool false).
Proof.
  assert (H : DictApp.unifyRow Overlap.afterReloadB "dx" ["icd10"]
                "dictionary-dx.csv" 0
                [ ("concept_id", "35206462"); ("vocabulary_id", "ICD10CM");
                  ("icd_code", "C50.911");
                  ("icd_description", "Malignant neoplasm of breast") ]
              = Some Overlap.icd10Row) by (vm_compute; reflexivity).
  split; [exact H |].
  destruct (reload_restores_selection _ _ _ _ _ _ _ H) as (Hk & Hd & _).
  split; [exact Hk | exact Hd].
Defined.

(** ** app.js: the selection store *)

Section Store.

Import DictApp Selection.

Variables (type : string).

Lemma toggleDesired_data (i : nat) (checked : bool) (st : State) (row : Row) :
  dataOf st type !! i = Some row ->
  dataOf (toggleDesired type i checked st) type
  = <[i := Obj.set row "desired" (VBool checked)]> (dataOf st type).
Proof.
  intros H. unfold toggleDesired. unfold Row in *. rewrite H.
  unfold dataOf at 1. cbn [data]. now rewrite lookup_insert_eq.
Qed.

Lemma toggleDesired_store (i : nat) (checked : bool) (st : State) (row : Row)
    (key : string) :
  dataOf st type !! i = Some row ->
  desiredAt (toggleDesired type i checked st) type key
  = if decide (rowKeyOf row = key) then Some checked else desiredAt st type key.
Proof.
  intros H. unfold toggleDesired. unfold Row in *. rewrite H.
  unfold desiredAt. cbn [desired]. rewrite lookup_insert_eq. cbn.
  apply lookup_insert.
Qed.

Lemma setCategory_store (i : nat) (value : string) (st : State) (row : Row)
    (key : string) :
  dataOf st type !! i = Some row ->
  categoryAt (setCategory type i value st) type key
  = if decide (rowKeyOf row = key) then Some value else categoryAt st type key.
Proof.
  intros H. unfold setCategory. unfold Row in *. rewrite H.
  unfold categoryAt. cbn [categories]. rewrite lookup_insert_eq. cbn.
  apply lookup_insert.
Qed.

Lemma rowKeyOf_set (row : Row) (col : string) (v : Value) :
  col <> "_rowKey" -> rowKeyOf (Obj.set row col v) = rowKeyOf row.
Proof. intros H. unfold rowKeyOf. now rewrite get_set_ne. Qed.

(** A check box or a category that the user sets on a row is found again
    after a reload that brings the row back under the same key: the rebuilt
    row is desired as it was checked, and has the category that was typed;
    only an emptied category gives way to the category column of the file.
    On an index without a row the two handlers do nothing. *)
Theorem selection_survives_reload
    (st : State) (i : nat) (row : Row) (checked : bool) (value : string)
    (systems : list string) (file : string) (idx : nat) (raw : RawRow) :
  dataOf st type !! i = Some row ->
  rowKeyOf row = file ++ ":" ++ JS.ofIndex idx ->
  (forall o,
     unifyRow (toggleDesired type i checked st) type systems file idx raw = Some o ->
     Obj.get o "desired" = Some (VBool checked)) /\
  (forall o,
     unifyRow (setCategory type i value st) type systems file idx raw = Some o ->
     Obj.get o "category"
     = Some (VStr (if JS.isEmpty value
                   then Obj.orStr (Obj.get raw "category") ""
                   else value))) /\
  (forall j, dataOf st type !! j = None ->
     toggleDesired type j checked st = st /\ setCategory type j value st = st).
Proof.
  intros Hrow Hkey. repeat split.
  - intros o Ho.
    destruct (unifyRow_Some _ _ _ _ _ _ _ Ho) as (_ & Hd & _).
    rewrite Hd, (toggleDesired_store i checked st row _ Hrow).
    now rewrite decide_True by exact Hkey.
  - intros o Ho.
    destruct (unifyRow_Some _ _ _ _ _ _ _ Ho) as (_ & _ & Hc & _).
    rewrite Hc, (setCategory_store i value st row _ Hrow).
    rewrite decide_True by exact Hkey. cbn [Obj.orStr].
    now destruct (JS.isEmpty value).
  - unfold toggleDesired. unfold Row in *. now rewrite H.
  - unfold setCategory. unfold Row in *. now rewrite H.
Qed.

End Store.

Lemma selection_survives_reload_witness :
  DictApp.dataOf Overlap.afterArrivalB "dx" !! 0%nat = Some Overlap.icd10Row /\
  Selection.rowKeyOf Overlap.icd10Row = "dictionary-dx.csv" ++ ":" ++ JS.ofIndex 0 /\
  forall o,
    DictApp.unifyRow (Selection.toggleDesired "dx" 0 true Overlap.afterArrivalB)
      "dx" ["icd10"] "dictionary-dx.csv" 0
      [ ("concept_id", "35206462"); ("vocabulary_id", "ICD10CM") ] = Some o ->
    Obj.get o "desired" = Some (VBool true).
Proof.
  assert (H1 : DictApp.dataOf Overlap.afterArrivalB "dx" !! 0%nat
               = Some Overlap.icd10Row) by (vm_compute; reflexivity).
  assert (H2 : Selection.rowKeyOf Overlap.icd10Row
               = "dictionary-dx.csv" ++ ":" ++ JS.ofIndex 0) by reflexivity.
  split; [exact H1 | split; [exact H2 |]].
  apply (selection_survives_reload "dx" Overlap.afterArrivalB 0 Overlap.icd10Row
           true "" ["icd10"] "dictionary-dx.csv" 0
           [ ("concept_id", "35206462"); ("vocabulary_id", "ICD10CM") ] H1 H2).
Defined.

(** ** app.js: the rows that a reload keeps *)

Section Merge.

Import DictApp Selection SystemFiles.

Variables (st : State) (type : string) (systems : list string).

Lemma unifyFile_In (file : string) (rows : list RawRow) (o : Row) :
  forall idx,
    In o (unifyFile st type systems file idx rows) ->
    exists j raw,
      (idx <= j)%nat /\ rows !! (j - idx)%nat = Some raw /\
      unifyRow st type systems file j raw = Some o.
Proof.
  induction rows as [|row rows IH]; intros idx Hin; [contradiction |].
  cbn [unifyFile] in Hin.
  assert (Hrest : In o (unifyFile st type systems file (S idx) rows) ->
                  exists j raw,
                    (idx <= j)%nat /\ (row :: rows) !! (j - idx)%nat = Some raw /\
                    unifyRow st type systems file j raw = Some o).
  { intros H. destruct (IH _ H) as (j & raw & Hj & Hraw & Hu).
    exists j, raw. split; [lia |]. split; [| exact Hu].
    replace (j - idx)%nat with (S (j - S idx)) by lia. exact Hraw. }
  destruct (unifyRow st type systems file idx row) as [o'|] eqn:E.
  - destruct Hin as [<- | Hin]; [| now apply Hrest].
    exists idx, row. split; [lia |]. split; [| exact E].
    now rewrite Nat.sub_diag.
  - now apply Hrest.
Qed.

Lemma unifyFile_NoDup (file : string) (rows : list RawRow) :
  forall idx, NoDup (map rowKeyOf (unifyFile st type systems file idx rows)).
Proof.
  induction rows as [|row rows IH]; intros idx; [constructor |].
  cbn [unifyFile].
  destruct (unifyRow st type systems file idx row) as [o|] eqn:E; [| apply IH].
  cbn [map]. constructor; [| apply IH].
  intros Hin. apply in_map_iff in Hin. destruct Hin as (o' & Hk & Hin).
  destruct (unifyFile_In _ _ _ _ Hin) as (j & raw & Hj & _ & Hu).
  rewrite (unifyRow_rowKey _ _ _ _ _ _ _ E),
    (unifyRow_rowKey _ _ _ _ _ _ _ Hu) in Hk.
  apply rowKey_inj in Hk. lia.
Qed.

Lemma mergeResults_In (results : list (string * list RawRow)) (o : Row) :
  In o (mergeResults st type systems results) ->
  exists file rows idx raw,
    In (file, rows) results /\ rows !! idx = Some raw /\
    unifyRow st type systems file idx raw = Some o.
Proof.
  unfold mergeResults. rewrite in_flat_map. intros ([file rows] & Hin & Ho).
  destruct (unifyFile_In _ _ _ _ Ho) as (j & raw & _ & Hraw & Hu).
  exists file, rows, j, raw. rewrite Nat.sub_0_r in Hraw. auto.
Qed.

Lemma mergeResults_NoDup (results : list (string * list RawRow)) :
  NoDup (map fst results) ->
  NoDup (map rowKeyOf (mergeResults st type systems results)).
Proof.
  unfold mergeResults.
  induction results as [|[file rows] results IH]; intros Hnd; [constructor |].
  cbn [flat_map map fst] in *. inversion Hnd as [|? ? Hnotin Hnd']; subst.
  rewrite map_app.
  apply List.NoDup_app; [apply unifyFile_NoDup | now apply IH |].
  intros k Hk1 Hk2.
  apply in_map_iff in Hk1. destruct Hk1 as (o1 & <- & Ho1).
  apply in_map_iff in Hk2. destruct Hk2 as (o2 & Hk & Ho2).
  destruct (unifyFile_In _ _ _ _ Ho1) as (j1 & raw1 & _ & _ & Hu1).
  apply in_flat_map in Ho2. destruct Ho2 as ([file2 rows2] & Hin2 & Ho2).
  destruct (unifyFile_In _ _ _ _ Ho2) as (j2 & raw2 & _ & _ & Hu2).
  rewrite (unifyRow_rowKey _ _ _ _ _ _ _ Hu1),
    (unifyRow_rowKey _ _ _ _ _ _ _ Hu2) in Hk.
  apply rowKey_inj in Hk. destruct Hk as [Hf _]. cbn [fst] in Hf. subst file2.
  apply Hnotin. apply in_map_iff. now exists (file, rows2).
Qed.

Lemma tagged_types (t : string) :
  In t ["medication"; "lab"; "procedure"] <->
  String.eqb t "medication" || String.eqb t "lab" || String.eqb t "procedure"
  = true.
Proof.
  rewrite !orb_true_iff, !String.eqb_eq. cbn [In]. intuition congruence.
Qed.

(** What [unifyRow] has checked of a row that it keeps, and the source
    that it gives to the row. *)
Lemma unifyRow_filter (file : string) (idx : nat) (row : RawRow) (o : Row) :
  unifyRow st type systems file idx row = Some o ->
  keptBy type systems row /\
  (forall db,
     In type ["medication"; "lab"; "procedure"] ->
     Obj.get row "source_db" = Some db -> db <> "" ->
     Obj.get o "_source" = Some (VStr (JS.toLowerCase db))) /\
  (~ In type ["medication"; "lab"; "procedure"]
   \/ Obj.orStr (Obj.get row "source_db") "" = "" ->
   Obj.get o "_source" = Some (VStr (inferSource file))).
Proof.
  unfold unifyRow, keptBy. cbv zeta.
  destruct (String.eqb type "dx" && _) eqn:Edx; [discriminate |].
  set (source_db := Obj.orStr (Obj.get row "source_db") "") in *.
  set (tagged := negb (JS.isEmpty source_db) && _) in *.
  destruct (tagged && negb _) eqn:Etag; [discriminate |].
  intros H. injection H as <-.
  rewrite !get_set_ne by discriminate. rewrite get_set_eq.
  assert (Htag : forall db,
             In type ["medication"; "lab"; "procedure"] ->
             Obj.get row "source_db" = Some db -> db <> "" ->
             source_db = db /\ tagged = true).
  { intros db Hty Hdb Hne.
    apply tagged_types in Hty. apply isEmpty_false in Hne.
    assert (Hs : source_db = db).
    { subst source_db. rewrite Hdb. cbn [Obj.orStr]. now rewrite Hne. }
    split; [exact Hs |]. subst tagged. now rewrite Hs, Hne, Hty. }
  split; [split; [| split] | split].
  - intros Ht Hv. rewrite Ht, Hv in Edx.
    destruct (Obj.arrIncludes systems "icd10") eqn:E; [now apply arrIncludes_In |].
    rewrite bool_decide_eq_true_2 in Edx by reflexivity.
    cbn in Edx. discriminate.
  - intros Ht Hv. rewrite Ht, Hv in Edx.
    destruct (Obj.arrIncludes systems "icd9") eqn:E; [now apply arrIncludes_In |].
    rewrite (bool_decide_eq_true_2 (Some "ICD9CM" = Some "ICD9CM")) in Edx
      by reflexivity.
    cbn [negb andb] in Edx. rewrite orb_true_r in Edx. cbn in Edx. discriminate.
  - intros db Hty Hdb Hne.
    destruct (Htag db Hty Hdb Hne) as [Hs Ht].
    rewrite Ht, Hs in Etag. cbn [andb] in Etag.
    apply negb_false_iff in Etag. now apply arrIncludes_In in Etag.
  - intros db Hty Hdb Hne.
    destruct (Htag db Hty Hdb Hne) as [Hs Ht]. now rewrite Ht, Hs.
  - intros H.
    assert (Ht : tagged = false).
    { subst tagged. destruct H as [H | H].
      - destruct (String.eqb type "medication" || String.eqb type "lab"
                  || String.eqb type "procedure") eqn:E.
        + apply tagged_types in E. contradiction.
        + apply andb_false_r.
      - now rewrite H. }
    now rewrite Ht.
Qed.

(** A row that meets the conditions is kept. *)
Lemma unifyRow_kept (file : string) (idx : nat) (row : RawRow) :
  keptBy type systems row ->
  exists o, unifyRow st type systems file idx row = Some o.
Proof.
  intros (H10 & H9 & Hdb). unfold unifyRow. cbv zeta.
  assert (Edx : String.eqb type "dx"
                && ((bool_decide (Obj.get row "vocabulary_id" = Some "ICD10CM")
                       && negb (Obj.arrIncludes systems "icd10"))
                    || (bool_decide (Obj.get row "vocabulary_id" = Some "ICD9CM")
                          && negb (Obj.arrIncludes systems "icd9"))) = false).
  { destruct (String.eqb_spec type "dx") as [Ht | _]; [| reflexivity].
    cbn [andb]. apply orb_false_iff. split.
    - destruct (bool_decide_reflect (Obj.get row "vocabulary_id" = Some "ICD10CM"))
        as [Hv | _]; [| reflexivity].
      cbn [andb]. apply negb_false_iff, arrIncludes_In. now apply H10.
    - destruct (bool_decide_reflect (Obj.get row "vocabulary_id" = Some "ICD9CM"))
        as [Hv | _]; [| reflexivity].
      cbn [andb]. apply negb_false_iff, arrIncludes_In. now apply H9. }
  rewrite Edx.
  set (source_db := Obj.orStr (Obj.get row "source_db") "").
  set (tagged := negb (JS.isEmpty source_db) && _).
  assert (Etag : tagged
                 && negb (Obj.arrIncludes systems
                            (if tagged then JS.toLowerCase source_db
                             else inferSource file)) = false).
  { destruct tagged eqn:Et; [| reflexivity]. cbn [andb].
    apply negb_false_iff, arrIncludes_In.
    subst tagged. apply andb_true_iff in Et. destruct Et as [Hne Hty].
    apply negb_true_iff in Hne. apply tagged_types in Hty.
    subst source_db. unfold Obj.orStr in *.
    destruct (Obj.get row "source_db") as [db|] eqn:Eg; [| discriminate].
    destruct (JS.isEmpty db) eqn:Ee; [discriminate |].
    apply (Hdb db Hty eq_refl). now apply isEmpty_false. }
  rewrite Etag. eauto.
Qed.

Lemma unifyFile_complete (file : string) (rows : list RawRow) :
  forall idx i raw o,
    rows !! i = Some raw ->
    unifyRow st type systems file (idx + i) raw = Some o ->
    In o (unifyFile st type systems file idx rows).
Proof.
  induction rows as [|row rows IH]; intros idx i raw o Hraw Hu; [discriminate |].
  cbn [unifyFile]. destruct i as [|i].
  - injection Hraw as ->. rewrite Nat.add_0_r in Hu. rewrite Hu. now left.
  - assert (Hin : In o (unifyFile st type systems file (S idx) rows)).
    { apply (IH (S idx) i raw o Hraw).
      now replace (S idx + i)%nat with (idx + S i)%nat by lia. }
    destruct (unifyRow st type systems file idx row); [now right | exact Hin].
Qed.

Lemma setAdd_NoDup (files : list string) (f : string) :
  NoDup files -> NoDup (setAdd files f).
Proof.
  unfold setAdd. destruct (Obj.arrIncludes files f) eqn:E; [auto |].
  intros H. apply List.NoDup_app; [exact H | repeat constructor; intros [] |].
  intros a Ha [<- | []].
  apply arrIncludes_In in Ha. congruence.
Qed.

Lemma getSystemCsvFiles_NoDup (systems' : list string) :
  NoDup (getSystemCsvFiles type systems').
Proof.
  unfold getSystemCsvFiles.
  generalize (match Obj.get fileMap type with Some m => m | None => [] end).
  intros m.
  assert (H : NoDup (@nil string)) by constructor.
  revert H. generalize (@nil string).
  induction systems' as [|s systems' IH]; intros acc Hacc; [exact Hacc |].
  cbn [fold_left]. apply IH.
  destruct (Obj.get m s) as [f|]; [| exact Hacc].
  destruct (JS.isEmpty f); [exact Hacc | now apply setAdd_NoDup].
Qed.

Lemma taskResults_files (st0 : State) (loaded : string -> list RawRow) :
  map fst (taskResults (loadTypeData_begin st0 type) loaded)
  = getSystemCsvFiles type (activeSystemsOf st0 type).
Proof.
  unfold taskResults, loadTypeData_begin. cbn [task_files].
  rewrite !map_map. cbn [fst]. apply map_id.
Qed.

(** The merged collection of a reload holds the rows of the loaded files
    that belong to the active systems, and no others.  Each of its rows
    stems from one row of one file, whose place is the row key and whose
    columns it carries; no diagnosis row of a vocabulary that is not among
    the systems and no medication, lab or procedure row of a [source_db]
    that is not among them is kept; the source of a row is its [source_db]
    in lower case where that decided, and the one read off the file name
    otherwise.  Conversely every row of a file that meets the two
    conditions is in the collection, under its key. *)
Theorem reload_keeps_rows_of_active_systems
    (results : list (string * list RawRow)) :
  let merged := mergeResults st type systems results in
  (forall o, In o merged ->
     exists file rows idx raw,
       In (file, rows) results /\ rows !! idx = Some raw /\
       keptBy type systems raw /\
       rowKeyOf o = file ++ ":" ++ JS.ofIndex idx /\
       (forall col,
          ~ In col ["_source"; "_rowKey"; "desired"; "category"; "keyword_matched"] ->
          Obj.get o col = option_map VStr (Obj.get raw col)) /\
       (forall db,
          In type ["medication"; "lab"; "procedure"] ->
          Obj.get raw "source_db" = Some db -> db <> "" ->
          Obj.get o "_source" = Some (VStr (JS.toLowerCase db))) /\
       (~ In type ["medication"; "lab"; "procedure"]
        \/ Obj.orStr (Obj.get raw "source_db") "" = "" ->
        Obj.get o "_source" = Some (VStr (inferSource file)))) /\
  (forall file rows idx raw,
     In (file, rows) results -> rows !! idx = Some raw ->
     keptBy type systems raw ->
     exists o, In o merged /\ rowKeyOf o = file ++ ":" ++ JS.ofIndex idx).
Proof.
  cbv zeta. split.
  - intros o Ho.
    destruct (mergeResults_In _ _ Ho) as (file & rows & idx & raw & Hin & Hraw & Hu).
    exists file, rows, idx, raw.
    destruct (unifyRow_filter _ _ _ _ Hu) as (Hk & Hs1 & Hs2).
    destruct (unifyRow_Some _ _ _ _ _ _ _ Hu) as (_ & _ & _ & _ & Hcols).
    repeat split; try assumption; try apply Hk.
    now apply (unifyRow_rowKey _ _ _ _ _ _ _ Hu).
  - intros file rows idx raw Hin Hraw Hk.
    destruct (unifyRow_kept file idx raw Hk) as (o & Hu).
    exists o. split; [| now apply (unifyRow_rowKey _ _ _ _ _ _ _ Hu)].
    unfold mergeResults. apply in_flat_map. exists (file, rows).
    split; [exact Hin |]. cbn [fst snd].
    now apply (unifyFile_complete file rows 0%nat idx raw o Hraw).
Qed.

End Merge.

(** ** app.js: check marks and the selection store *)

Section Agreement.

Import DictApp Selection.

Variable typedText : string -> string.
Variable searchApplied : string -> State -> option (list nat).
Variable type : string.

Lemma map_key_insert (l : list Row) (i : nat) (row row' : Row) :
  l !! i = Some row -> rowKeyOf row' = rowKeyOf row ->
  map rowKeyOf (<[i := row']> l) = map rowKeyOf l.
Proof.
  revert i. induction l as [|a l IH]; intros [|i] H Hk; try discriminate.
  - change (Some a = Some row) in H. injection H as ->.
    change (rowKeyOf row' :: map rowKeyOf l = rowKeyOf row :: map rowKeyOf l).
    now rewrite Hk.
  - change (rowKeyOf a :: map rowKeyOf (<[i := row']> l)
            = rowKeyOf a :: map rowKeyOf l).
    f_equal. now apply (IH i).
Qed.

Lemma lookup_In (l : list Row) (i : nat) (row : Row) :
  l !! i = Some row -> In row l.
Proof.
  revert i. induction l as [|a l IH]; intros [|i] H; try discriminate.
  - change (Some a = Some row) in H. injection H as ->. now left.
  - right. now apply (IH i).
Qed.

Lemma Forall_insert_keyed (P Q : Row -> Prop) (l : list Row) (i : nat)
    (row row' : Row) :
  l !! i = Some row -> NoDup (map rowKeyOf l) ->
  Forall P l -> Q row' ->
  (forall y, P y -> rowKeyOf y <> rowKeyOf row -> Q y) ->
  Forall Q (<[i := row']> l).
Proof.
  revert i. induction l as [|a l IH]; intros [|i] H Hnd HP HQ Hoth;
    try discriminate;
    inversion HP as [|? ? Pa Pl]; subst;
    inversion Hnd as [|? ? Hnotin Hnd']; subst.
  - change (Some a = Some row) in H. injection H as ->.
    change (Forall Q (row' :: l)). constructor; [exact HQ |].
    apply List.Forall_forall. intros y Hy.
    apply Hoth; [now apply (proj1 (List.Forall_forall _ _) Pl) |].
    intros Heq. apply Hnotin. rewrite <- Heq. now apply in_map.
  - change (Forall Q (a :: <[i := row']> l)).
    constructor; [| now apply (IH i)].
    apply Hoth; [exact Pa |].
    intros Heq. apply Hnotin. rewrite Heq. apply in_map. now apply (lookup_In l i).
Qed.

Lemma agrees_ext (st st' : State) :
  dataOf st' type = dataOf st type ->
  (forall k, desiredAt st' type k = desiredAt st type k) ->
  agreesWithStore st type -> agreesWithStore st' type.
Proof.
  intros Hd Hs [Hnd Hall]. unfold agreesWithStore. rewrite Hd.
  split; [exact Hnd |].
  revert Hall. apply List.Forall_impl. intros row H. now rewrite Hs.
Qed.

Lemma agrees_update (st st' : State) (i : nat) (row row' : Row) :
  agreesWithStore st type ->
  dataOf st type !! i = Some row ->
  dataOf st' type = <[i := row']> (dataOf st type) ->
  rowKeyOf row' = rowKeyOf row ->
  (forall k, k <> rowKeyOf row -> desiredAt st' type k = desiredAt st type k) ->
  Obj.get row' "desired"
  = Some (VBool (default false (desiredAt st' type (rowKeyOf row)))) ->
  agreesWithStore st' type.
Proof.
  intros [Hnd Hall] Hrow Hd Hk Hoth Hself. unfold agreesWithStore. rewrite Hd.
  split.
  - now rewrite (map_key_insert _ _ _ _ Hrow Hk).
  - apply (Forall_insert_keyed _ _ _ _ _ _ Hrow Hnd Hall).
    + now rewrite Hk.
    + intros y Hy Hne. cbn beta in Hy |- *. now rewrite Hoth.
Qed.

Lemma toggleDesired_agrees (type' : string) (i : nat) (c : bool) (st : State) :
  agreesWithStore st type -> agreesWithStore (toggleDesired type' i c st) type.
Proof.
  intros H. destruct (dataOf st type' !! i) as [row|] eqn:E.
  2: { unfold toggleDesired. unfold Row in *. now rewrite E. }
  destruct (decide (type' = type)) as [-> | Hne].
  - apply (agrees_update st _ i row (Obj.set row "desired" (VBool c)) H E).
    + now apply toggleDesired_data.
    + apply rowKeyOf_set. discriminate.
    + intros k Hk. rewrite (toggleDesired_store type i c st row k E).
      now rewrite decide_False by congruence.
    + rewrite get_set_eq, (toggleDesired_store type i c st row _ E).
      now rewrite decide_True by reflexivity.
  - apply (agrees_ext st); [| | exact H].
    + unfold toggleDesired. unfold Row in *. rewrite E.
      unfold dataOf. cbn [data]. now rewrite lookup_insert_ne.
    + intros k. unfold toggleDesired. unfold Row in *. rewrite E.
      unfold desiredAt. cbn [desired]. now rewrite lookup_insert_ne.
Qed.

Lemma setCategory_agrees (type' : string) (i : nat) (v : string) (st : State) :
  agreesWithStore st type -> agreesWithStore (setCategory type' i v st) type.
Proof.
  intros H. destruct (dataOf st type' !! i) as [row|] eqn:E.
  2: { unfold setCategory. unfold Row in *. now rewrite E. }
  destruct (decide (type' = type)) as [-> | Hne].
  - apply (agrees_update st _ i row (Obj.set row "category" (VStr v)) H E).
    + unfold setCategory. unfold Row in *. rewrite E.
      unfold dataOf at 1. cbn [data]. now rewrite lookup_insert_eq.
    + apply rowKeyOf_set. discriminate.
    + intros k _. unfold setCategory. unfold Row in *. now rewrite E.
    + rewrite get_set_ne by discriminate.
      assert (Hs : desiredAt (setCategory type i v st) type (rowKeyOf row)
                   = desiredAt st type (rowKeyOf row)).
      { unfold setCategory. unfold Row in *. now rewrite E. }
      rewrite Hs. destruct H as [_ Hall].
      apply (proj1 (List.Forall_forall _ _) Hall row). now apply (lookup_In _ i).
  - apply (agrees_ext st); [| | exact H].
    + unfold setCategory. unfold Row in *. rewrite E.
      unfold dataOf. cbn [data]. now rewrite lookup_insert_ne.
    + intros k. unfold setCategory. unfold Row in *. now rewrite E.
Qed.

Lemma markedRow_key (kws : list string) (row : Row) :
  rowKeyOf (markedRow kws row) = rowKeyOf row.
Proof.
  unfold markedRow. now rewrite !rowKeyOf_set by discriminate.
Qed.

Lemma autoDesireRow_data (kws : list string) (i : nat) (st : State) (row : Row) :
  dataOf st type !! i = Some row ->
  dataOf (autoDesireRow type kws i st) type
  = <[i := markedRow kws row]> (dataOf st type).
Proof.
  intros E. unfold autoDesireRow. unfold Row in *. rewrite E.
  unfold dataOf at 1. cbn [data]. now rewrite lookup_insert_eq.
Qed.

Lemma autoDesireRow_store (kws : list string) (i : nat) (st : State) (row : Row)
    (k : string) :
  dataOf st type !! i = Some row ->
  desiredAt (autoDesireRow type kws i st) type k
  = if decide (rowKeyOf row = k) then Some true else desiredAt st type k.
Proof.
  intros E. unfold autoDesireRow. unfold Row in *. rewrite E.
  unfold desiredAt. cbn [desired]. rewrite lookup_insert_eq. cbn.
  apply lookup_insert.
Qed.

Lemma autoDesireRow_other (type' : string) (kws : list string) (i : nat)
    (st : State) :
  type' <> type ->
  dataOf (autoDesireRow type' kws i st) type = dataOf st type /\
  (forall k, desiredAt (autoDesireRow type' kws i st) type k = desiredAt st type k) /\
  (forall k, keywordMatchedAt (autoDesireRow type' kws i st) type k
             = keywordMatchedAt st type k).
Proof.
  intros Hne. unfold autoDesireRow.
  destruct (dataOf st type' !! i) as [row|]; [| auto].
  unfold dataOf, desiredAt, keywordMatchedAt. cbn [data desired keywordMatched].
  now rewrite !lookup_insert_ne.
Qed.

Lemma autoDesireRow_agrees (type' : string) (kws : list string) (i : nat)
    (st : State) :
  agreesWithStore st type -> agreesWithStore (autoDesireRow type' kws i st) type.
Proof.
  intros H. destruct (decide (type' = type)) as [-> | Hne].
  - destruct (dataOf st type !! i) as [row|] eqn:E.
    2: { unfold autoDesireRow. unfold Row in *. now rewrite E. }
    apply (agrees_update st _ i row (markedRow kws row) H E).
    + now apply autoDesireRow_data.
    + apply markedRow_key.
    + intros k Hk. rewrite (autoDesireRow_store kws i st row k E).
      now rewrite decide_False by congruence.
    + unfold markedRow. rewrite get_set_ne by discriminate.
      rewrite get_set_eq, (autoDesireRow_store kws i st row _ E).
      now rewrite decide_True by reflexivity.
  - destruct (autoDesireRow_other type' kws i st Hne) as (Hd & Hs & _).
    now apply (agrees_ext st).
Qed.

Lemma fold_agrees (step : nat -> State -> State) (visible : list nat) :
  (forall i s, agreesWithStore s type -> agreesWithStore (step i s) type) ->
  forall s, agreesWithStore s type ->
            agreesWithStore (fold_left (fun s i => step i s) visible s) type.
Proof.
  intros Hstep. induction visible as [|i visible IH]; intros s H; [exact H |].
  cbn [fold_left]. apply IH. now apply Hstep.
Qed.

Lemma toggleSelectAllVisible_agrees (type' : string) (c : bool) (st : State) :
  agreesWithStore st type ->
  agreesWithStore (toggleSelectAllVisible searchApplied type' c st) type.
Proof.
  intros H. unfold toggleSelectAllVisible.
  destruct (searchApplied type' st) as [visible|]; [| exact H].
  apply (fold_agrees (fun i s => toggleDesired type' i c s)); [| exact H].
  intros i s. apply toggleDesired_agrees.
Qed.

Lemma autoDesireVisible_agrees (type' : string) (kws : list string) (st : State) :
  agreesWithStore st type ->
  agreesWithStore (autoDesireVisible searchApplied type' kws st) type.
Proof.
  intros H. unfold autoDesireVisible.
  destruct (searchApplied type' st) as [visible|]; [| exact H].
  apply (fold_agrees (fun i s => autoDesireRow type' kws i s)); [| exact H].
  intros i s. apply autoDesireRow_agrees.
Qed.

Lemma applyKeywordFilter_agrees (type' : string) (st : State) :
  agreesWithStore st type ->
  agreesWithStore (applyKeywordFilter typedText searchApplied type' st) type.
Proof.
  intros H. unfold applyKeywordFilter.
  destruct (searchApplied type' st); [| exact H]. cbv zeta.
  destruct (_ =? 0); [exact H |].
  destruct (_ >? 0); [| exact H].
  now apply autoDesireVisible_agrees.
Qed.

Lemma fold_false_sticky (l : list Row) :
  forall (m : gmap string bool) (k : string),
    m !! k = Some false ->
    fold_left (fun m row => <[rowKeyOf row := false]> m) l m !! k = Some false.
Proof.
  induction l as [|a l IH]; intros m k H; [exact H |].
  cbn [fold_left]. apply IH. rewrite lookup_insert.
  now destruct (decide (rowKeyOf a = k)).
Qed.

Lemma fold_false_In (l : list Row) :
  forall (m : gmap string bool) (k : string),
    In k (map rowKeyOf l) ->
    fold_left (fun m row => <[rowKeyOf row := false]> m) l m !! k = Some false.
Proof.
  induction l as [|a l IH]; intros m k H; [contradiction |].
  cbn [fold_left]. destruct (decide (rowKeyOf a = k)) as [<- | Hne].
  - apply fold_false_sticky. apply lookup_insert_eq.
  - apply IH. destruct H as [H | H]; [contradiction | exact H].
Qed.

Lemma fold_false_notIn (l : list Row) :
  forall (m : gmap string bool) (k : string),
    ~ In k (map rowKeyOf l) ->
    fold_left (fun m row => <[rowKeyOf row := false]> m) l m !! k = m !! k.
Proof.
  induction l as [|a l IH]; intros m k H; [reflexivity |].
  cbn [fold_left]. rewrite IH by (intros Hin; apply H; now right).
  apply lookup_insert_ne. intros Heq. apply H. now left.
Qed.

Lemma deselectAll_keys (l : list Row) :
  map rowKeyOf (map (fun row => Obj.set row "desired" (VBool false)) l)
  = map rowKeyOf l.
Proof.
  rewrite map_map. apply map_ext. intros row. apply rowKeyOf_set. discriminate.
Qed.

Lemma deselectAll_data (st : State) :
  dataOf (deselectAll type st) type
  = map (fun row => Obj.set row "desired" (VBool false)) (dataOf st type).
Proof.
  unfold deselectAll. unfold dataOf at 1. cbn [data]. now rewrite lookup_insert_eq.
Qed.

Lemma deselectAll_store (st : State) (k : string) :
  desiredAt (deselectAll type st) type k
  = fold_left (fun m row => <[rowKeyOf row := false]> m) (dataOf st type)
      (default ∅ (desired st !! type)) !! k.
Proof.
  unfold deselectAll, desiredAt. cbn [desired]. now rewrite lookup_insert_eq.
Qed.

Lemma deselectAll_agrees (type' : string) (st : State) :
  agreesWithStore st type -> agreesWithStore (deselectAll type' st) type.
Proof.
  intros H. destruct (decide (type' = type)) as [-> | Hne].
  - destruct H as [Hnd _]. unfold agreesWithStore.
    rewrite deselectAll_data, deselectAll_keys. split; [exact Hnd |].
    apply Forall_map, List.Forall_forall. intros row Hrow.
    rewrite get_set_eq, rowKeyOf_set by discriminate.
    rewrite deselectAll_store, fold_false_In by now apply in_map. reflexivity.
  - apply (agrees_ext st); [| | exact H].
    + unfold deselectAll, dataOf. cbn [data]. now rewrite lookup_insert_ne.
    + intros k. unfold deselectAll, desiredAt. cbn [desired].
      now rewrite lookup_insert_ne.
Qed.

Lemma addKeyword_agrees (type' kw : string) (st : State) :
  agreesWithStore st type ->
  agreesWithStore (addKeyword typedText searchApplied type' kw st) type.
Proof.
  intros H. unfold addKeyword. cbv zeta.
  destruct (JS.isEmpty _); [exact H |].
  destruct (hasKeyword _ _ _); [exact H |].
  apply applyKeywordFilter_agrees. now apply (agrees_ext st).
Qed.

Lemma removeKeyword_agrees (type' : string) (i : nat) (st : State) :
  agreesWithStore st type ->
  agreesWithStore (removeKeyword typedText searchApplied type' i st) type.
Proof.
  intros H. unfold removeKeyword.
  apply applyKeywordFilter_agrees. now apply (agrees_ext st).
Qed.

Lemma merged_agrees (st st' : State) (st0 : State)
    (loaded : string -> list RawRow) :
  let task := loadTypeData_begin st0 type in
  dataOf st' type
  = mergeResults st type (task_systems task) (taskResults task loaded) ->
  (forall k, desiredAt st' type k = desiredAt st type k) ->
  agreesWithStore st' type.
Proof.
  cbv zeta. intros Hd Hs. unfold agreesWithStore. rewrite Hd. split.
  - apply mergeResults_NoDup. rewrite taskResults_files.
    apply getSystemCsvFiles_NoDup.
  - apply List.Forall_forall. intros o Ho.
    destruct (mergeResults_In _ _ _ _ _ Ho)
      as (file & rows & idx & raw & _ & _ & Hu).
    destruct (unifyRow_Some _ _ _ _ _ _ _ Hu) as (_ & Hdes & _).
    now rewrite Hs, (unifyRow_rowKey _ _ _ _ _ _ _ Hu).
Qed.

Lemma resume_agrees (st st0 : State) (type' : string)
    (loaded : string -> list RawRow) :
  type' = type \/ agreesWithStore st type ->
  agreesWithStore
    (loadTypeData_resume (applyKeywordFilter typedText searchApplied) st
       (loadTypeData_begin st0 type') loaded) type.
Proof.
  intros H. unfold loadTypeData_resume. cbv zeta.
  set (task := loadTypeData_begin st0 type').
  change (task_type task) with type'.
  set (st' := Build_State _ _ _ _ _ _ _).
  assert (H' : agreesWithStore st' type).
  { destruct (decide (type' = type)) as [-> | Hne].
    - apply (merged_agrees st st' st0 loaded); [| reflexivity].
      unfold st', dataOf. cbn [data]. now rewrite lookup_insert_eq.
    - destruct H as [H | H]; [contradiction |].
      apply (agrees_ext st); [| reflexivity | exact H].
      unfold st', dataOf. cbn [data]. now rewrite lookup_insert_ne. }
  destruct (_ >? 0); [| exact H'].
  now apply applyKeywordFilter_agrees.
Qed.

Lemma autoDesireRow_sticky (type' : string) (kws : list string) (i : nat)
    (s : State) (k : string) :
  desiredAt s type k = Some true ->
  desiredAt (autoDesireRow type' kws i s) type k = Some true.
Proof.
  intros H. destruct (decide (type' = type)) as [-> | Hne].
  - destruct (dataOf s type !! i) as [row|] eqn:E.
    + rewrite (autoDesireRow_store kws i s row k E).
      now destruct (decide (rowKeyOf row = k)).
    + unfold autoDesireRow. unfold Row in *. now rewrite E.
  - destruct (autoDesireRow_other type' kws i s Hne) as (_ & Hs & _).
    now rewrite Hs.
Qed.

Lemma autoDesire_fold_sticky (type' : string) (kws : list string) (k : string)
    (visible : list nat) :
  forall s,
    desiredAt s type k = Some true ->
    desiredAt (fold_left (fun s i => autoDesireRow type' kws i s) visible s) type k
    = Some true.
Proof.
  induction visible as [|v visible IH]; intros s H; [exact H |].
  cbn [fold_left]. apply IH. now apply autoDesireRow_sticky.
Qed.

Lemma applyKeywordFilter_sticky (type' : string) (s : State) (k : string) :
  desiredAt s type k = Some true ->
  desiredAt (applyKeywordFilter typedText searchApplied type' s) type k = Some true.
Proof.
  intros H. unfold applyKeywordFilter.
  destruct (searchApplied type' s) as [visible|] eqn:E; [| exact H]. cbv zeta.
  destruct (_ =? 0); [exact H |].
  destruct (_ >? 0); [| exact H].
  unfold autoDesireVisible. rewrite E. now apply autoDesire_fold_sticky.
Qed.

(** The check marks and the selection store never disagree.  In the initial
    state, and after a load of the type whatever the state was before, the
    rows of the type have pairwise different keys and each row is desired
    exactly as the store says for its key; and every handler that writes a
    row or the store, for this type or for another, keeps it so. *)
Theorem check_marks_agree_with_store :
  agreesWithStore initialState type /\
  (forall st st0 loaded,
     agreesWithStore
       (loadTypeData_resume (applyKeywordFilter typedText searchApplied) st
          (loadTypeData_begin st0 type) loaded) type) /\
  (forall st, agreesWithStore st type ->
     (forall type' i checked,
        agreesWithStore (toggleDesired type' i checked st) type) /\
     (forall type' i value,
        agreesWithStore (setCategory type' i value st) type) /\
     (forall type' checked,
        agreesWithStore (toggleSelectAllVisible searchApplied type' checked st) type) /\
     (forall type', agreesWithStore (deselectAll type' st) type) /\
     (forall type' kws,
        agreesWithStore (autoDesireVisible searchApplied type' kws st) type) /\
     (forall type',
        agreesWithStore (applyKeywordFilter typedText searchApplied type' st) type) /\
     (forall type' keyword,
        agreesWithStore (addKeyword typedText searchApplied type' keyword st) type) /\
     (forall type' index,
        agreesWithStore (removeKeyword typedText searchApplied type' index st) type) /\
     (forall type', agreesWithStore (clearKeywords type' st) type) /\
     (forall dateStart dateEnd outpatient inpatient,
        agreesWithStore (updateSystems st dateStart dateEnd outpatient inpatient)
          type) /\
     (forall st0 type' loaded,
        agreesWithStore
          (loadTypeData_resume (applyKeywordFilter typedText searchApplied) st
             (loadTypeData_begin st0 type') loaded) type)).
Proof.
  split; [| split].
  - unfold agreesWithStore, dataOf.
    destruct (data initialState !! type) as [l|] eqn:E.
    + assert (Hl : l = []).
      { unfold initialState in E. cbn [data] in E.
        apply elem_of_list_to_map_2 in E.
        cbn in E. rewrite !elem_of_cons in E. rewrite elem_of_nil in E.
        intuition congruence. }
      subst l. cbn. split; constructor.
    + cbn. split; constructor.
  - intros st st0 loaded. apply resume_agrees. now left.
  - intros st H.
    repeat match goal with |- _ /\ _ => split end; intros.
    + now apply toggleDesired_agrees.
    + now apply setCategory_agrees.
    + now apply toggleSelectAllVisible_agrees.
    + now apply deselectAll_agrees.
    + now apply autoDesireVisible_agrees.
    + now apply applyKeywordFilter_agrees.
    + now apply addKeyword_agrees.
    + now apply removeKeyword_agrees.
    + now apply (agrees_ext st).
    + now apply (agrees_ext st).
    + apply resume_agrees. now right.
Qed.

(** A reload does not lose a check mark.  When the rows agree with the
    store, a row that the reload brings back under the key of a checked row
    is checked; and when the type has no keyword chip, every row that comes
    back is desired exactly as the row that had its key before. *)
Theorem reload_keeps_check_marks
    (st st0 : State) (loaded : string -> list RawRow) (row o : Row) :
  agreesWithStore st type ->
  In row (dataOf st type) ->
  In o (dataOf (loadTypeData_resume (applyKeywordFilter typedText searchApplied)
                  st (loadTypeData_begin st0 type) loaded) type) ->
  rowKeyOf o = rowKeyOf row ->
  (Obj.get row "desired" = Some (VBool true) ->
   Obj.get o "desired" = Some (VBool true)) /\
  (keywordsOf st type = [] -> Obj.get o "desired" = Obj.get row "desired").
Proof.
  intros Hag Hrow Ho Hkey.
  assert (Hr : Obj.get row "desired"
               = Some (VBool (default false (desiredAt st type (rowKeyOf row))))).
  { destruct Hag as [_ Hall].
    now apply (proj1 (List.Forall_forall _ _) Hall row). }
  split.
  - intros Htrue.
    assert (Hst : desiredAt st type (rowKeyOf row) = Some true).
    { rewrite Htrue in Hr. injection Hr as Hr.
      destruct (desiredAt st type (rowKeyOf row)) as [[|]|]; cbn in Hr;
        congruence. }
    assert (Hag' := resume_agrees st st0 type loaded (or_introl eq_refl)).
    destruct Hag' as [_ Hall'].
    rewrite (proj1 (List.Forall_forall _ _) Hall' o Ho), Hkey.
    assert (Hst' : desiredAt
                     (loadTypeData_resume
                        (applyKeywordFilter typedText searchApplied) st
                        (loadTypeData_begin st0 type) loaded)
                     type (rowKeyOf row) = Some true).
    { unfold loadTypeData_resume. cbv zeta.
      destruct (_ >? 0); [| exact Hst].
      now apply applyKeywordFilter_sticky. }
    now rewrite Hst'.
  - intros Hk.
    rewrite resume_data in Ho by exact Hk.
    destruct (mergeResults_In _ _ _ _ _ Ho)
      as (file & rows & idx & raw & _ & _ & Hu).
    destruct (unifyRow_Some _ _ _ _ _ _ _ Hu) as (_ & Hd & _).
    rewrite Hd, Hr, <- Hkey. now rewrite (unifyRow_rowKey _ _ _ _ _ _ _ Hu).
Qed.

End Agreement.

Lemma check_marks_agree_with_store_witness :
  Selection.agreesWithStore Overlap.afterArrivalB "dx" /\
  Selection.agreesWithStore Marked.checked "dx".
Proof.
  assert (H : Selection.agreesWithStore Overlap.afterArrivalB "dx").
  { split; vm_compute; repeat constructor. intros []. }
  split; [exact H |].
  destruct (check_marks_agree_with_store Marked.noText Marked.noTable "dx")
    as (_ & _ & Hstep).
  destruct (Hstep _ H) as (Htoggle & _).
  apply Htoggle.
Defined.

Lemma reload_keeps_check_marks_witness :
  Selection.agreesWithStore Marked.checked "dx" /\
  In Marked.checkedRow (DictApp.dataOf Marked.checked "dx") /\
  In Marked.checkedRow
     (DictApp.dataOf
        (DictApp.loadTypeData_resume
           (Selection.applyKeywordFilter Marked.noText Marked.noTable)
           Marked.checked (DictApp.loadTypeData_begin Marked.checked "dx")
           Overlap.loader) "dx") /\
  Obj.get Marked.checkedRow "desired" = Some (VBool true).
Proof.
  assert (H1 : Selection.agreesWithStore Marked.checked "dx").
  { split; vm_compute; repeat constructor. intros []. }
  assert (H2 : In Marked.checkedRow (DictApp.dataOf Marked.checked "dx")).
  { vm_compute. now left. }
  assert (H3 : In Marked.checkedRow
                 (DictApp.dataOf
                    (DictApp.loadTypeData_resume
                       (Selection.applyKeywordFilter Marked.noText Marked.noTable)
                       Marked.checked
                       (DictApp.loadTypeData_begin Marked.checked "dx")
                       Overlap.loader) "dx")).
  { vm_compute. now left. }
  split; [exact H1 | split; [exact H2 | split; [exact H3 |]]].
  apply (reload_keeps_check_marks Marked.noText Marked.noTable "dx"
           Marked.checked Marked.checked Overlap.loader
           Marked.checkedRow Marked.checkedRow H1 H2 H3 eq_refl).
  reflexivity.
Defined.

(** ** app.js: the handlers that write many rows *)

Section Bulk.

Import DictApp Selection.

Variable searchApplied : string -> State -> option (list nat).
Variable type : string.

Lemma keys_inj (l : list Row) :
  NoDup (map rowKeyOf l) ->
  forall i j r r',
    l !! i = Some r -> l !! j = Some r' -> rowKeyOf r = rowKeyOf r' -> i = j.
Proof.
  induction l as [|a l IH]; intros Hnd i j r r' Hi Hj Hk; [discriminate |].
  inversion Hnd as [|? ? Hnotin Hnd']; subst.
  destruct i as [|i], j as [|j].
  - reflexivity.
  - change (Some a = Some r) in Hi. injection Hi as ->.
    exfalso. apply Hnotin. rewrite Hk. apply in_map. now apply (lookup_In l j).
  - change (Some a = Some r') in Hj. injection Hj as ->.
    exfalso. apply Hnotin. rewrite <- Hk. apply in_map. now apply (lookup_In l i).
  - f_equal. now apply (IH Hnd' i j r r').
Qed.

Section Steps.

Context {V : Type}.
Variables (step : nat -> State -> State) (f : Row -> Row)
          (acc : State -> string -> option V) (val : Row -> V).

Hypothesis Hnone : forall i s, dataOf s type !! i = None -> step i s = s.
Hypothesis Hdata :
  forall i s r, dataOf s type !! i = Some r ->
                dataOf (step i s) type = <[i := f r]> (dataOf s type).
Hypothesis Hacc :
  forall i s r k, dataOf s type !! i = Some r ->
                  acc (step i s) k
                  = if decide (rowKeyOf r = k) then Some (val r) else acc s k.
Hypothesis Hkey : forall r, rowKeyOf (f r) = rowKeyOf r.

Lemma step_lookup_same (i : nat) (s : State) (r : Row) :
  dataOf s type !! i = Some r -> dataOf (step i s) type !! i = Some (f r).
Proof.
  intros H. rewrite (Hdata i s r H). apply list_lookup_insert_eq.
  now apply (lookup_lt_Some _ _ r).
Qed.

Lemma step_lookup_other (v i : nat) (s : State) :
  v <> i -> dataOf (step v s) type !! i = dataOf s type !! i.
Proof.
  intros Hne. destruct (dataOf s type !! v) as [r|] eqn:E.
  - rewrite (Hdata v s r E). now apply list_lookup_insert_ne.
  - now rewrite (Hnone v s E).
Qed.

Lemma step_keeps_keys (v : nat) (s : State) :
  map rowKeyOf (dataOf (step v s) type) = map rowKeyOf (dataOf s type).
Proof.
  destruct (dataOf s type !! v) as [r|] eqn:E.
  - rewrite (Hdata v s r E). apply (map_key_insert _ _ r); [exact E | apply Hkey].
  - now rewrite (Hnone v s E).
Qed.

Lemma step_acc_other (v : nat) (s : State) (k : string) :
  (forall r, dataOf s type !! v = Some r -> rowKeyOf r <> k) ->
  acc (step v s) k = acc s k.
Proof.
  intros H. destruct (dataOf s type !! v) as [r|] eqn:E.
  - rewrite (Hacc v s r k E). now rewrite decide_False by now apply H.
  - now rewrite (Hnone v s E).
Qed.

Lemma run_lookup_out (visible : list nat) :
  forall s i, ~ In i visible ->
    dataOf (fold_left (fun s i => step i s) visible s) type !! i
    = dataOf s type !! i.
Proof.
  induction visible as [|v visible IH]; intros s i Hi; [reflexivity |].
  cbn [fold_left]. rewrite IH by (intros H; apply Hi; now right).
  apply step_lookup_other. intros ->. apply Hi. now left.
Qed.

Lemma run_lookup_in (visible : list nat) :
  NoDup visible ->
  forall s i r, In i visible -> dataOf s type !! i = Some r ->
    dataOf (fold_left (fun s i => step i s) visible s) type !! i = Some (f r).
Proof.
  induction visible as [|v visible IH]; intros Hnd s i r Hi Hr; [contradiction |].
  inversion Hnd as [|? ? Hnotin Hnd']; subst. cbn [fold_left].
  destruct (decide (v = i)) as [-> | Hne].
  - rewrite run_lookup_out by exact Hnotin. now apply step_lookup_same.
  - apply (IH Hnd'); [destruct Hi as [Hi | Hi]; [contradiction | exact Hi] |].
    now rewrite step_lookup_other.
Qed.

Lemma run_acc_out (visible : list nat) (k : string) :
  forall s,
    (forall v r, In v visible -> dataOf s type !! v = Some r -> rowKeyOf r <> k) ->
    acc (fold_left (fun s i => step i s) visible s) k = acc s k.
Proof.
  induction visible as [|v visible IH]; intros s H; [reflexivity |].
  cbn [fold_left]. rewrite IH.
  - apply step_acc_other. intros r. apply H. now left.
  - intros v' r' Hv' Hr'.
    destruct (decide (v = v')) as [<- | Hne].
    + destruct (dataOf s type !! v) as [r|] eqn:E.
      * rewrite (step_lookup_same v s r E) in Hr'. injection Hr' as <-.
        rewrite Hkey. apply (H v r); [now left | exact E].
      * rewrite (Hnone v s E), E in Hr'. discriminate.
    + rewrite step_lookup_other in Hr' by exact Hne.
      apply (H v' r'); [now right | exact Hr'].
Qed.

Lemma run_acc_in (visible : list nat) :
  NoDup visible ->
  forall s i r,
    NoDup (map rowKeyOf (dataOf s type)) ->
    In i visible -> dataOf s type !! i = Some r ->
    acc (fold_left (fun s i => step i s) visible s) (rowKeyOf r) = Some (val r).
Proof.
  induction visible as [|v visible IH]; intros Hnd s i r Hk Hi Hr; [contradiction |].
  inversion Hnd as [|? ? Hnotin Hnd']; subst. cbn [fold_left].
  destruct (decide (v = i)) as [-> | Hne].
  - rewrite run_acc_out.
    + rewrite (Hacc i s r _ Hr). now rewrite decide_True by reflexivity.
    + intros v' r' Hv' Hr' Heq.
      assert (Hne : i <> v') by (intros ->; contradiction).
      rewrite step_lookup_other in Hr' by exact Hne.
      apply Hne. symmetry. now apply (keys_inj _ Hk v' i r' r).
  - apply (IH Hnd' (step v s) i r).
    + now rewrite step_keeps_keys.
    + destruct Hi as [Hi | Hi]; [contradiction | exact Hi].
    + now rewrite step_lookup_other.
Qed.

End Steps.

(** The two steps: a visible row under the header check box, and under the
    keyword chips. *)

Lemma toggleDesired_none (c : bool) (i : nat) (s : State) :
  dataOf s type !! i = None -> toggleDesired type i c s = s.
Proof. intros E. unfold toggleDesired. unfold Row in *. now rewrite E. Qed.

Lemma autoDesireRow_none (kws : list string) (i : nat) (s : State) :
  dataOf s type !! i = None -> autoDesireRow type kws i s = s.
Proof. intros E. unfold autoDesireRow. unfold Row in *. now rewrite E. Qed.

Lemma autoDesireRow_matched (kws : list string) (i : nat) (st : State) (row : Row)
    (k : string) :
  dataOf st type !! i = Some row ->
  keywordMatchedAt (autoDesireRow type kws i st) type k
  = if decide (rowKeyOf row = k)
    then Some (Obj.toStr (keywordValue kws row))
    else keywordMatchedAt st type k.
Proof.
  intros E. unfold autoDesireRow. unfold Row in *. rewrite E.
  unfold keywordMatchedAt. cbn [keywordMatched]. rewrite lookup_insert_eq. cbn.
  apply lookup_insert.
Qed.

Lemma find_first {A} (p : A -> bool) (l : list A) :
  match find p l with
  | Some x => exists pre post,
                l = (pre ++ x :: post)%list /\ p x = true /\
                Forall (fun y => p y = false) pre
  | None => Forall (fun y => p y = false) l
  end.
Proof.
  induction l as [|a l IH]; [constructor |].
  cbn [find]. destruct (p a) eqn:E.
  - exists [], l. repeat split; [exact E | constructor].
  - destruct (find p l) as [x|].
    + destruct IH as (pre & post & -> & Hx & Hpre).
      exists (a :: pre), post. repeat split; [exact Hx | now constructor].
    + now constructor.
Qed.

Lemma rowMatches_empty (row : Row) : rowMatches "" row = false.
Proof.
  unfold rowMatches. induction (map CsvDownload.valueText (Obj.values row));
    [reflexivity | exact IHl].
Qed.

(** The keyword that the loop records for a row: the first term, in the
    order of the terms, whose matcher hits a property value of the row; the
    value that the row had when no term does. *)
Lemma keywordValue_cases (kws : list string) (row : Row) :
  (exists pre k post,
     kws = (pre ++ k :: post)%list /\
     Forall (fun k' => rowMatches k' row = false) pre /\
     rowMatches k row = true /\ keywordValue kws row = VStr k)
  \/ (Forall (fun k' => rowMatches k' row = false) kws /\
      keywordValue kws row = default (VStr "") (Obj.get row "keyword_matched")).
Proof.
  unfold keywordValue, matchedKeyword. cbv zeta.
  pose proof (find_first (fun keyword => rowMatches keyword row) kws) as H.
  destruct (find _ kws) as [k|].
  - left. destruct H as (pre & post & -> & Hk & Hpre).
    exists pre, k, post. repeat split; try assumption.
    destruct (JS.isEmpty k) eqn:E; [| reflexivity].
    apply isEmpty_true in E. subst k. rewrite rowMatches_empty in Hk. discriminate.
  - right. split; [exact H |]. cbn. now destruct (Obj.get row "keyword_matched").
Qed.

(** [autoDesireVisible] checks the visible rows and no others.  For a table
    that reports each visible index once and rows with pairwise different
    keys: a visible row becomes desired, in the row and in the store, and
    its [keyword_matched], in the row and in the store, is the first term
    that matches one of its property values, or what it was when no term
    matches; its other columns stay.  A row that is not visible stays as it
    is, with what the store holds for it. *)
Theorem autoDesire_checks_visible_rows
    (kws : list string) (st : State) (visible : list nat) :
  searchApplied type st = Some visible ->
  NoDup visible ->
  NoDup (map rowKeyOf (dataOf st type)) ->
  let st' := autoDesireVisible searchApplied type kws st in
  forall i row,
    dataOf st type !! i = Some row ->
    (In i visible ->
     exists row' kw,
       dataOf st' type !! i = Some row' /\
       Obj.get row' "desired" = Some (VBool true) /\
       Obj.get row' "keyword_matched" = Some kw /\
       (forall col, col <> "desired" -> col <> "keyword_matched" ->
                    Obj.get row' col = Obj.get row col) /\
       desiredAt st' type (rowKeyOf row) = Some true /\
       keywordMatchedAt st' type (rowKeyOf row) = Some (Obj.toStr kw) /\
       ((exists pre k post,
           kws = (pre ++ k :: post)%list /\
           Forall (fun k' => rowMatches k' row = false) pre /\
           rowMatches k row = true /\ kw = VStr k)
        \/ (Forall (fun k' => rowMatches k' row = false) kws /\
            kw = default (VStr "") (Obj.get row "keyword_matched")))) /\
    (~ In i visible ->
     dataOf st' type !! i = Some row /\
     desiredAt st' type (rowKeyOf row) = desiredAt st type (rowKeyOf row) /\
     keywordMatchedAt st' type (rowKeyOf row)
     = keywordMatchedAt st type (rowKeyOf row)).
Proof.
  intros Hvis Hnd Hkeys st' i row Hrow.
  subst st'. unfold autoDesireVisible. rewrite Hvis.
  set (step := fun i s => autoDesireRow type kws i s).
  change (fold_left (fun s rowIdx => autoDesireRow type kws rowIdx s) visible st)
    with (fold_left (fun s i => step i s) visible st).
  assert (Hnone : forall i s, dataOf s type !! i = None -> step i s = s)
    by (intros; now apply autoDesireRow_none).
  assert (Hdata : forall i s r, dataOf s type !! i = Some r ->
                    dataOf (step i s) type = <[i := markedRow kws r]> (dataOf s type))
    by (intros; now apply autoDesireRow_data).
  assert (Hkey : forall r, rowKeyOf (markedRow kws r) = rowKeyOf r)
    by (intros; apply markedRow_key).
  assert (Hd : forall i s r k, dataOf s type !! i = Some r ->
                 desiredAt (step i s) type k
                 = if decide (rowKeyOf r = k) then Some true else desiredAt s type k)
    by (intros; now apply autoDesireRow_store).
  assert (Hm : forall i s r k, dataOf s type !! i = Some r ->
                 keywordMatchedAt (step i s) type k
                 = if decide (rowKeyOf r = k)
                   then Some (Obj.toStr (keywordValue kws r))
                   else keywordMatchedAt s type k)
    by (intros; now apply autoDesireRow_matched).
  split.
  - intros Hi. exists (markedRow kws row), (keywordValue kws row).
    split; [| split; [| split; [| split; [| split; [| split]]]]].
    + now apply (run_lookup_in step (markedRow kws) Hnone Hdata visible Hnd).
    + unfold markedRow. rewrite get_set_ne by discriminate. apply get_set_eq.
    + unfold markedRow. apply get_set_eq.
    + intros col H1 H2. unfold markedRow.
      now rewrite !get_set_ne by congruence.
    + now apply (run_acc_in step (markedRow kws)
                   (fun s k => desiredAt s type k) (fun _ => true)
                   Hnone Hdata Hd Hkey visible Hnd st i row).
    + now apply (run_acc_in step (markedRow kws)
                   (fun s k => keywordMatchedAt s type k)
                   (fun r => Obj.toStr (keywordValue kws r))
                   Hnone Hdata Hm Hkey visible Hnd st i row).
    + apply keywordValue_cases.
  - intros Hi.
    assert (Hout : forall v r, In v visible -> dataOf st type !! v = Some r ->
                               rowKeyOf r <> rowKeyOf row).
    { intros v r Hv Hr Heq. apply Hi.
      now rewrite <- (keys_inj _ Hkeys v i r row Hr Hrow Heq). }
    split; [| split].
    + now rewrite (run_lookup_out step (markedRow kws) Hnone Hdata visible).
    + now apply (run_acc_out step (markedRow kws)
                   (fun s k => desiredAt s type k) (fun _ => true)
                   Hnone Hdata Hd Hkey visible).
    + now apply (run_acc_out step (markedRow kws)
                   (fun s k => keywordMatchedAt s type k)
                   (fun r => Obj.toStr (keywordValue kws r))
                   Hnone Hdata Hm Hkey visible).
Qed.

(** The header check box writes the visible rows and no others.  For a
    table that reports each visible index once and rows with pairwise
    different keys: a visible row is desired as the box is checked, in the
    row and in the store, and keeps its other columns; a row that the filter
    hides stays as it is, with what the store holds for it. *)
Theorem select_all_writes_visible_rows_only
    (checked : bool) (st : State) (visible : list nat) :
  searchApplied type st = Some visible ->
  NoDup visible ->
  NoDup (map rowKeyOf (dataOf st type)) ->
  let st' := toggleSelectAllVisible searchApplied type checked st in
  forall i row,
    dataOf st type !! i = Some row ->
    (In i visible ->
     exists row',
       dataOf st' type !! i = Some row' /\
       Obj.get row' "desired" = Some (VBool checked) /\
       (forall col, col <> "desired" -> Obj.get row' col = Obj.get row col) /\
       desiredAt st' type (rowKeyOf row) = Some checked) /\
    (~ In i visible ->
     dataOf st' type !! i = Some row /\
     desiredAt st' type (rowKeyOf row) = desiredAt st type (rowKeyOf row)).
Proof.
  intros Hvis Hnd Hkeys st' i row Hrow.
  subst st'. unfold toggleSelectAllVisible. rewrite Hvis.
  set (step := fun i s => toggleDesired type i checked s).
  set (f := fun r : Row => Obj.set r "desired" (VBool checked)).
  change (fold_left (fun s rowIdx => toggleDesired type rowIdx checked s) visible st)
    with (fold_left (fun s i => step i s) visible st).
  assert (Hnone : forall i s, dataOf s type !! i = None -> step i s = s)
    by (intros; now apply toggleDesired_none).
  assert (Hdata : forall i s r, dataOf s type !! i = Some r ->
                    dataOf (step i s) type = <[i := f r]> (dataOf s type))
    by (intros; now apply toggleDesired_data).
  assert (Hkey : forall r, rowKeyOf (f r) = rowKeyOf r)
    by (intros; apply rowKeyOf_set; discriminate).
  assert (Hd : forall i s r k, dataOf s type !! i = Some r ->
                 desiredAt (step i s) type k
                 = if decide (rowKeyOf r = k) then Some checked
                   else desiredAt s type k)
    by (intros; now apply toggleDesired_store).
  split.
  - intros Hi. exists (f row). split; [| split; [| split]].
    + now apply (run_lookup_in step f Hnone Hdata visible Hnd).
    + apply get_set_eq.
    + intros col H1. unfold f. now rewrite get_set_ne by congruence.
    + now apply (run_acc_in step f (fun s k => desiredAt s type k)
                   (fun _ => checked) Hnone Hdata Hd Hkey visible Hnd st i row).
  - intros Hi.
    assert (Hout : forall v r, In v visible -> dataOf st type !! v = Some r ->
                               rowKeyOf r <> rowKeyOf row).
    { intros v r Hv Hr Heq. apply Hi.
      now rewrite <- (keys_inj _ Hkeys v i r row Hr Hrow Heq). }
    split.
    + now rewrite (run_lookup_out step f Hnone Hdata visible).
    + now apply (run_acc_out step f (fun s k => desiredAt s type k)
                   (fun _ => checked) Hnone Hdata Hd Hkey visible).
Qed.

End Bulk.

Lemma autoDesire_checks_visible_rows_witness :
  Marked.firstRowVisible "dx" Overlap.afterArrivalB = Some [0%nat] /\
  NoDup [0%nat] /\
  NoDup (map Selection.rowKeyOf (DictApp.dataOf Overlap.afterArrivalB "dx")) /\
  DictApp.dataOf Overlap.afterArrivalB "dx" !! 0%nat = Some Overlap.icd10Row /\
  DictApp.desiredAt
    (Selection.autoDesireVisible Marked.firstRowVisible "dx" ["c50"]
       Overlap.afterArrivalB)
    "dx" (Selection.rowKeyOf Overlap.icd10Row) = Some true.
Proof.
  assert (H1 : Marked.firstRowVisible "dx" Overlap.afterArrivalB = Some [0%nat])
    by reflexivity.
  assert (H2 : NoDup [0%nat]) by (repeat constructor; intros []).
  assert (H3 : NoDup (map Selection.rowKeyOf
                        (DictApp.dataOf Overlap.afterArrivalB "dx")))
    by (vm_compute; repeat constructor; intros []).
  assert (H4 : DictApp.dataOf Overlap.afterArrivalB "dx" !! 0%nat
               = Some Overlap.icd10Row) by (vm_compute; reflexivity).
  split; [exact H1 | split; [exact H2 | split; [exact H3 | split; [exact H4 |]]]].
  destruct (autoDesire_checks_visible_rows Marked.firstRowVisible "dx" ["c50"]
              Overlap.afterArrivalB [0%nat] H1 H2 H3 0%nat Overlap.icd10Row H4)
    as [Hin _].
  destruct (Hin (or_introl eq_refl)) as (row' & kw & _ & _ & _ & _ & Hd & _).
  exact Hd.
Defined.

Lemma select_all_writes_visible_rows_only_witness :
  Marked.firstRowVisible "dx" Overlap.afterArrivalB = Some [0%nat] /\
  NoDup [0%nat] /\
  NoDup (map Selection.rowKeyOf (DictApp.dataOf Overlap.afterArrivalB "dx")) /\
  DictApp.dataOf Overlap.afterArrivalB "dx" !! 0%nat = Some Overlap.icd10Row /\
  DictApp.desiredAt
    (Selection.toggleSelectAllVisible Marked.firstRowVisible "dx" true
       Overlap.afterArrivalB)
    "dx" (Selection.rowKeyOf Overlap.icd10Row) = Some true.
Proof.
  assert (H1 : Marked.firstRowVisible "dx" Overlap.afterArrivalB = Some [0%nat])
    by reflexivity.
  assert (H2 : NoDup [0%nat]) by (repeat constructor; intros []).
  assert (H3 : NoDup (map Selection.rowKeyOf
                        (DictApp.dataOf Overlap.afterArrivalB "dx")))
    by (vm_compute; repeat constructor; intros []).
  assert (H4 : DictApp.dataOf Overlap.afterArrivalB "dx" !! 0%nat
               = Some Overlap.icd10Row) by (vm_compute; reflexivity).
  split; [exact H1 | split; [exact H2 | split; [exact H3 | split; [exact H4 |]]]].
  destruct (select_all_writes_visible_rows_only Marked.firstRowVisible "dx" true
              Overlap.afterArrivalB [0%nat] H1 H2 H3 0%nat Overlap.icd10Row H4)
    as [Hin _].
  destruct (Hin (or_introl eq_refl)) as (row' & _ & _ & _ & Hd).
  exact Hd.
Defined.

(** ** app.js: unchecking all rows *)

Section Deselect.

Import DictApp Selection.

Variable type : string.

Lemma lookup_map_set (l : list Row) (i : nat) (row : Row) (g : Row -> Row) :
  l !! i = Some row -> map g l !! i = Some (g row).
Proof.
  revert i. induction l as [|a l IH]; intros [|i] H; try discriminate.
  - change (Some a = Some row) in H. injection H as ->. reflexivity.
  - now apply (IH i).
Qed.

(** [deselectAll] unchecks the rows that are loaded, and only those.  Every
    row of the type ends not desired, with its other columns as they were,
    and the store records false for the key of every such row.  What the
    store records for a key that no loaded row has, and the rows and the
    store of the other types, stay as they are. *)
Theorem deselectAll_unchecks_loaded_rows_only (st : State) :
  let st' := deselectAll type st in
  length (dataOf st' type) = length (dataOf st type) /\
  (forall i row,
     dataOf st type !! i = Some row ->
     exists row',
       dataOf st' type !! i = Some row' /\
       Obj.get row' "desired" = Some (VBool false) /\
       (forall col, col <> "desired" -> Obj.get row' col = Obj.get row col) /\
       desiredAt st' type (rowKeyOf row) = Some false) /\
  (forall key,
     ~ In key (map rowKeyOf (dataOf st type)) ->
     desiredAt st' type key = desiredAt st type key) /\
  (forall type',
     type' <> type ->
     dataOf st' type' = dataOf st type' /\
     forall key, desiredAt st' type' key = desiredAt st type' key).
Proof.
  cbv zeta. split; [| split; [| split]].
  - rewrite deselectAll_data. apply length_map.
  - intros i row Hrow.
    exists (Obj.set row "desired" (VBool false)). split; [| split; [| split]].
    + rewrite deselectAll_data.
      now apply (lookup_map_set _ i row
                   (fun row => Obj.set row "desired" (VBool false))).
    + apply get_set_eq.
    + intros col Hcol. now rewrite get_set_ne by congruence.
    + rewrite deselectAll_store. apply fold_false_In.
      apply in_map. now apply (lookup_In _ i).
  - intros key Hkey. rewrite deselectAll_store. now apply fold_false_notIn.
  - intros type' Hne. split.
    + unfold deselectAll, dataOf. cbn [data]. now rewrite lookup_insert_ne.
    + intros key. unfold deselectAll, desiredAt. cbn [desired].
      now rewrite lookup_insert_ne.
Qed.

End Deselect.

(** ** app.js: the keyword chips *)

Section Chips.

Import DictApp Selection.

Variable typedText : string -> string.
Variable searchApplied : string -> State -> option (list nat).
Variable type : string.

Lemma autoDesireRow_keywords (type' : string) (kws : list string) (i : nat)
    (s : State) :
  keywords (autoDesireRow type' kws i s) = keywords s.
Proof.
  unfold autoDesireRow. now destruct (dataOf s type' !! i).
Qed.

Lemma applyKeywordFilter_keywords (type' : string) (s : State) :
  keywords (applyKeywordFilter typedText searchApplied type' s) = keywords s.
Proof.
  unfold applyKeywordFilter.
  destruct (searchApplied type' s) as [visible|] eqn:E; [| reflexivity].
  cbv zeta. destruct (_ =? 0); [reflexivity |].
  destruct (_ >? 0); [| reflexivity].
  unfold autoDesireVisible. rewrite E.
  generalize (keywordsOf s type' ++ (if JS.isEmpty (typedText type') then []
                                    else [typedText type']))%list.
  intros kws. clear E. revert s.
  induction visible as [|v visible IH]; intros s; [reflexivity |].
  cbn [fold_left]. rewrite IH. apply autoDesireRow_keywords.
Qed.

Lemma hasKeyword_In (s : State) (type' kw : string) :
  hasKeyword s type' kw = true
  <-> In (JS.toLowerCase kw) (map JS.toLowerCase (keywordsOf s type')).
Proof.
  unfold hasKeyword. rewrite existsb_exists, in_map_iff.
  split; intros (k & H1 & H2); exists k.
  - apply String.eqb_eq in H2. now split.
  - split; [exact H2 | now apply String.eqb_eq].
Qed.

Lemma addKeyword_chips (type' keyword : string) (st : State) :
  keywordsOf (addKeyword typedText searchApplied type' keyword st) type
  = if JS.isEmpty (JS.trim keyword) || hasKeyword st type' (JS.trim keyword)
       || negb (bool_decide (type' = type))
    then keywordsOf st type
    else (keywordsOf st type ++ [JS.trim keyword])%list.
Proof.
  unfold addKeyword. cbv zeta.
  destruct (JS.isEmpty (JS.trim keyword)); [reflexivity |].
  destruct (hasKeyword st type' (JS.trim keyword)); [reflexivity |].
  cbn [orb]. unfold keywordsOf at 1.
  rewrite applyKeywordFilter_keywords. unfold pushKeyword. cbn [keywords].
  destruct (bool_decide_reflect (type' = type)) as [-> | Hne]; cbn [negb].
  - now rewrite lookup_insert_eq.
  - now rewrite lookup_insert_ne.
Qed.

Lemma remove_at_In {A} (l : list A) (i : nat) (x : A) :
  In x (take i l ++ drop (S i) l) -> In x l.
Proof.
  revert i. induction l as [|a l IH]; intros [|i] H; cbn in H;
    try contradiction.
  - now right.
  - destruct H as [H | H]; [now left | right; now apply (IH i)].
Qed.

Lemma remove_at_chipsOk (l : list string) (i : nat) :
  chipsOk l -> chipsOk (take i l ++ drop (S i) l).
Proof.
  unfold chipsOk. revert i.
  induction l as [|a l IH]; intros i [Hnd Hne]; [now destruct i |].
  inversion Hnd as [|? ? Hnotin Hnd']; subst.
  inversion Hne as [|? ? Ha Hne']; subst.
  destruct i as [|i]; [now split |].
  destruct (IH i (conj Hnd' Hne')) as [H1 H2].
  change (take (S i) (a :: l) ++ drop (S (S i)) (a :: l))%list
    with (a :: (take i l ++ drop (S i) l))%list.
  split; [| now constructor].
  cbn [map]. constructor; [| exact H1].
  intros Hin. apply Hnotin. apply in_map_iff in Hin.
  destruct Hin as (k & Hk & Hin). apply in_map_iff. exists k.
  split; [exact Hk | now apply (remove_at_In l i)].
Qed.

Lemma push_chipsOk (l : list string) (kw : string) :
  chipsOk l -> kw <> "" -> ~ In (JS.toLowerCase kw) (map JS.toLowerCase l) ->
  chipsOk (l ++ [kw]).
Proof.
  intros [Hnd Hne] Hkw Hnew. split.
  - rewrite map_app. apply List.NoDup_app; [exact Hnd | |].
    + repeat constructor. intros [].
    + intros a Ha [<- | []]. contradiction.
  - apply Forall_app. split; [exact Hne | now repeat constructor].
Qed.

Lemma addKeyword_chipsOk (keyword : string) (st : State) :
  chipsOk (keywordsOf st type) ->
  chipsOk (keywordsOf (addKeyword typedText searchApplied type keyword st) type).
Proof.
  intros H. rewrite addKeyword_chips.
  destruct (JS.isEmpty (JS.trim keyword)) eqn:E; [exact H |].
  destruct (hasKeyword st type (JS.trim keyword)) eqn:Eh; [exact H |].
  rewrite bool_decide_eq_true_2 by reflexivity. cbn [orb negb].
  apply push_chipsOk; [exact H | now apply isEmpty_false |].
  intros Hin. apply hasKeyword_In in Hin. congruence.
Qed.

Lemma addKeywords_chipsOk (terms : list string) :
  forall st,
    chipsOk (keywordsOf st type) ->
    chipsOk (keywordsOf (addKeywords typedText searchApplied type terms st) type).
Proof.
  unfold addKeywords.
  induction terms as [|t terms IH]; intros st Hok; [exact Hok |].
  cbn [fold_left]. apply IH. now apply addKeyword_chipsOk.
Qed.

(** The chips of a type stay in order: none is empty and no two are equal
    up to case.  [addKeyword] appends the trimmed term as the last chip, and
    does nothing for a term that trims to nothing or that equals a chip up
    to case; a pasted list is added term by term; [removeKeyword] takes out
    the chip at the index and leaves the others in their order;
    [clearKeywords] leaves none.  None of them touches the chips of another
    type. *)
Theorem keyword_chips_stay_distinct (st : State) :
  chipsOk (keywordsOf st type) ->
  (forall keyword,
     let kw := JS.trim keyword in
     let st' := addKeyword typedText searchApplied type keyword st in
     chipsOk (keywordsOf st' type) /\
     (kw = "" \/ In (JS.toLowerCase kw) (map JS.toLowerCase (keywordsOf st type)) ->
      keywordsOf st' type = keywordsOf st type) /\
     (kw <> "" -> ~ In (JS.toLowerCase kw) (map JS.toLowerCase (keywordsOf st type)) ->
      keywordsOf st' type = (keywordsOf st type ++ [kw])%list)) /\
  (forall terms,
     chipsOk (keywordsOf (addKeywords typedText searchApplied type terms st) type)) /\
  (forall index,
     let st' := removeKeyword typedText searchApplied type index st in
     chipsOk (keywordsOf st' type) /\
     keywordsOf st' type
     = (take index (keywordsOf st type) ++ drop (S index) (keywordsOf st type))%list) /\
  keywordsOf (clearKeywords type st) type = [] /\
  (forall type', type' <> type ->
     (forall keyword,
        keywordsOf (addKeyword typedText searchApplied type' keyword st) type
        = keywordsOf st type) /\
     (forall index,
        keywordsOf (removeKeyword typedText searchApplied type' index st) type
        = keywordsOf st type) /\
     keywordsOf (clearKeywords type' st) type = keywordsOf st type).
Proof.
  intros Hok.
  assert (Hrem : forall type' index,
             keywordsOf (removeKeyword typedText searchApplied type' index st) type
             = if bool_decide (type' = type)
               then (take index (keywordsOf st type)
                     ++ drop (S index) (keywordsOf st type))%list
               else keywordsOf st type).
  { intros type' index. unfold removeKeyword, keywordsOf at 1.
    rewrite applyKeywordFilter_keywords. cbn [keywords].
    destruct (bool_decide_reflect (type' = type)) as [-> | Hne].
    - now rewrite lookup_insert_eq.
    - now rewrite lookup_insert_ne. }
  split; [| split; [| split; [| split]]].
  - intros keyword. cbv zeta. split; [now apply addKeyword_chipsOk |].
    rewrite addKeyword_chips, bool_decide_eq_true_2 by reflexivity.
    cbn [negb]. rewrite orb_false_r. split.
    + intros [H | H].
      * apply isEmpty_true in H. now rewrite H.
      * apply hasKeyword_In in H. rewrite H. now rewrite orb_true_r.
    + intros H1 H2. apply isEmpty_false in H1. rewrite H1. cbn [orb].
      destruct (hasKeyword st type (JS.trim keyword)) eqn:E; [| reflexivity].
      apply hasKeyword_In in E. contradiction.
  - intros terms. now apply addKeywords_chipsOk.
  - intros index. cbv zeta. rewrite Hrem, bool_decide_eq_true_2 by reflexivity.
    split; [now apply remove_at_chipsOk | reflexivity].
  - unfold clearKeywords, keywordsOf. cbn [keywords]. now rewrite lookup_insert_eq.
  - intros type' Hne. split; [| split].
    + intros keyword. rewrite addKeyword_chips.
      rewrite bool_decide_eq_false_2 by exact Hne. cbn [negb].
      now rewrite orb_true_r.
    + intros index. now rewrite Hrem, bool_decide_eq_false_2 by exact Hne.
    + unfold clearKeywords, keywordsOf. cbn [keywords].
      now rewrite lookup_insert_ne.
Qed.

End Chips.

Lemma keyword_chips_stay_distinct_witness :
  Selection.chipsOk (DictApp.keywordsOf Marked.withChip "dx") /\
  Selection.chipsOk
    (DictApp.keywordsOf
       (Selection.addKeyword Marked.noText Marked.noTable "dx" " Ovar* "
          Marked.withChip) "dx").
Proof.
  assert (H : Selection.chipsOk (DictApp.keywordsOf Marked.withChip "dx")).
  { split; vm_compute; repeat constructor; [intros [] | discriminate]. }
  split; [exact H |].
  destruct (keyword_chips_stay_distinct Marked.noText Marked.noTable "dx"
              Marked.withChip H) as (Hadd & _).
  destruct (Hadd " Ovar* ") as (Hok & _).
  exact Hok.
Defined.

(** ** The match count of the manifest and the matcher of the chips *)

Section Counting.

Import CsvDownload DictApp Selection.

Lemma lower_isSpace (c : ascii) : JS.isSpace (JS.lowerChar c) = JS.isSpace c.
Proof. destruct c as [[] [] [] [] [] [] [] []]; reflexivity. Qed.

Lemma toLowerCase_trimStart (s : string) :
  JS.toLowerCase (JS.trimStart s) = JS.trimStart (JS.toLowerCase s).
Proof.
  induction s as [|c s IH]; [reflexivity |].
  cbn [JS.trimStart JS.toLowerCase]. rewrite lower_isSpace.
  now destruct (JS.isSpace c).
Qed.

Lemma toLowerCase_trimEnd (s : string) :
  JS.toLowerCase (JS.trimEnd s) = JS.trimEnd (JS.toLowerCase s).
Proof.
  induction s as [|c s IH]; [reflexivity |].
  cbn [JS.trimEnd JS.toLowerCase]. rewrite <- IH, lower_isSpace.
  destruct (JS.trimEnd s); [now destruct (JS.isSpace c) | reflexivity].
Qed.

Lemma toLowerCase_trim (s : string) :
  JS.toLowerCase (JS.trim s) = JS.trim (JS.toLowerCase s).
Proof.
  unfold JS.trim. now rewrite toLowerCase_trimEnd, toLowerCase_trimStart.
Qed.

Lemma rowMatches_rowHit (kw : string) (row : Row) :
  JS.trim kw = kw ->
  rowMatches kw row = negb (JS.isEmpty (coreOf kw)) && rowHit (coreOf kw) row.
Proof.
  intros Htrim.
  assert (Hcore : JS.stripStars (JS.trim (JS.toLowerCase kw)) = coreOf kw).
  { unfold coreOf. now rewrite <- toLowerCase_trim, Htrim. }
  unfold rowMatches. rewrite rowHit_includes. unfold Obj.values.
  induction row as [|[k v] row IH].
  - cbn. now rewrite andb_false_r.
  - cbn [map snd existsb]. rewrite IH, buildMatcher_includes. cbv zeta.
    rewrite Hcore. now destruct (JS.isEmpty (coreOf kw)).
Qed.

Lemma filter_length_le {A} (p q : A -> bool) (l : list A) :
  (forall x, p x = true -> q x = true) ->
  (length (filter p l) <= length (filter q l))%nat.
Proof.
  intros H. induction l as [|a l IH]; [constructor |].
  cbn [filter]. destruct (p a) eqn:Ep.
  - rewrite (H a Ep). cbn [length]. lia.
  - destruct (q a); cbn [length]; lia.
Qed.

(** The match count that the manifest gives for a chip is the number of
    exported rows that the matcher of the chip hits, in any property; so it
    is at least the number of rows for which [autoDesireVisible] records
    the chip as the keyword that matched.  For a chip without white space
    around it, as [addKeyword] makes them. *)
Theorem match_count_is_chip_matcher_count (kw : string) (data : list Row) :
  JS.trim kw = kw ->
  countMatches data kw = length (filter (rowMatches kw) data) /\
  (forall kws,
     kw <> "" ->
     (length (filter (fun row => String.eqb (matchedKeyword kws row) kw) data)
      <= countMatches data kw)%nat).
Proof.
  intros Htrim.
  assert (Hcount : countMatches data kw = length (filter (rowMatches kw) data)).
  { unfold countMatches. cbv zeta.
    destruct (JS.isEmpty (coreOf kw)) eqn:E.
    - induction data as [|row data IH]; [reflexivity |].
      cbn [filter]. rewrite (rowMatches_rowHit kw row Htrim), E. exact IH.
    - f_equal. induction data as [|row data IH]; [reflexivity |].
      cbn [filter]. rewrite (rowMatches_rowHit kw row Htrim), E. cbn [negb andb].
      now rewrite IH. }
  split; [exact Hcount |].
  intros kws Hne. rewrite Hcount. apply filter_length_le.
  intros row H. apply String.eqb_eq in H. unfold matchedKeyword in H.
  pose proof (find_first (fun keyword => rowMatches keyword row) kws) as Hf.
  destruct (find _ kws) as [k|].
  - subst k. now destruct Hf as (_ & _ & _ & Hk & _).
  - congruence.
Qed.

End Counting.

Lemma match_count_is_chip_matcher_count_witness :
  JS.trim "c50" = "c50" /\
  CsvDownload.countMatches [Overlap.icd10Row; Overlap.icd9Row] "c50"
  = length (filter (Selection.rowMatches "c50")
              [Overlap.icd10Row; Overlap.icd9Row]).
Proof.
  assert (H : JS.trim "c50" = "c50") by reflexivity.
  split; [exact H |].
  apply (match_count_is_chip_matcher_count "c50"
           [Overlap.icd10Row; Overlap.icd9Row] H).
Defined.

(** ** app.js: what a download exports after the keyword filter *)

Section FilteredExport.

Import DictApp Selection.

Variable typedText : string -> string.
Variable searchApplied : string -> State -> option (list nat).
Variable type : string.

Lemma autoDesire_fold_length (kws : list string) (visible : list nat) :
  forall s i,
    dataOf s type !! i = None ->
    dataOf (fold_left (fun s i => autoDesireRow type kws i s) visible s) type !! i
    = None.
Proof.
  induction visible as [|v visible IH]; intros s i H; [exact H |].
  cbn [fold_left]. apply IH.
  destruct (decide (v = i)) as [-> | Hne].
  - now rewrite (autoDesireRow_none type kws i s H).
  - destruct (dataOf s type !! v) as [r|] eqn:E.
    + rewrite (autoDesireRow_data type kws v s r E).
      now rewrite list_lookup_insert_ne.
    + now rewrite (autoDesireRow_none type kws v s E).
Qed.

(** In the state that [applyKeywordFilter] leaves, for a type with a chip,
    the rows that [downloadCsv] collects, for a table that still shows the
    rows that it showed to the filter, each once, are all desired. *)
Lemma filter_result_is_all_desired (st : State) (visible : list nat) :
  let st' := applyKeywordFilter typedText searchApplied type st in
  searchApplied type st = Some visible ->
  searchApplied type st' = Some visible ->
  NoDup visible ->
  keywordsOf st type <> [] ->
  forall row,
    In row (downloadCsv_matchingData searchApplied type st') ->
    Obj.get row "desired" = Some (VBool true) /\
    CsvDownload.field row "desired" = "TRUE".
Proof.
  cbv zeta. intros Hvis Hvis' Hnd Hkw row Hrow.
  assert (Hd : Obj.get row "desired" = Some (VBool true)).
  { unfold downloadCsv_matchingData in Hrow. rewrite Hvis' in Hrow.
    assert (Hk : keywordsOf (applyKeywordFilter typedText searchApplied type st) type
                 = keywordsOf st type).
    { unfold keywordsOf. now rewrite applyKeywordFilter_keywords. }
    rewrite Hk in Hrow.
    assert (Hlen : (Z.of_nat (length (keywordsOf st type)) >? 0) = true).
    { destruct (keywordsOf st type); [congruence | reflexivity]. }
    rewrite Hlen in Hrow.
    apply in_flat_map in Hrow. destruct Hrow as (idx & Hidx & Hrow).
    revert Hrow. unfold applyKeywordFilter. rewrite Hvis. cbv zeta.
    assert (Hall : (Z.of_nat (length (keywordsOf st type
                                      ++ (if JS.isEmpty (typedText type) then []
                                          else [typedText type]))%list) =? 0)
                   = false).
    { destruct (keywordsOf st type); [congruence | reflexivity]. }
    rewrite Hall, Hlen. unfold autoDesireVisible. rewrite Hvis.
    set (kws := (keywordsOf st type ++ _)%list).
    destruct (dataOf st type !! idx) as [r|] eqn:E.
    - rewrite (run_lookup_in type (fun i s => autoDesireRow type kws i s)
                 (markedRow kws)
                 (fun i s H => autoDesireRow_none type kws i s H)
                 (fun i s r H => autoDesireRow_data type kws i s r H)
                 visible Hnd st idx r Hidx E).
      intros [<- | []]. unfold markedRow.
      rewrite get_set_ne by discriminate. apply get_set_eq.
    - rewrite (autoDesire_fold_length kws visible st idx E). intros []. }
  split; [exact Hd |].
  unfold CsvDownload.field, CsvDownload.fieldText. cbv zeta.
  rewrite String.eqb_refl, Hd. reflexivity.
Qed.

Lemma toggleDesired_keywords (type' : string) (i : nat) (c : bool) (s : State) :
  keywords (toggleDesired type' i c s) = keywords s.
Proof. unfold toggleDesired. now destruct (dataOf s type' !! i). Qed.

(** What a download exports after the keyword filter has run.  In the state
    that [applyKeywordFilter] leaves, for a type with a chip and a table
    that still shows the rows that it showed to the filter, each once,
    every row that [downloadCsv] collects is desired and is written with
    TRUE in the desired column.  The filter does not fix that: when the
    user then sets or clears the check box of a visible row, the download
    collects that row with the flag as set, and writes FALSE for a row that
    was unchecked. *)
Theorem export_after_filter_follows_check_boxes (st : State) (visible : list nat) :
  let st' := applyKeywordFilter typedText searchApplied type st in
  searchApplied type st = Some visible ->
  searchApplied type st' = Some visible ->
  NoDup visible ->
  keywordsOf st type <> [] ->
  (forall row,
     In row (downloadCsv_matchingData searchApplied type st') ->
     Obj.get row "desired" = Some (VBool true) /\
     CsvDownload.field row "desired" = "TRUE") /\
  (forall i row checked,
     In i visible ->
     dataOf st' type !! i = Some row ->
     let st'' := toggleDesired type i checked st' in
     searchApplied type st'' = Some visible ->
     let row' := Obj.set row "desired" (VBool checked) in
     In row' (downloadCsv_matchingData searchApplied type st'') /\
     Obj.get row' "desired" = Some (VBool checked) /\
     CsvDownload.field row' "desired" = (if checked then "TRUE" else "FALSE")).
Proof.
  intros st' Hvis Hvis' Hnd Hkw. split.
  - now apply (filter_result_is_all_desired st visible).
  - intros i row checked Hi Hrow st'' Hvis'' row'.
    assert (Hget : Obj.get row' "desired" = Some (VBool checked))
      by apply get_set_eq.
    split; [| split; [exact Hget |]].
    + unfold downloadCsv_matchingData. rewrite Hvis''.
      assert (Hk : keywordsOf st'' type = keywordsOf st type).
      { unfold keywordsOf, st'', st'.
        now rewrite toggleDesired_keywords, applyKeywordFilter_keywords. }
      rewrite Hk.
      assert (Hlen : (Z.of_nat (length (keywordsOf st type)) >? 0) = true).
      { destruct (keywordsOf st type); [congruence | reflexivity]. }
      rewrite Hlen. apply in_flat_map. exists i. split; [exact Hi |].
      unfold st''. rewrite (toggleDesired_data type i checked st' row Hrow).
      rewrite list_lookup_insert_eq by now apply (lookup_lt_Some _ _ row).
      now left.
    + rewrite field_desired, Hget. now destruct checked.
Qed.

End FilteredExport.

Lemma export_after_filter_follows_check_boxes_witness :
  Marked.firstRowVisible "dx" Marked.chipOnData = Some [0%nat] /\
  NoDup [0%nat] /\
  DictApp.keywordsOf Marked.chipOnData "dx" <> [] /\
  In Marked.taggedRow
     (Selection.downloadCsv_matchingData Marked.firstRowVisible "dx"
        (Selection.applyKeywordFilter Marked.noText Marked.firstRowVisible "dx"
           Marked.chipOnData)) /\
  CsvDownload.field Marked.taggedRow "desired" = "TRUE" /\
  CsvDownload.field (Obj.set Marked.taggedRow "desired" (VBool false)) "desired"
  = "FALSE".
Proof.
  assert (H1 : Marked.firstRowVisible "dx" Marked.chipOnData = Some [0%nat])
    by reflexivity.
  assert (H2 : NoDup [0%nat]) by (repeat constructor; intros []).
  assert (H3 : DictApp.keywordsOf Marked.chipOnData "dx" <> [])
    by (vm_compute; discriminate).
  assert (H4 : In Marked.taggedRow
                 (Selection.downloadCsv_matchingData Marked.firstRowVisible "dx"
                    (Selection.applyKeywordFilter Marked.noText
                       Marked.firstRowVisible "dx" Marked.chipOnData)))
    by (vm_compute; now left).
  assert (H5 : DictApp.dataOf
                 (Selection.applyKeywordFilter Marked.noText
                    Marked.firstRowVisible "dx" Marked.chipOnData) "dx" !! 0%nat
               = Some Marked.taggedRow) by (vm_compute; reflexivity).
  split; [exact H1 | split; [exact H2 | split; [exact H3 | split; [exact H4 |]]]].
  destruct (export_after_filter_follows_check_boxes Marked.noText
              Marked.firstRowVisible "dx" Marked.chipOnData [0%nat]
              H1 eq_refl H2 H3) as [Hall Htoggle].
  split.
  - apply (Hall Marked.taggedRow H4).
  - apply (Htoggle 0%nat Marked.taggedRow false (or_introl eq_refl) H5 eq_refl).
Defined.

(** ** search.js: the first keyword wins *)

Section Search.

Import SearchEngine.

Variables (data : list Row) (searchColumns : list string).

Lemma mapGet_app (m : Matches) (j idx : nat) (x : string * string) :
  mapGet (m ++ [(j, x)])%list idx
  = match mapGet m idx with
    | Some y => Some y
    | None => if Nat.eqb j idx then Some x else None
    end.
Proof.
  induction m as [|[k y] m IH]; [reflexivity |].
  cbn [app mapGet]. now destruct (Nat.eqb k idx).
Qed.

Lemma mapGet_None (m : Matches) (idx : nat) :
  mapGet m idx = None -> ~ In idx (map fst m).
Proof.
  induction m as [|[k y] m IH]; [tauto |].
  cbn [mapGet map fst]. destruct (Nat.eqb_spec k idx) as [-> | Hne];
    [discriminate |].
  intros H [Hk | Hin]; [contradiction | now apply IH].
Qed.

Lemma scanRows_get (kw : string) (info : string * string) (rows : list Row) :
  forall idx0 m j,
    mapGet (scanRows searchColumns kw info idx0 rows m) j
    = match mapGet m j with
      | Some y => Some y
      | None =>
          if (idx0 <=? j)%nat
          then match rows !! (j - idx0)%nat with
               | Some row => if hits searchColumns kw row then Some info else None
               | None => None
               end
          else None
      end.
Proof.
  induction rows as [|row rows IH]; intros idx0 m j.
  - cbn [scanRows]. destruct (mapGet m j); [reflexivity |].
    now destruct (idx0 <=? j)%nat.
  - cbn [scanRows]. rewrite IH. unfold mapHas.
    destruct (Nat.eq_dec j idx0) as [-> | Hne].
    + rewrite Nat.sub_diag, Nat.leb_refl.
      assert (Hlt : (S idx0 <=? idx0)%nat = false) by (apply Nat.leb_gt; lia).
      rewrite Hlt.
      change ((row :: rows) !! 0%nat) with (Some row).
      destruct (mapGet m idx0) as [y|] eqn:E; [now rewrite E |].
      destruct (hits searchColumns kw row).
      * now rewrite mapGet_app, E, Nat.eqb_refl.
      * now rewrite E.
    + assert (Hsame : mapGet (if match mapGet m idx0 with
                                   | Some _ => true
                                   | None => false
                                   end
                                then m
                                else if hits searchColumns kw row
                                     then (m ++ [(idx0, info)])%list else m) j
                      = mapGet m j).
      { destruct (mapGet m idx0); [reflexivity |].
        destruct (hits searchColumns kw row); [| reflexivity].
        rewrite mapGet_app.
        destruct (mapGet m j); [reflexivity |].
        destruct (Nat.eqb_spec idx0 j); [congruence | reflexivity]. }
      rewrite Hsame. destruct (mapGet m j); [reflexivity |].
      destruct (Nat.leb_spec (S idx0) j) as [Hle | Hgt].
      * assert (Hle' : (idx0 <=? j)%nat = true) by (apply Nat.leb_le; lia).
        rewrite Hle'. now replace (j - idx0)%nat with (S (j - S idx0)) by lia.
      * assert (Hle' : (idx0 <=? j)%nat = false) by (apply Nat.leb_gt; lia).
        now rewrite Hle'.
Qed.

Lemma scanRows_NoDup (kw : string) (info : string * string) (rows : list Row) :
  forall idx0 m,
    NoDup (map fst m) ->
    NoDup (map fst (scanRows searchColumns kw info idx0 rows m)).
Proof.
  induction rows as [|row rows IH]; intros idx0 m H; [exact H |].
  cbn [scanRows]. apply IH. unfold mapHas.
  destruct (mapGet m idx0) eqn:E; [exact H |].
  destruct (hits searchColumns kw row); [| exact H].
  rewrite map_app. apply List.NoDup_app; [exact H | |].
  - repeat constructor. intros [].
  - intros a Ha [<- | []]. now apply (mapGet_None m idx0 E).
Qed.

Lemma multiKeywordMatch_get (keywords : list (string * string)) :
  forall m j,
    mapGet
      (fold_left
         (fun matches kc =>
            let kw := JS.trim (JS.toLowerCase (fst kc)) in
            if JS.isEmpty kw then matches
            else scanRows searchColumns kw (fst kc, snd kc) 0 data matches)
         keywords m) j
    = match mapGet m j with
      | Some y => Some y
      | None => match data !! j with
                | Some row => find (passes searchColumns row) keywords
                | None => None
                end
      end.
Proof.
  induction keywords as [|[k c] keywords IH]; intros m j.
  - cbn [fold_left find]. destruct (mapGet m j); [reflexivity |].
    now destruct (data !! j).
  - cbn [fold_left]. rewrite IH. cbv zeta. cbn [fst snd find].
    unfold passes at 2. cbn [fst].
    destruct (JS.isEmpty (JS.trim (JS.toLowerCase k))) eqn:E; cbn [negb andb].
    + reflexivity.
    + rewrite scanRows_get. destruct (mapGet m j); [reflexivity |].
      change (0 <=? j)%nat with true. cbv iota. rewrite Nat.sub_0_r.
      destruct (data !! j) as [row|]; [| reflexivity].
      now destruct (hits searchColumns (JS.trim (JS.toLowerCase k)) row).
Qed.

Lemma multiKeywordMatch_NoDup (keywords : list (string * string)) :
  forall m,
    NoDup (map fst m) ->
    NoDup (map fst
             (fold_left
                (fun matches kc =>
                   let kw := JS.trim (JS.toLowerCase (fst kc)) in
                   if JS.isEmpty kw then matches
                   else scanRows searchColumns kw (fst kc, snd kc) 0 data matches)
                keywords m)).
Proof.
  induction keywords as [|kc keywords IH]; intros m H; [exact H |].
  cbn [fold_left]. apply IH. cbv zeta.
  destruct (JS.isEmpty _); [exact H | now apply scanRows_NoDup].
Qed.

Lemma passes_likeMatch (row : Row) (kc : string * string) :
  In row data ->
  passes searchColumns row kc = true
  <-> In row (likeMatch data searchColumns (fst kc)).
Proof.
  intros Hrow. unfold passes, likeMatch. cbv zeta.
  destruct (JS.isEmpty (JS.trim (JS.toLowerCase (fst kc)))); cbn [negb andb].
  - split; [discriminate | intros []].
  - rewrite filter_In. tauto.
Qed.

(** In [multiKeywordMatch] the first keyword wins.  The map has at most one
    entry for a row index; the entry of a row is the first keyword object of
    the list whose keyword, trimmed and in lower case, is not empty and
    occurs in one of the search columns of the row; a row that no keyword
    matches, and an index without a row, have no entry.  So the rows with an
    entry are the rows that [likeMatch] returns for one keyword or another. *)
Theorem first_keyword_wins (keywords : list (string * string)) :
  let matches := multiKeywordMatch data searchColumns keywords in
  NoDup (map fst matches) /\
  (forall idx row,
     data !! idx = Some row ->
     mapGet matches idx = find (passes searchColumns row) keywords) /\
  (forall idx, data !! idx = None -> mapGet matches idx = None) /\
  (forall idx row,
     data !! idx = Some row ->
     (mapHas matches idx = true
      <-> exists kc, In kc keywords
                     /\ In row (likeMatch data searchColumns (fst kc)))).
Proof.
  intros matches. subst matches.
  assert (Hget : forall idx row,
             data !! idx = Some row ->
             mapGet (multiKeywordMatch data searchColumns keywords) idx
             = find (passes searchColumns row) keywords).
  { intros idx row Hrow. unfold multiKeywordMatch.
    pose proof (multiKeywordMatch_get keywords [] idx) as H.
    cbn [mapGet] in H. unfold Row in *. rewrite Hrow in H. exact H. }
  split; [| split; [| split]].
  - apply multiKeywordMatch_NoDup. constructor.
  - exact Hget.
  - intros idx Hnone. unfold multiKeywordMatch.
    pose proof (multiKeywordMatch_get keywords [] idx) as H.
    cbn [mapGet] in H. unfold Row in *. rewrite Hnone in H. exact H.
  - intros idx row Hrow. unfold mapHas. rewrite (Hget idx row Hrow).
    assert (Hin : In row data).
    { clear Hget. revert idx Hrow. induction data as [|a l IH]; intros [|i] H;
        try discriminate.
      - change (Some a = Some row) in H. injection H as ->. now left.
      - right. now apply (IH i). }
    split.
    + destruct (find _ keywords) as [kc|] eqn:E; [| discriminate].
      intros _. apply find_some in E. destruct E as [Hkc Hp].
      exists kc. split; [exact Hkc | now apply passes_likeMatch].
    + intros (kc & Hkc & Hl). apply (passes_likeMatch row kc Hin) in Hl.
      destruct (find _ keywords) eqn:E; [reflexivity |].
      rewrite (find_none _ _ E kc Hkc) in Hl. discriminate.
Qed.

End Search.

(** ** app.js: the columns of the table and the columns of the export *)

Section TableColumns.

Import CsvDownload Columns.

Lemma isDataColumn_dataCols (k : string) :
  isDataColumn k = negb (JS.startsWith k "_") && negb (reserved k).
Proof.
  unfold isDataColumn, reserved, Obj.arrIncludes. cbn [existsb].
  rewrite !(String.eqb_sym k). rewrite orb_false_r, !negb_orb.
  now rewrite !andb_assoc.
Qed.

Lemma scanKey_In (acc : list string) (k x : string) :
  In x (scanKey acc k)
  <-> In x acc \/ (x = k /\ isDataColumn k = true /\ JSObject.inherited k = false).
Proof.
  unfold scanKey. destruct (isDataColumn k) eqn:Ed.
  - destruct (JSObject.inherited k) eqn:Ei; cbn [orb].
    + intuition congruence.
    + destruct (Obj.arrIncludes acc k) eqn:Ea.
      * apply arrIncludes_In in Ea. intuition (subst; auto).
      * rewrite in_app_iff. cbn [In]. intuition (subst; auto).
  - intuition congruence.
Qed.

Lemma scanKey_NoDup (acc : list string) (k : string) :
  NoDup acc -> NoDup (scanKey acc k).
Proof.
  intros H. unfold scanKey. destruct (isDataColumn k); [| exact H].
  destruct (JSObject.inherited k); cbn [orb]; [exact H |].
  destruct (Obj.arrIncludes acc k) eqn:Ea; [exact H |].
  apply List.NoDup_app; [exact H | repeat constructor; intros [] |].
  intros a Ha [<- | []]. apply arrIncludes_In in Ha. congruence.
Qed.

Lemma scanRow_In (keys : list string) :
  forall acc x,
    In x (fold_left scanKey keys acc)
    <-> In x acc \/ (In x keys /\ isDataColumn x = true
                     /\ JSObject.inherited x = false).
Proof.
  induction keys as [|k keys IH]; intros acc x; cbn [fold_left In].
  - tauto.
  - rewrite IH, scanKey_In. intuition (subst; auto).
Qed.

Lemma scanRow_NoDup (keys : list string) :
  forall acc, NoDup acc -> NoDup (fold_left scanKey keys acc).
Proof.
  induction keys as [|k keys IH]; intros acc H; [exact H |].
  cbn [fold_left]. apply IH. now apply scanKey_NoDup.
Qed.

Lemma scanRow_old (keys : list string) :
  forall acc,
    (forall k, In k keys -> isDataColumn k = true ->
               JSObject.inherited k = false -> In k acc) ->
    fold_left scanKey keys acc = acc.
Proof.
  induction keys as [|k keys IH]; intros acc H; [reflexivity |].
  cbn [fold_left].
  assert (Hk : scanKey acc k = acc).
  { unfold scanKey. destruct (isDataColumn k) eqn:Ed; [| reflexivity].
    destruct (JSObject.inherited k) eqn:Ei; [reflexivity |]. cbn [orb].
    assert (Ha : Obj.arrIncludes acc k = true).
    { apply arrIncludes_In. apply H; [now left | exact Ed | exact Ei]. }
    now rewrite Ha. }
  rewrite Hk. apply IH. intros k' Hk'. apply H. now right.
Qed.

Lemma scanRow_fresh (keys : list string) :
  forall acc,
    NoDup keys ->
    (forall k, In k keys -> ~ In k acc) ->
    Forall (fun k => JSObject.inherited k = false) keys ->
    fold_left scanKey keys acc = (acc ++ filter isDataColumn keys)%list.
Proof.
  induction keys as [|k keys IH]; intros acc Hnd Hfresh Hinh.
  - cbn. now rewrite app_nil_r.
  - inversion Hnd as [|? ? Hnotin Hnd']; subst.
    inversion Hinh as [|? ? Hk Hinh']; subst.
    cbn [fold_left filter].
    assert (Ha : Obj.arrIncludes acc k = false).
    { destruct (Obj.arrIncludes acc k) eqn:E; [| reflexivity].
      apply arrIncludes_In in E. exfalso. apply (Hfresh k); [now left | exact E]. }
    unfold scanKey at 2. rewrite Hk, Ha. cbn [orb].
    destruct (isDataColumn k).
    + rewrite IH; [now rewrite <- app_assoc | exact Hnd' | | exact Hinh'].
      intros k' Hk' Hin. apply in_app_iff in Hin.
      destruct Hin as [Hin | [<- | []]]; [| contradiction].
      apply (Hfresh k'); [now right | exact Hin].
    + apply IH; [exact Hnd' | | exact Hinh'].
      intros k' Hk'. apply Hfresh. now right.
Qed.

Lemma detect_In (rows : list Row) :
  forall acc x,
    In x (fold_left scanRow rows acc)
    <-> In x acc \/ exists row, In row rows /\ In x (Obj.keys row)
                                /\ isDataColumn x = true
                                /\ JSObject.inherited x = false.
Proof.
  induction rows as [|row rows IH]; intros acc x; cbn [fold_left].
  - split; [now left | intros [H | (row & [] & _)]; exact H].
  - rewrite IH. unfold scanRow. rewrite scanRow_In. split.
    + intros [[H | H] | (row' & Hin & H)].
      * now left.
      * right. exists row. split; [now left | exact H].
      * right. exists row'. split; [now right | exact H].
    + intros [H | (row' & [<- | Hin] & H)].
      * left. now left.
      * left. now right.
      * right. exists row'. now split.
Qed.

Lemma detect_NoDup (rows : list Row) :
  forall acc, NoDup acc -> NoDup (fold_left scanRow rows acc).
Proof.
  induction rows as [|row rows IH]; intros acc H; [exact H |].
  cbn [fold_left]. apply IH. now apply scanRow_NoDup.
Qed.

Lemma detect_old (rows : list Row) :
  forall acc,
    (forall row k, In row rows -> In k (Obj.keys row) -> isDataColumn k = true ->
                   JSObject.inherited k = false -> In k acc) ->
    fold_left scanRow rows acc = acc.
Proof.
  induction rows as [|row rows IH]; intros acc H; [reflexivity |].
  cbn [fold_left]. unfold scanRow at 2. rewrite scanRow_old.
  - apply IH. intros row' k Hrow'. apply H. now right.
  - intros k. apply H. now left.
Qed.

(** The table shows every column that an export writes, and the two agree
    when the rows have the same columns.  The columns of the table are
    listed once each; they are the keys of the first hundred rows that are
    neither internal nor reserved, nor named like an inherited property.
    Every data column of the header of an export of all rows is among
    them, if it is not so named; a column of the table that the first row
    does not have is not in that header.  When the first hundred rows all
    have the keys of the first row, and none of these is named like an
    inherited property, the columns of the table are the data columns of
    the header, in the same order. *)
Theorem table_columns_cover_export_columns (first : Row) (rest : list Row) :
  let data := first :: rest in
  let cols := detectDataColumns data in
  NoDup cols /\
  (forall k,
     In k cols <->
     exists row, In row (take 100 data) /\ In k (Obj.keys row)
                 /\ isDataColumn k = true /\ JSObject.inherited k = false) /\
  (forall k, In k (dataColsOf first) -> JSObject.inherited k = false ->
             In k cols) /\
  (forall k, In k cols -> ~ In k (Obj.keys first) -> ~ In k (schemaOf first)) /\
  (NoDup (Obj.keys first) ->
   Forall (fun k => JSObject.inherited k = false) (Obj.keys first) ->
   Forall (fun row => Obj.keys row = Obj.keys first) (take 100 data) ->
   cols = dataColsOf first).
Proof.
  cbv zeta. unfold detectDataColumns.
  assert (Hin : forall k,
             In k (fold_left scanRow (take 100 (first :: rest)) [])
             <-> exists row, In row (take 100 (first :: rest))
                             /\ In k (Obj.keys row)
                             /\ isDataColumn k = true
                             /\ JSObject.inherited k = false).
  { intros k. rewrite detect_In. cbn [In]. tauto. }
  split; [| split; [| split; [| split]]].
  - apply detect_NoDup. constructor.
  - exact Hin.
  - intros k Hk Hinh. apply Hin. exists first.
    unfold dataColsOf in Hk. apply filter_In in Hk. destruct Hk as [Hk Hd].
    split; [now left |]. split; [exact Hk |].
    split; [now rewrite isDataColumn_dataCols | exact Hinh].
  - intros k Hk Hnot Hs. apply Hin in Hk.
    destruct Hk as (row & _ & _ & Hd & _).
    unfold schemaOf in Hs. apply in_app_iff in Hs. destruct Hs as [Hs | Hs].
    + unfold dataColsOf in Hs. apply filter_In in Hs. now destruct Hs.
    + rewrite isDataColumn_dataCols in Hd.
      apply andb_true_iff in Hd. destruct Hd as [_ Hr].
      apply negb_true_iff in Hr.
      apply (proj2 (arrIncludes_In _ k)) in Hs.
      unfold reserved in Hr. congruence.
  - intros Hnd Hinh Hall.
    change (take 100 (first :: rest)) with (first :: take 99 rest) in *.
    cbn [fold_left]. unfold scanRow at 2.
    rewrite (scanRow_fresh (Obj.keys first) [] Hnd); [| tauto | exact Hinh].
    cbn [app].
    assert (Hf : filter isDataColumn (Obj.keys first) = dataColsOf first).
    { unfold dataColsOf. apply filter_ext. intros k.
      apply isDataColumn_dataCols. }
    rewrite Hf. apply detect_old.
    intros row k Hrow Hk Hd _.
    inversion Hall as [|? ? _ Hall']; subst.
    rewrite (proj1 (List.Forall_forall _ _) Hall' row Hrow) in Hk.
    unfold dataColsOf. apply filter_In. split; [exact Hk |].
    now rewrite <- isDataColumn_dataCols.
Qed.

End TableColumns.

(** ** app.js: the files that are pushed and the files that are downloaded *)

Section SendToCrdw.

Import CsvDownload CsvFiles GitHubPush DictApp Selection.

Lemma get_of_entry {A} (l : list (string * A)) (k : string) (v : A) :
  NoDup (Obj.keys l) -> In (k, v) l -> Obj.get l k = Some v.
Proof.
  induction l as [|[k' v'] l IH]; intros Hnd Hin; [contradiction |].
  inversion Hnd as [|? ? Hnotin Hnd']; subst. cbn [Obj.get].
  destruct Hin as [Heq | Hin].
  - injection Heq as -> ->. now rewrite String.eqb_refl.
  - destruct (String.eqb_spec k' k) as [-> | _]; [| now apply IH].
    exfalso. apply Hnotin. change k with (fst (k, v)). now apply in_map.
Qed.

Variable type : string.

Lemma pushed_groups (groups : list (string * list Row)) :
  Forall (fun entry =>
            snd entry <> [] /\
            Forall (fun k => JSObject.inherited k = false)
                   (Obj.keys (hd [] (snd entry)))) groups ->
  map (fun entry =>
         ("data-public/metadata" ++ "/" ++ getDownloadFilename type (fst entry) "",
          buildCsvContent (snd entry))) groups
  = map (fun f => ("data-public/metadata/" ++ fst f, csvContent (snd f)))
        (downloadAll groups type "" false).
Proof.
  induction groups as [|[src rows] groups IH]; intros H; [reflexivity |].
  inversion H as [|? ? [Hne Hown] H']; subst. cbn [fst snd] in Hne, Hown.
  unfold downloadAll. cbn [map flat_map fst snd].
  rewrite (download_is_buildCsvContent rows type src "" Hne Hown).
  cbn [app map fst snd csvContent]. f_equal. now apply IH.
Qed.

(** What [sendToCrdw] pushes is what [downloadCsv] writes without a project
    prefix.  For the same matching rows, with sources and columns that are
    not named like an inherited property, the data files pushed are the
    data files of a download with an empty project name, one for one and in
    the same order: each under the path data-public/metadata/ and the name
    of the download, with the same text. *)
Theorem pushed_files_are_downloaded_files (matchingData : list Row) :
  Forall (fun r => JSObject.inherited (sourceOf r) = false) matchingData ->
  Forall (fun r => Forall (fun k => JSObject.inherited k = false) (Obj.keys r))
         matchingData ->
  sendToCrdw_files type matchingData
  = map (fun f => ("data-public/metadata/" ++ fst f, csvContent (snd f)))
        (downloadCsv_files type "" matchingData).
Proof.
  intros _ Hcols. unfold sendToCrdw_files, downloadCsv_files. cbv zeta.
  destruct (Z.of_nat (length matchingData) =? 0) eqn:Elen; [reflexivity |].
  assert (Hne : matchingData <> []).
  { intros ->. discriminate. }
  destruct (String.eqb type "dx").
  - assert (Hown : Forall (fun k => JSObject.inherited k = false)
                     (Obj.keys (hd [] matchingData))).
    { destruct matchingData as [|r rest]; [congruence |].
      now inversion Hcols. }
    now rewrite (download_is_buildCsvContent matchingData "dx" "" "" Hne Hown).
  - apply pushed_groups.
    destruct (groupBySource_fold matchingData [] (NoDup_nil _)) as (Hk & Hget & _).
    fold (groupBySource matchingData) in Hk, Hget.
    apply List.Forall_forall. intros [src rows] Hin. cbn [snd].
    pose proof (get_of_entry _ src rows Hk Hin) as Hg.
    rewrite Hget in Hg. cbn [Obj.get default app] in Hg.
    assert (Hrows : rows = filter (fun r => String.eqb (sourceOf r) src) matchingData
                    /\ rows <> []).
    { destruct (filter _ matchingData) as [|r rs]; [discriminate |].
      injection Hg as <-. split; [reflexivity | discriminate]. }
    destruct Hrows as [Hrows Hrne]. split; [exact Hrne |].
    destruct rows as [|r rs]; [congruence |]. cbn [hd].
    assert (Hr : In r matchingData).
    { assert (Hin' : In r (r :: rs)) by now left.
      rewrite Hrows in Hin'. now apply filter_In in Hin'. }
    now apply (proj1 (List.Forall_forall _ _) Hcols r).
Qed.

End SendToCrdw.

Lemma pushed_files_are_downloaded_files_witness :
  Forall (fun r => JSObject.inherited (Selection.sourceOf r) = false) Demo.rows /\
  Forall (fun r => Forall (fun k => JSObject.inherited k = false) (Obj.keys r))
         Demo.rows /\
  Selection.sendToCrdw_files "medication" Demo.rows
  = map (fun f => ("data-public/metadata/" ++ fst f, CsvDownload.csvContent (snd f)))
        (Selection.downloadCsv_files "medication" "" Demo.rows).
Proof.
  assert (H1 : Forall (fun r => JSObject.inherited (Selection.sourceOf r) = false)
                 Demo.rows) by (repeat constructor).
  assert (H2 : Forall (fun r => Forall (fun k => JSObject.inherited k = false)
                                  (Obj.keys r)) Demo.rows)
    by (repeat constructor).
  split; [exact H1 | split; [exact H2 |]].
  apply (pushed_files_are_downloaded_files "medication" Demo.rows H1 H2).
Defined.

(** ** The worker: who is let through *)

Section Allowlist.

Import Worker.

Lemma endsWith_suffix (s p : string) :
  JS.endsWith s p = true <-> exists a, s = a ++ p.
Proof.
  split.
  - induction s as [|c s IH]; cbn [JS.endsWith]; intros H.
    + rewrite orb_false_r in H. apply String.eqb_eq in H. subst p. now exists "".
    + apply orb_true_iff in H. destruct H as [H | H].
      * apply String.eqb_eq in H. subst p. now exists "".
      * destruct (IH H) as (a & ->). now exists (String c a).
  - intros (a & ->). apply endsWith_snoc.
Qed.

Lemma startsWith_prefix (s p : string) :
  JS.startsWith s p = true <-> exists b, s = p ++ b.
Proof.
  revert s. induction p as [|a p IH]; intros s.
  - split; [intros _; now exists s | intros _; now destruct s].
  - destruct s as [|c s]; cbn [JS.startsWith].
    + split; [discriminate | intros (b & H); discriminate].
    + rewrite andb_true_iff, IH, Ascii.eqb_eq. split.
      * intros [-> (b & ->)]. now exists b.
      * intros (b & H). rewrite append_cons in H. injection H as -> ->.
        split; [reflexivity | now exists b].
Qed.

(** The allow list lets through exact entries and domain wild cards, and
    nothing else: an address is allowed exactly when it is an entry of the
    list, or the list has an entry *@domain and the address ends with
    @domain.  With an empty list nobody is allowed, and a longer list
    allows whoever a shorter one allows. *)
Theorem allowlist_admits_entries_and_domains (email : string)
    (allowedList : list string) :
  (isEmailAllowed email allowedList = true
   <-> In email allowedList
       \/ exists domain name,
            In ("*@" ++ domain) allowedList /\ email = name ++ "@" ++ domain) /\
  isEmailAllowed email [] = false /\
  (forall more,
     isEmailAllowed email allowedList = true ->
     isEmailAllowed email (allowedList ++ more) = true).
Proof.
  split; [| split].
  - unfold isEmailAllowed. rewrite existsb_exists. split.
    + intros (pattern & Hin & H). apply orb_true_iff in H.
      destruct H as [H | H].
      * apply String.eqb_eq in H. subst pattern. now left.
      * apply andb_true_iff in H. destruct H as [Hs He].
        apply startsWith_prefix in Hs. destruct Hs as (domain & ->).
        apply endsWith_suffix in He. destruct He as (name & He).
        right. exists domain, name. split; [exact Hin | exact He].
    + intros [Hin | (domain & name & Hin & ->)].
      * exists email. split; [exact Hin |]. now rewrite String.eqb_refl.
      * exists ("*@" ++ domain). split; [exact Hin |].
        apply orb_true_iff. right. apply andb_true_iff. split.
        -- apply startsWith_prefix. now exists domain.
        -- apply endsWith_suffix. now exists name.
  - reflexivity.
  - intros more H. unfold isEmailAllowed in *. rewrite existsb_app, H.
    reflexivity.
Qed.

End Allowlist.

(** ** csv-download.js: the trailing columns of the two exporters *)

Section TwoExporters.

Import CsvDownload.

Lemma get_value_In {A} (l : list (string * A)) (k : string) (v : A) :
  Obj.get l k = Some v -> In v (Obj.values l).
Proof.
  induction l as [|[k' v'] l IH]; [discriminate |].
  cbn [Obj.get Obj.values map snd]. destruct (String.eqb k' k).
  - intros H. injection H as ->. now left.
  - intros H. right. now apply IH.
Qed.

(** Every schema of the table is a list of data columns followed by
    desired and category; none names keyword_matched. *)
Lemma schemas_end_with_category :
  Forall (fun schema =>
            exists dataCols,
              schema = (dataCols ++ ["desired"; "category"])%list /\
              ~ In "keyword_matched" schema)
         (Obj.values schemas).
Proof.
  unfold schemas, Obj.values. cbn [map snd].
  repeat constructor;
    match goal with
    | |- exists dataCols, ?s = _ /\ _ =>
        exists (removelast (removelast s)); split;
        [reflexivity | cbn; intuition discriminate]
    end.
Qed.

Lemma getDownloadSchema_shape (type source : string) :
  getDownloadSchema type source = []
  \/ exists dataCols,
       getDownloadSchema type source = (dataCols ++ ["desired"; "category"])%list
       /\ ~ In "keyword_matched" (getDownloadSchema type source).
Proof.
  unfold getDownloadSchema. cbv zeta.
  pose proof schemas_end_with_category as Hall.
  rewrite List.Forall_forall in Hall.
  destruct (Obj.get schemas _) as [schema|] eqn:E1.
  - right. apply Hall. now apply (get_value_In _ _ _ E1).
  - destruct (Obj.get schemas type) as [schema|] eqn:E2; [| now left].
    right. apply Hall. now apply (get_value_In _ _ _ E2).
Qed.

Variables (rows : list Row) (type source projectName : string)
          (desiredOnly : bool).

(** C7, as it holds.  The two copies of csv-download.js export differently.
    The one that reads the columns off the rows writes, whenever there are
    rows to export, a header of the data columns followed by desired,
    category, keyword_matched as its last three names.  The one that takes
    the columns from [getDownloadSchema] writes the schema as header, which
    ends with desired, category and has no keyword_matched, and writes
    nothing for a type without a schema.  In both, every data line carries
    in the desired column the text TRUE when the desired flag of its row is
    set and FALSE when it is not. *)
Theorem trailing_columns_of_both_exporters :
  let exportRows :=
    if desiredOnly
    then filter (fun r => Obj.truthy (Obj.get r "desired")) rows
    else rows in
  (exportRows <> [] ->
   exists (d : Download) (dataCols : list string),
     download rows type source projectName desiredOnly = Some d /\
     rowCount d = length exportRows /\
     dataCols = dataColsOf (hd [] exportRows) /\
     Forall (fun col => reserved col = false /\ JS.startsWith col "_" = false)
            dataCols /\
     let schema := (dataCols ++ ["desired"; "category"; "keyword_matched"])%list in
     csvContent d =
       JS.join (JS.str JS.newline)
         (JS.join "," schema
            :: map (fun row => JS.join "," (fields schema row)) exportRows) /\
     (exists pre, JS.join "," schema = pre ++ "desired,category,keyword_matched") /\
     forall row, In row exportRows ->
       fields schema row =
         (map (field row) dataCols
          ++ [ (if Obj.truthy (Obj.get row "desired") then "TRUE" else "FALSE");
               field row "category"; field row "keyword_matched" ])%list /\
       forall b : bool, Obj.get row "desired" = Some (VBool b) ->
         nth (length dataCols) (fields schema row) "" =
         if b then "TRUE" else "FALSE") /\
  (JSObject.inherited type = false ->
   let schema := getDownloadSchema type source in
   (schema = [] ->
    SchemaDownload.download rows type source projectName desiredOnly = None) /\
   (schema <> [] ->
    exists (d : Download) (dataCols : list string),
      SchemaDownload.download rows type source projectName desiredOnly = Some d /\
      rowCount d = length exportRows /\
      schema = (dataCols ++ ["desired"; "category"])%list /\
      ~ In "keyword_matched" schema /\
      csvContent d =
        JS.join (JS.str JS.newline)
          (JS.join "," schema
             :: map (fun row => JS.join "," (fields schema row)) exportRows) /\
      (exists pre, JS.join "," schema = pre ++ "desired,category") /\
      forall row, In row exportRows ->
        fields schema row =
          (map (field row) dataCols
           ++ [ (if Obj.truthy (Obj.get row "desired") then "TRUE" else "FALSE");
                field row "category" ])%list /\
        forall b : bool, Obj.get row "desired" = Some (VBool b) ->
          nth (length dataCols) (fields schema row) "" =
          if b then "TRUE" else "FALSE")).
Proof.
  intros exportRows. split.
  - apply download_trailing_columns.
  - intros _ schema. split.
    + intros Hs. unfold SchemaDownload.download. fold schema. now rewrite Hs.
    + intros Hs.
      destruct (getDownloadSchema_shape type source) as [H | (dataCols & Hd & Hk)];
        [contradiction |].
      fold schema in Hd, Hk.
      assert (Hlen : (Z.of_nat (length schema) =? 0) = false).
      { apply Z.eqb_neq. rewrite Hd, length_app. cbn [length]. lia. }
      exists {| csvContent :=
                  JS.join (JS.str JS.newline)
                    (JS.join "," schema :: map (dataLine schema) exportRows);
                rowCount := length exportRows |}, dataCols.
      split; [| split; [reflexivity | split; [exact Hd |
        split; [exact Hk | split; [reflexivity | split]]]]].
      * unfold SchemaDownload.download. fold schema. now rewrite Hlen.
      * rewrite Hd.
        apply (join_trailing "," dataCols ["desired"; "category"]). discriminate.
      * intros row _.
        assert (Hf : fields schema row
                     = (map (field row) dataCols
                        ++ [ (if Obj.truthy (Obj.get row "desired")
                              then "TRUE" else "FALSE");
                             field row "category" ])%list).
        { rewrite Hd. unfold fields. rewrite map_app. cbn [map].
          now rewrite field_desired. }
        split; [exact Hf |].
        intros b Hb. rewrite Hf, app_nth2 by (rewrite length_map; lia).
        rewrite length_map, Nat.sub_diag, Hb. reflexivity.
Qed.

End TwoExporters.

(** The header of the exporter by schema does not end with desired,
    category, keyword_matched: for the two rows of the example it stops at
    category, and for type procedure nothing is written at all. *)
Lemma schema_export_has_no_keyword_matched :
  SchemaDownload.download Demo.rows "dx" "" "" false =
  Some {| CsvDownload.csvContent :=
            JS.join (JS.str JS.newline)
              [ "concept_id,vocabulary_id,icd_code,icd_description,desired,category";
                "35206462,ICD10CM,C50.911,Malignant neoplasm of breast,TRUE,"
                  ++ JS.str JS.dquote ++ "breast, female" ++ JS.str JS.dquote;
                "44826110,ICD9CM,174.9,Malignant neoplasm of breast,FALSE," ];
          CsvDownload.rowCount := 2 |} /\
  ~ (exists pre,
       "concept_id,vocabulary_id,icd_code,icd_description,desired,category"
       = pre ++ "desired,category,keyword_matched") /\
  SchemaDownload.download Demo.rows "procedure" "epic" "" false = None.
Proof.
  split; [reflexivity | split; [| reflexivity]].
  intros H. apply endsWith_suffix in H. vm_compute in H. discriminate.
Qed.

Lemma trailing_columns_of_both_exporters_witness :
  Demo.rows <> [] /\
  JSObject.inherited "dx" = false /\
  CsvDownload.getDownloadSchema "dx" "" <> [] /\
  (exists d,
     CsvDownload.download Demo.rows "dx" "" "study" false = Some d /\
     CsvDownload.rowCount d = 2%nat) /\
  (exists d,
     SchemaDownload.download Demo.rows "dx" "" "study" false = Some d /\
     CsvDownload.rowCount d = 2%nat).
Proof.
  assert (H1 : Demo.rows <> []) by discriminate.
  assert (H2 : JSObject.inherited "dx" = false) by reflexivity.
  assert (H3 : CsvDownload.getDownloadSchema "dx" "" <> []) by discriminate.
  split; [exact H1 | split; [exact H2 | split; [exact H3 |]]].
  destruct (trailing_columns_of_both_exporters Demo.rows "dx" "" "study" false)
    as [Hrows Hschema].
  split.
  - destruct (Hrows H1) as (d & _ & Hd & Hn & _).
    exists d. split; [exact Hd | exact Hn].
  - destruct (Hschema H2) as [_ Hsome].
    destruct (Hsome H3) as (d & _ & Hd & Hn & _).
    exists d. split; [exact Hd | exact Hn].
Defined.
